(** * flow.classifier.train: windowing, temporal prior and orchestration

    A shallow embedding of [src/flow/classifier/train.py].

    Conventions of the embedding.
    - Python exceptions are values of [exn]; a computation that may raise
      has type [result A], with [inl e] for "raised [e]".
    - Python [int] is [Z].  Python/NumPy floating point numbers are
      idealised as exact rationals extended with a not-a-number value
      ([float]); rounding and infinities are not part of the model.
    - A 2-D NumPy array (cells x frames) is a [matrix]: the number of
      cells together with the list of its frames (columns).
    - A Python [dict] is an insertion-ordered association list ([dict]).
    - A local variable that may be read before it is bound is an
      [option]; reading [None] raises [UnboundLocalError].
    - The trace source, the run catalogue, the classifier ([aode]) and
      the default parameters ([config]) are not in the sources: they are
      parameters of the functions that use them.  So is the random choice
      with its random state; [numpy_choice] is the one of NumPy.
    - NumPy is a current one: [np.array] refuses a list of arrays of
      unequal shapes.  [round] is Python 3's.
    - What the functions print is kept apart from what they return
      ([get_traces_prints], [nan_cells_prints]) and enters the event log
      of [train_classifier]. *)

From Stdlib Require Import String Ascii List ZArith QArith Qround Qabs Bool Lia
  Lqa Permutation Sorted DecimalString.
Import ListNotations.

Local Open Scope string_scope.
Local Open Scope list_scope.
Local Open Scope Z_scope.

(** ** Exceptions and the error monad *)

Inductive exn : Type :=
| ValueError (msg : string)
| IndexError (msg : string)
| KeyError (key : string)
| UnboundLocalError (name : string)
| TypeError (msg : string)
| AssertionError
| NotImplementedError.

Definition result (A : Type) : Type := (exn + A)%type.

Definition ok {A} (a : A) : result A := inr a.
Definition raise {A} (e : exn) : result A := inl e.

Definition bind {A B} (m : result A) (k : A -> result B) : result B :=
  match m with
  | inl e => inl e
  | inr a => k a
  end.

Notation "x <- m ;; k" := (bind m (fun x => k))
  (at level 61, m at next level, right associativity).
Notation "' pat <- m ;; k" := (bind m (fun x => match x with pat => k end))
  (at level 61, pat pattern, m at next level, right associativity).

(** A [for] loop whose body may raise: the state is threaded left to
    right and the first exception aborts the loop. *)
Fixpoint for_each {S X} (body : S -> X -> result S) (xs : list X) (s : S)
  : result S :=
  match xs with
  | [] => ok s
  | x :: xs' => s' <- body s x ;; for_each body xs' s'
  end.

(** Reading a local variable that may not have been bound yet. *)
Definition read_local {A} (name : string) (v : option A) : result A :=
  match v with
  | Some a => ok a
  | None => raise (UnboundLocalError name)
  end.

(** ** Python sequences *)

(** Normalisation of one bound of a slice over a sequence of [len]
    elements: negative bounds count from the end, and everything is
    clamped to [0, len]. *)
Definition slice_bound (len i : Z) : Z :=
  if i <? 0 then Z.max 0 (i + len) else Z.min i len.

(** [l[start:stop]]; [None] stands for an omitted bound. *)
Definition py_slice {A} (l : list A) (start stop : option Z) : list A :=
  let n := Z.of_nat (length l) in
  let a := match start with Some s => slice_bound n s | None => 0 end in
  let b := match stop with Some s => slice_bound n s | None => n end in
  firstn (Z.to_nat (b - a)) (skipn (Z.to_nat a) l).

(** [sub in s] on strings. *)
Fixpoint contains (sub s : string) : bool :=
  String.prefix sub s
  || match s with
     | EmptyString => false
     | String _ s' => contains sub s'
     end.

(** Boolean-mask selection [l[mask]] for sequences of equal length. *)
Fixpoint select {A} (mask : list bool) (l : list A) : list A :=
  match mask, l with
  | b :: mask', x :: l' => if b then x :: select mask' l' else select mask' l'
  | _, _ => []
  end.

(** ** Dictionaries (insertion ordered) *)

Definition dict (V : Type) : Type := list (string * V).

Fixpoint dict_get {V} (d : dict V) (k : string) : option V :=
  match d with
  | [] => None
  | (k', v) :: d' => if String.eqb k k' then Some v else dict_get d' k
  end.

Definition dict_mem {V} (d : dict V) (k : string) : bool :=
  match dict_get d k with Some _ => true | None => false end.

(** [d[k] = v]: an existing key keeps its position, a new key goes last. *)
Fixpoint dict_set {V} (d : dict V) (k : string) (v : V) : dict V :=
  match d with
  | [] => [(k, v)]
  | (k', v') :: d' =>
      if String.eqb k k' then (k', v) :: d' else (k', v') :: dict_set d' k v
  end.

(** [d.pop(k)] without the returned value. *)
Definition dict_remove {V} (d : dict V) (k : string) : dict V :=
  filter (fun kv => negb (String.eqb k (fst kv))) d.

Definition dict_keys {V} (d : dict V) : list string := map fst d.

(** [d[k]] as an expression. *)
Definition dict_item {V} (d : dict V) (k : string) : result V :=
  match dict_get d k with
  | Some v => ok v
  | None => raise (KeyError k)
  end.

(** ** Floating point numbers, idealised *)

Inductive float : Type :=
| NaN
| Fin (q : Q).

Definition isfinite (x : float) : bool :=
  match x with NaN => false | Fin _ => true end.

Definition fadd (x y : float) : float :=
  match x, y with
  | Fin a, Fin b => Fin (Qred (a + b))
  | _, _ => NaN
  end.

Definition fsub (x y : float) : float :=
  match x, y with
  | Fin a, Fin b => Fin (Qred (a - b))
  | _, _ => NaN
  end.

Definition fmul (x y : float) : float :=
  match x, y with
  | Fin a, Fin b => Fin (Qred (a * b))
  | _, _ => NaN
  end.

Definition fdiv (x y : float) : float :=
  match x, y with
  | Fin a, Fin b => if Qeq_bool b 0 then NaN else Fin (Qred (a / b))
  | _, _ => NaN
  end.

(** Comparisons involving NaN are false, as in IEEE 754. *)
Definition fle (x y : float) : bool :=
  match x, y with
  | Fin a, Fin b => Qle_bool a b
  | _, _ => false
  end.

Definition fgt (x y : float) : bool :=
  match x, y with
  | Fin a, Fin b => negb (Qle_bool a b)
  | _, _ => false
  end.

Definition fge (x y : float) : bool := fle y x.

Definition of_Z (z : Z) : float := Fin (inject_Z z).
Definition of_nat (n : nat) : float := of_Z (Z.of_nat n).

(** [np.ceil]. *)
Definition fceil (x : float) : float :=
  match x with
  | NaN => NaN
  | Fin a => of_Z (Qceiling a)
  end.

(** Equality of floats up to the representation of the rational. *)
Definition feq (x y : float) : Prop :=
  match x, y with
  | NaN, NaN => True
  | Fin a, Fin b => (a == b)%Q
  | _, _ => False
  end.

(** ** NumPy arrays *)

(** A cells x frames array.  [frames] lists the columns; in a well-formed
    matrix every column has [ncells] entries. *)
Record matrix : Type := mkMatrix {
  ncells : nat;
  frames : list (list float)
}.

(** [m.shape[1]] *)
Definition nframes (m : matrix) : nat := length (frames m).

Definition well_formed (m : matrix) : Prop :=
  Forall (fun fr => length fr = ncells m) (frames m).

(** [m[:, start:stop]] *)
Definition slice_frames (m : matrix) (start stop : option Z) : matrix :=
  mkMatrix (ncells m) (py_slice (frames m) start stop).

(** [m[:, mask]] for a boolean [mask]. *)
Definition mask_frames (m : matrix) (mask : list bool) : result matrix :=
  if Nat.eqb (length mask) (nframes m)
  then ok (mkMatrix (ncells m) (select mask (frames m)))
  else raise (IndexError "boolean index did not match indexed array").

(** [m[mask, :]] for a boolean [mask]. *)
Definition mask_cells (m : matrix) (mask : list bool) : result matrix :=
  if Nat.eqb (length mask) (ncells m)
  then ok (mkMatrix (length (filter (fun b => b) mask))
                    (map (select mask) (frames m)))
  else raise (IndexError "boolean index did not match indexed array").

(** [np.concatenate([a, b], axis=1)] *)
Definition concatenate_frames (a b : matrix) : result matrix :=
  if Nat.eqb (ncells a) (ncells b)
  then ok (mkMatrix (ncells a) (frames a ++ frames b))
  else raise (ValueError "all the input array dimensions except for the concatenation axis must match exactly").

(** [np.invert] and [np.bitwise_or] on boolean vectors. *)
Definition invert (mask : list bool) : list bool := map negb mask.

Fixpoint zip_with {A B C} (f : A -> B -> C) (xs : list A) (ys : list B)
  : list C :=
  match xs, ys with
  | x :: xs', y :: ys' => f x y :: zip_with f xs' ys'
  | _, _ => []
  end.

Definition bitwise_or (a b : list bool) : result (list bool) :=
  if Nat.eqb (length a) (length b)
  then ok (zip_with orb a b)
  else raise (ValueError "operands could not be broadcast together").

Definition fsum (l : list float) : float := fold_left fadd l (Fin 0).

(** [np.mean] of a vector: NaN on an empty vector. *)
Definition mean (l : list float) : float :=
  match l with
  | [] => NaN
  | _ => fdiv (fsum l) (of_nat (length l))
  end.

(** [nanmean] of a vector: the mean of the entries that are not NaN. *)
Definition nanmean (l : list float) : float := mean (filter isfinite l).

(** [nanmean] of a boolean vector: the fraction of true entries. *)
Definition nanmean_bool (l : list bool) : float :=
  mean (map (fun b : bool => if b then Fin 1 else Fin 0) l).

(** [np.nanmean(m, axis=0)]: one value per frame. *)
Definition nanmean_axis0 (m : matrix) : list float :=
  map nanmean (frames m).

(** [np.nanmean(m, axis=1)]: one value per cell. *)
Definition nanmean_axis1 (m : matrix) : list float :=
  map (fun i => nanmean (map (fun fr => nth i fr NaN) (frames m)))
      (seq 0 (ncells m)).

Definition isnan (x : float) : bool := negb (isfinite x).

(** The order used by [np.sort]: NaN sorts last. *)
Definition sort_le (x y : float) : bool :=
  match x, y with
  | Fin a, Fin b => Qle_bool a b
  | _, NaN => true
  | NaN, Fin _ => false
  end.

Fixpoint insert_sorted (x : float) (l : list float) : list float :=
  match l with
  | [] => [x]
  | y :: l' => if sort_le x y then x :: l else y :: insert_sorted x l'
  end.

(** [np.sort] *)
Definition sort (l : list float) : list float :=
  fold_right insert_sorted [] l.

(** [np.median]: NaN on an empty vector or when an entry is NaN,
    otherwise the middle of the sorted values (the mean of the two
    middle values for an even count). *)
Definition median (l : list float) : float :=
  if existsb isnan l then NaN
  else
    let s := sort l in
    let n := length s in
    match n with
    | O => NaN
    | _ =>
        if Nat.even n
        then fdiv (fadd (nth (n / 2 - 1) s NaN) (nth (n / 2) s NaN)) (Fin 2)
        else nth (n / 2) s NaN
    end.

(** [np.nanmedian] *)
Definition nanmedian (l : list float) : float := median (filter isfinite l).

Section Std.
(** The square root is the one operation that leaves the rationals; it
    is a parameter of the model. *)
Variable np_sqrt : Q -> Q.

Definition fsqrt (x : float) : float :=
  match x with
  | NaN => NaN
  | Fin a => if Qle_bool 0 a then Fin (np_sqrt a) else NaN
  end.

(** [np.std]: the square root of the mean squared deviation. *)
Definition std (l : list float) : float :=
  let mu := mean l in
  fsqrt (mean (map (fun x => fmul (fsub x mu) (fsub x mu)) l)).
End Std.

(** Whether two windows have the same numbers of cells and of frames. *)
Definition same_shape (a b : matrix) : bool :=
  Nat.eqb (ncells a) (ncells b) && Nat.eqb (nframes a) (nframes b).

(** How NumPy's message for a list of arrays of unequal shapes begins;
    NumPy goes on with the shape it detected. *)
Definition msg_inhomogeneous : string :=
  "setting an array element with a sequence.".

(** [np.array(ws)] on a list of windows: windows of one shape are
    stacked, which keeps the list; windows of unequal shapes are
    refused. *)
Definition np_array (ws : list matrix) : result (list matrix) :=
  match ws with
  | [] => ok []
  | w :: rest =>
      if forallb (same_shape w) rest then ok ws
      else raise (ValueError msg_inhomogeneous)
  end.

(** [np.random.choice(a, size, replace=False)] of NumPy on a list of
    windows.  The population is converted with [np.array] and must have
    one dimension: an empty list has, a stack of windows has three and is
    refused before anything is drawn, so that the random state [g] is
    left as it was. *)
Definition numpy_choice {rng : Type} (g : rng) (a : list matrix) (size : Z)
  : result (list matrix * rng) :=
  pop <- np_array a ;;
  match pop with
  | [] =>
      if size =? 0 then ok ([], g)
      else raise (ValueError "'a' cannot be empty unless no samples are taken")
  | _ :: _ => raise (ValueError "a must be 1-dimensional")
  end.

(** [str(n)] for a count. *)
Definition decimal (n : nat) : string :=
  NilZero.string_of_uint (Nat.to_uint n).

(** ** The trace source *)

(** The pad around onsets, documented as "int or (int, int)". *)
Inductive pad : Type :=
| PadInt (n : Z)
| PadPair (pre post : Z).

(** The arguments of [csonsets] past the class name. *)
Inductive csonsets_args : Type :=
| DefaultArgs
| Args (errortrials lick_cutoff : Z) (lick_window : Z * Z).

(** Modelled from the spec: the Trace Source of a run ([run.trace2p()]),
    whose class is not part of the sources; section 6 of the
    specification lists its interface.  Every method is a field, so that
    the functions of this file hold for any trace source. *)
Record Trace2P : Type := mkTrace2P {
  trace : string -> matrix;
  cses : list string;
  csonsets : string -> csonsets_args -> list Z;
  nocs : Z -> pad -> float -> list Z;
  speed : list float;
  framerate : float;
  t2p_ncells : nat;
  lastonset : Z;
  inactivity : list bool;
  trialmask : string -> Z -> bool -> float -> float -> list bool
}.

(** Modelled from the spec: a Date, identified by mouse and day. *)
Record Date : Type := mkDate {
  date_mouse : string;
  date_date : Z;
  date_framerate : float
}.

(** Modelled from the spec: a Run, "one recording session for a mouse on
    a date, tagged with a run type and descriptive tags"; two runs are
    equal when mouse, date and run number agree. *)
Record Run : Type := mkRun {
  mouse : string;
  date : Z;
  run : Z;
  run_type : string;
  tags : list string;
  parent : Date;
  trace2p : Trace2P
}.

Definition date_eqb (a b : Date) : bool :=
  String.eqb (date_mouse a) (date_mouse b) && (date_date a =? date_date b).

Definition run_eqb (a b : Run) : bool :=
  String.eqb (mouse a) (mouse b) && (date a =? date b) && (run a =? run b).

(** [r in runs] *)
Definition run_in (r : Run) (runs : list Run) : bool :=
  existsb (run_eqb r) runs.

(** [tag in tags] *)
Definition tag_in (tag : string) (ts : list string) : bool :=
  existsb (String.eqb tag) ts.

(** ** Windowing extractor: [_get_traces] and [_get_run_onsets] *)

(** The keyword parameters of [_get_traces]. *)
Record kwargs : Type := mkKwargs {
  trace_type : string;
  length_fr : Z;
  pad_fr : pad;
  offset_fr : Z;
  running_threshold_cms : float;
  correct_trials : bool;
  lick_cutoff : Z;
  lick_window : Z * Z;
  running_fraction : float;
  max_n_onsets : Z;
  remove_stim : bool
}.

(** The defaults of the signature of [_get_traces]. *)
Definition default_kwargs : kwargs :=
  {| trace_type := "deconvolved"; length_fr := 15; pad_fr := PadInt 31;
     offset_fr := 1; running_threshold_cms := Fin 4; correct_trials := false;
     lick_cutoff := -1; lick_window := (-1, 0);
     running_fraction := Fin (3 # 10); max_n_onsets := -1;
     remove_stim := true |}.

(** Class name -> windows. *)
Definition buckets : Type := dict (list matrix).

(** [trs[:, start:start + length_fr]] with [start = onset + offset_fr]. *)
Definition window_at (trs : matrix) (offset_fr length_fr onset : Z) : matrix :=
  let start := onset + offset_fr in
  slice_frames trs (Some start) (Some (start + length_fr)).

Definition _get_run_onsets (runs : list Run) (length_fr : Z) (pad_fr : pad)
    (running_threshold_cms : float) (offset_fr : Z) : list matrix :=
  flat_map
    (fun r =>
       let t2p := trace2p r in
       let tr := trace t2p "deconvolved" in
       let others :=
         nocs t2p length_fr pad_fr running_threshold_cms in
       map (window_at tr offset_fr length_fr) others)
    runs.

(** [out[cs].append(w)], where [out] may still be unbound. *)
Definition append_window (out : option buckets) (cs : string) (w : matrix)
  : result (option buckets) :=
  d <- read_local "out" out ;;
  ws <- dict_item d cs ;;
  ok (Some (dict_set d cs (ws ++ [w]))).

(** Body of [for ncs in t2p.cses()] (lines 425-443). *)
Definition add_cs_onsets (k : kwargs) (all_cses : dict string)
    (t2p : Trace2P) (trs : matrix) (out : option buckets) (ncs : string)
  : result (option buckets) :=
  match dict_get all_cses ncs with
  | None => ok out
  | Some cs =>
      d <- read_local "out" out ;;
      let out := Some (if dict_mem d cs then d else dict_set d cs []) in
      let ons :=
        csonsets t2p ncs
          (Args (if correct_trials k then 0 else -1)
                (lick_cutoff k) (lick_window k)) in
      for_each
        (fun out on =>
           let toappend := window_at trs (offset_fr k) (length_fr k) on in
           if Z.of_nat (nframes toappend) =? length_fr k
           then append_window out cs toappend
           else ok out)
        ons out
  end.

(** The "other" frames of one training run (lines 449-461). *)
Definition add_other_windows (k : kwargs) (t2p : Trace2P) (trs : matrix)
    (out : option buckets) : result (option buckets) :=
  let others := nocs t2p (length_fr k) (pad_fr k) (of_Z (-1)) in
  if (0 <? length (speed t2p))%nat then
    let running :=
      map (fun s => fgt s (running_threshold_cms k)) (speed t2p) in
    for_each
      (fun out ot =>
         let start := ot + offset_fr k in
         if fgt (nanmean_bool
                   (py_slice running (Some start)
                             (Some (start + length_fr k))))
                (running_fraction k)
         then append_window out "other-running"
                (window_at trs (offset_fr k) (length_fr k) ot)
         else append_window out "other"
                (window_at trs (offset_fr k) (length_fr k) ot))
      others out
  else ok out.

(** Body of [for training_run in runs] (lines 415-461). *)
Definition add_training_run (k : kwargs) (target : Run)
    (all_cses : dict string) (out : option buckets) (training_run : Run)
  : result (option buckets) :=
  let t2p := trace2p training_run in
  let trs := trace t2p (trace_type k) in
  out <- (if remove_stim k || negb (run_eqb training_run target)
          then for_each (add_cs_onsets k all_cses t2p trs) (cses t2p) out
          else ok out) ;;
  if negb (run_eqb training_run target)
  then add_other_windows k t2p trs out
  else ok out.

(** Lines 404-461: everything before the cap.  [out] is bound only when
    the target run is not one of the running runs. *)
Definition collect_windows (target : Run) (runs running_runs : list Run)
    (all_cses : dict string) (k : kwargs) : result (option buckets) :=
  let out : option buckets :=
    if negb (run_in target running_runs)
    then Some [("other-running",
                _get_run_onsets running_runs (length_fr k) (pad_fr k)
                  (running_threshold_cms k) (offset_fr k))]
    else None in
  for_each (add_training_run k target all_cses) runs out.

(** Lines 474-475: [out[cs] = np.array(out[cs])] for every class. *)
Definition stack_buckets (d : buckets) : result buckets :=
  for_each
    (fun (d : buckets) cs =>
       ws <- dict_item d cs ;;
       stacked <- np_array ws ;;
       ok (dict_set d cs stacked))
    (dict_keys d) d.

Definition msg_timing : string :=
  "WARNING: Have not yet checked new timing version".

Section Windowing.
(** NumPy's global random state and [np.random.choice(a, size,
    replace=False)], which live outside the sources. *)
Variable rng : Type.
Variable np_random_choice :
  rng -> list matrix -> Z -> result (list matrix * rng).

(** Body of [for cs in out] of the cap (lines 465-472). *)
Definition limit_onsets (k : kwargs) (st : buckets * rng) (cs : string)
  : result (buckets * rng) :=
  let '(d, g) := st in
  if negb (contains "other" cs) then
    ws <- dict_item d cs ;;
    if Z.of_nat (length ws) >? max_n_onsets k then
      '(chosen, g') <- np_random_choice g ws (max_n_onsets k) ;;
      ok (dict_set d cs chosen, g')
    else ok (d, g)
  else ok (d, g).

(** Lines 463-472. *)
Definition cap_onsets (k : kwargs) (out : option buckets) (g : rng)
  : result (option buckets * rng) :=
  if max_n_onsets k >? 0 then
    d <- read_local "out" out ;;
    '(d', g') <- for_each (limit_onsets k) (dict_keys d) (d, g) ;;
    ok (Some d', g')
  else ok (out, g).

(** What [_get_traces] returns; what it prints is [get_traces_prints]. *)
Definition _get_traces (target : Run) (runs running_runs : list Run)
    (all_cses : dict string) (k : kwargs) (g : rng)
  : result (buckets * rng) :=
  out <- collect_windows target runs running_runs all_cses k ;;
  '(out, g') <- cap_onsets k out g ;;
  d <- read_local "out" out ;;
  d <- stack_buckets d ;;
  ok (d, g').

(** The warnings of line 467 printed by [for cs in out] over the classes
    [keys]: one for every class without ['other'] in its name, until the
    loop ends or its body raises. *)
Fixpoint limit_prints (k : kwargs) (keys : list string) (st : buckets * rng)
  : list string :=
  match keys with
  | [] => []
  | cs :: keys' =>
      (if negb (contains "other" cs) then [msg_timing] else [])
      ++ match limit_onsets k st cs with
         | inr st' => limit_prints k keys' st'
         | inl _ => []
         end
  end.

(** Everything a call of [_get_traces] prints, whether it returns or
    raises. *)
Definition get_traces_prints (target : Run) (runs running_runs : list Run)
    (all_cses : dict string) (k : kwargs) (g : rng) : list string :=
  match collect_windows target runs running_runs all_cses k with
  | inr (Some d) =>
      if max_n_onsets k >? 0 then limit_prints k (dict_keys d) (d, g) else []
  | _ => []
  end.
End Windowing.

(** ** Temporal prior estimator: [_activity] *)

(** [mask[:stop] = False] *)
Definition clear_prefix (mask : list bool) (stop : Z) : list bool :=
  let b := Z.to_nat (slice_bound (Z.of_nat (length mask)) stop) in
  repeat false b ++ skipn b mask.

(** [v[start:stop] = x] *)
Definition assign_slice (v : list float) (start stop : Z) (x : float)
  : list float :=
  let n := Z.of_nat (length v) in
  let a := slice_bound n start in
  let b := slice_bound n stop in
  map (fun '(i, y) =>
         if (a <=? Z.of_nat i) && (Z.of_nat i <? b) then x else y)
      (combine (seq 0 (length v)) v).

(** [int(x)] on a float: truncation towards zero. *)
Definition py_int (x : float) : result Z :=
  match x with
  | NaN => raise (ValueError "cannot convert float NaN to integer")
  | Fin q => ok (if Qle_bool 0 q then Qfloor q else Qceiling q)
  end.

Definition msg_trace_type : string :=
  "Temporal classifier only implemented for deconvolved data.".

Definition msg_unknown_run : string :=
  "Unknown run_type and tags, not sure how to calculate activity.".

Section Activity.
Variable np_sqrt : Q -> Q.

(** Modelled from the spec: [Date.runs(run_types=..., tags=...)], "all
    runs of a given type/tag" on a date; the class is not part of the
    sources.  [None] stands for an omitted [tags] argument. *)
Variable date_runs : Date -> list string -> option (list string) -> list Run.

(** Lines 277-288: the runs to pool and whether they are spontaneous. *)
Definition select_runs (r : Run) : result (list Run * bool) :=
  if String.eqb (run_type r) "spontaneous" && tag_in "sated" (tags r) then
    ok (date_runs (parent r) ["spontaneous"] (Some ["sated"]), true)
  else if String.eqb (run_type r) "spontaneous" && tag_in "hungry" (tags r)
  then
    ok (date_runs (parent r) ["spontaneous"] (Some ["hungry"]), true)
  else if String.eqb (run_type r) "training" then
    ok (date_runs (parent r) ["training"] None, false)
  else raise (ValueError msg_unknown_run).

(** [cellact > np.nanmedian(cellact) + 2*np.std(cellact)] *)
Definition outlier_cells (cellact : list float) : list bool :=
  let cut := fadd (nanmedian cellact) (fmul (Fin 2) (std np_sqrt cellact)) in
  map (fun c => fgt c cut) cellact.

(** Body of [for r in runs] of the spontaneous branch (lines 294-312). *)
Definition pool_spontaneous_run (st : matrix * list bool) (r : Run)
  : result (matrix * list bool) :=
  let '(popact, outliers) := st in
  let t2p := trace2p r in
  let pact := trace t2p "deconvolved" in
  let fmin := lastonset t2p in
  let mask := clear_prefix (inactivity t2p) fmin in
  popact <- (if (0 <? ncells popact)%nat
             then sel <- mask_frames pact mask ;;
                  concatenate_frames popact sel
             else mask_frames pact mask) ;;
  let trs := slice_frames (trace t2p "deconvolved") (Some fmin) None in
  let cellact := nanmean_axis1 trs in
  let outs := outlier_cells cellact in
  outliers <- (if (length outliers =? 0)%nat
               then ok outs
               else bitwise_or outliers outs) ;;
  ok (popact, outliers).

(** Lines 292-312; the initial [popact = []] is the matrix without
    cells, for which [len(popact)] is 0 as well. *)
Definition pool_spontaneous (runs : list Run)
  : result (matrix * list bool) :=
  for_each pool_spontaneous_run runs (mkMatrix 0 [], []).

(** Lines 314-319. *)
Definition spontaneous_stats (popact : matrix) (outliers : list bool)
  : result (option (float * float)) :=
  if (0 <? ncells popact)%nat then
    kept <- mask_cells popact (invert outliers) ;;
    let popact := nanmean_axis0 kept in
    ok (Some (median popact, std np_sqrt popact))
  else ok None.

Definition stimulus_classes : list string :=
  ["plus*"; "neutral*"; "minus*"; "pavlovian*"].

(** Body of [for r in runs] of the training branch (lines 323-332). *)
Definition pool_training_run (st : list float * option nat) (r : Run)
  : result (list float * option nat) :=
  let '(popact, _) := st in
  let t2p := trace2p r in
  let ncells := t2p_ncells t2p in
  let pact := nanmean_axis0 (trace t2p "deconvolved") in
  skipframes <- py_int (fmul (framerate t2p) (Fin 4)) ;;
  let pact :=
    fold_left
      (fun pact cs =>
         fold_left
           (fun pact ons => assign_slice pact ons (ons + skipframes) NaN)
           (csonsets t2p cs DefaultArgs) pact)
      stimulus_classes pact in
  ok (popact ++ filter isfinite pact, Some ncells).

(** Lines 334-345. *)
Definition training_stats (popact : list float) (ncells : option nat)
  : result (option (float * float * list bool)) :=
  if (0 <? length popact)%nat then
    let percent := Fin 2 in
    let popact := sort popact in
    trim <- py_int (fdiv (fmul percent (of_nat (length popact))) (Fin 100)) ;;
    let popact := py_slice popact (Some trim) (Some (- trim)) in
    n <- read_local "ncells" ncells ;;
    ok (Some (median popact, std np_sqrt popact, repeat false n))
  else ok None.

(** Lines 347-353. *)
Definition scale_activity (stats : option (float * float))
    (baseline_activity baseline_sigma : float) : float * float :=
  match stats with
  | None => (Fin (1 # 100), fmul (Fin (8 # 100)) baseline_sigma)
  | Some (baseline, variance) =>
      (fmul baseline baseline_activity, fmul variance baseline_sigma)
  end.

(** The result is [(baseline, variance, outliers)]; [outliers] is
    [None] when the function returns Python's [None] for it. *)
Definition _activity (r : Run) (baseline_activity baseline_sigma : float)
    (trace_type : string) : result (float * float * option (list bool)) :=
  if negb (String.eqb trace_type "deconvolved") then
    raise (ValueError msg_trace_type)
  else
    '(runs, spontaneous) <- select_runs r ;;
    if spontaneous : bool then
      '(popact, outliers) <- pool_spontaneous runs ;;
      stats <- spontaneous_stats popact outliers ;;
      let '(baseline, variance) :=
        scale_activity stats baseline_activity baseline_sigma in
      ok (baseline, variance, Some outliers)
    else
      '(popact, ncells) <- for_each pool_training_run runs ([], None) ;;
      stats <- training_stats popact ncells ;;
      let '(baseline, variance) :=
        scale_activity (option_map fst stats)
          baseline_activity baseline_sigma in
      ok (baseline, variance, option_map snd stats).
End Activity.

(** ** Parameter sets *)

(** The values a parameter dictionary holds. *)
Inductive pyval : Type :=
| VBool (b : bool)
| VInt (z : Z)
| VFloat (x : float)
| VStr (s : string)
| VTuple (a b : pyval)
| VFloats (d : dict float)
| VStrs (d : dict string)
| VRuns (l : list Z)
| VOpaque (tag : string).

Definition params : Type := dict pyval.

(** Truth value of a parameter in a condition. *)
Definition truthy (v : pyval) : bool :=
  match v with
  | VBool b => b
  | VInt z => negb (z =? 0)
  | VFloat NaN => true
  | VFloat (Fin q) => negb (Qeq_bool q 0)
  | VStr s => negb (String.eqb s "")
  | VTuple _ _ => true
  | VFloats d => negb (Nat.eqb (length d) 0)
  | VStrs d => negb (Nat.eqb (length d) 0)
  | VRuns l => negb (Nat.eqb (length l) 0)
  | VOpaque _ => true
  end.

(** Typed reads.  A value of another type than the one the reader needs
    is reported as [TypeError]. *)
Definition as_float (v : pyval) : result float :=
  match v with
  | VBool b => ok (if b then Fin 1 else Fin 0)
  | VInt z => ok (of_Z z)
  | VFloat x => ok x
  | _ => raise (TypeError "a number is required")
  end.

Definition as_int (v : pyval) : result Z :=
  match v with
  | VBool b => ok (if b then 1 else 0)
  | VInt z => ok z
  | _ => raise (TypeError "an integer is required")
  end.

Definition as_str (v : pyval) : result string :=
  match v with
  | VStr s => ok s
  | _ => raise (TypeError "a string is required")
  end.

Definition as_floats (v : pyval) : result (dict float) :=
  match v with
  | VFloats d => ok d
  | _ => raise (TypeError "a mapping is required")
  end.

Definition as_strs (v : pyval) : result (dict string) :=
  match v with
  | VStrs d => ok d
  | _ => raise (TypeError "a mapping is required")
  end.

Definition as_int_pair (v : pyval) : result (Z * Z) :=
  match v with
  | VTuple a b => x <- as_int a ;; y <- as_int b ;; ok (x, y)
  | _ => raise (TypeError "a pair is required")
  end.

(** [v[0]] and [v[1]] *)
Definition item0 (v : pyval) : result pyval :=
  match v with
  | VTuple a _ => ok a
  | _ => raise (TypeError "object is not subscriptable")
  end.

Definition item1 (v : pyval) : result pyval :=
  match v with
  | VTuple _ b => ok b
  | _ => raise (TypeError "object is not subscriptable")
  end.

(** [np.clip(x, 0, 1)] on one value. *)
Definition clip01 (x : float) : float :=
  match x with
  | NaN => NaN
  | Fin q => if Qle_bool q 0 then Fin 0 else if Qle_bool 1 q then Fin 1 else Fin q
  end.

(** [np.clip(m * multiplier, 0.0, 1.0)] *)
Definition scale_clip (multiplier : float) (m : matrix) : matrix :=
  mkMatrix (ncells m)
           (map (map (fun x => clip01 (fmul x multiplier))) (frames m)).

(** Elementwise operations on boolean masks of equal length. *)
Definition mask_or (a b : list bool) : result (list bool) :=
  bitwise_or a b.

Definition mask_and (a b : list bool) : result (list bool) :=
  if Nat.eqb (length a) (length b)
  then ok (zip_with andb a b)
  else raise (ValueError "operands could not be broadcast together").

(** ** Inference orchestrator: [classify_reactivations] *)

(** Lines 174-194: the stimulus-exclusion mask. *)
Definition build_stim_mask (pars : params) (replace_data : option matrix)
    (r : Run) : result (option (list bool)) :=
  remove <- dict_item pars "remove-stim" ;;
  if truthy remove && match replace_data with None => true | _ => false end
  then
    let t2p := trace2p r in
    ms <- dict_item pars "classification-ms" ;;
    ms <- as_float ms ;;
    let pad_s := fdiv (fdiv ms (Fin 1000)) (Fin 2) in
    let post_pad_s := fadd (Fin 0) pad_s in
    let post_pav_pad_s := fadd (Fin (1 # 2)) pad_s in
    let pad_s := fdiv (fceil (fmul pad_s (framerate t2p))) (framerate t2p) in
    let post_pad_s :=
      fdiv (fceil (fmul post_pad_s (framerate t2p))) (framerate t2p) in
    let post_pav_pad_s :=
      fdiv (fceil (fmul post_pav_pad_s (framerate t2p))) (framerate t2p) in
    let all_stim_mask := trialmask t2p "" (-1) false pad_s post_pad_s in
    let pav_mask := trialmask t2p "pavlovian*" (-1) false pad_s post_pav_pad_s in
    let blank_mask := trialmask t2p "blank*" (-1) false pad_s post_pav_pad_s in
    either <- mask_or all_stim_mask pav_mask ;;
    stim_mask <- mask_and either (invert blank_mask) ;;
    ok (Some stim_mask)
  else ok None.

(** [a += b] on per-frame series (a series of one value is broadcast). *)
Definition iadd (a b : list float) : result (list float) :=
  if Nat.eqb (length a) (length b) then ok (zip_with fadd a b)
  else match b with
       | [y] => ok (map (fun x => fadd x y) a)
       | _ => raise (ValueError "operands could not be broadcast together")
       end.

(** Class name -> per-frame series. *)
Definition results : Type := dict (list float).

(** Body of [for merge2 in merge_cses[1:]] (lines 237-238). *)
Definition merge_into (merge1 : string) (res : results) (merge2 : string)
  : result results :=
  a <- dict_item res merge1 ;;
  b <- dict_item res merge2 ;;
  sum <- iadd a b ;;
  let res := dict_set res merge1 sum in
  _ <- dict_item res merge2 ;;
  ok (dict_remove res merge2).

(** Lines 233-238. *)
Definition merge_results (merge_cses : list string) (res : results)
  : result results :=
  match merge_cses with
  | [] => ok res
  | merge1 :: rest => for_each (merge_into merge1) rest res
  end.

(** The value returned by [classify_reactivations]. *)
Record output (P L M : Type) : Type := mkOutput {
  out_parameters : params;
  out_results : results;
  out_likelihood : L;
  out_marginal : M;
  out_priors : P;
  out_cell_mask : list bool
}.
Arguments mkOutput {P L M}.
Arguments out_parameters {P L M}.
Arguments out_results {P L M}.
Arguments out_likelihood {P L M}.
Arguments out_marginal {P L M}.
Arguments out_priors {P L M}.
Arguments out_cell_mask {P L M}.

(** Modelled from the spec: a trained classifier ([aode.AODE]); the
    module [aode] is not part of the sources.  [P] are frame priors, [D]
    the diagnostic data, [L] the likelihoods and [M] the marginal. *)
Record AODE (P D L M : Type) : Type := mkAODE {
  classnames : list string;
  compare : matrix -> Z -> P -> result (results * D * L);
  marginal : M
}.
Arguments classnames {P D L M}.
Arguments compare {P D L M}.
Arguments marginal {P D L M}.

(** [np.any(np.invert(np.isfinite(m)), axis=1)] *)
Definition any_not_finite (m : matrix) : list bool :=
  map (fun i => existsb (fun fr => isnan (nth i fr NaN)) (frames m))
      (seq 0 (ncells m)).

(** [v[mask] = 0] *)
Definition zero_where (v : list float) (mask : list bool)
  : result (list float) :=
  if Nat.eqb (length mask) (length v)
  then ok (zip_with (fun x (b : bool) => if b then Fin 0 else x) v mask)
  else raise (IndexError "boolean index did not match indexed array").

Section Inference.
Variable np_sqrt : Q -> Q.
Variable date_runs : Date -> list string -> option (list string) -> list Run.

Variables P D L M : Type.

(** [aode.temporal_prior] and [aode.assign_temporal_priors]. *)
Variable temporal_prior :
  matrix -> float -> float -> pyval -> option (list bool) ->
  result (list float).
Variable assign_temporal_priors :
  dict float -> list float -> string -> result P.

(** Lines 196-222: the frame priors handed to the comparison; the
    [if]/[elif]/[else] is a test of the flag followed by a test of
    [replace_temporal_prior]. *)
Definition frame_priors (r : Run) (pars : params) (full_traces : matrix)
    (nan_cells : list bool) (priors : dict float)
    (stim_mask : option (list bool))
    (replace_temporal_prior : option (list float)) : result P :=
  tdp <- dict_item pars "temporal-dependent-priors" ;;
  if truthy tdp then
    match replace_temporal_prior with
    | None =>
        act <- dict_item pars "temporal-prior-baseline-activity" ;;
        act <- as_float act ;;
        sigma <- dict_item pars "temporal-prior-baseline-sigma" ;;
        sigma <- as_float sigma ;;
        tt <- dict_item pars "trace-type" ;;
        tt <- as_str tt ;;
        '(baseline, variance, outliers) <-
          _activity np_sqrt date_runs r act sigma tt ;;
        outliers <- match outliers with
                    | Some o => bitwise_or o nan_cells
                    | None =>
                        raise (TypeError "unsupported operand: NoneType")
                    end ;;
        kept <- mask_cells full_traces (invert outliers) ;;
        fwhm <- dict_item pars "temporal-prior-fwhm-frames" ;;
        tpriorvec <- temporal_prior kept baseline variance fwhm stim_mask ;;
        assign_temporal_priors priors tpriorvec "other"
    | Some t => assign_temporal_priors priors t "other"
    end
  else
    let ones := repeat (Fin 1) (nframes full_traces) in
    tpriorvec <- match stim_mask with
                 | Some m => zero_where ones m
                 | None => ok ones
                 end ;;
    assign_temporal_priors priors tpriorvec "other".

(** Lines 162-231: everything up to and including the comparison.  The
    result holds the per-class series, the likelihoods, the frame priors
    and the mask of the cells with a non-finite value. *)
Definition compare_traces (r : Run) (model : AODE P D L M)
    (pars : params) (nan_cells : option (list bool))
    (replace_data : option matrix)
    (replace_priors : option (dict float))
    (replace_temporal_prior : option (list float))
    (replace_integrate_frames : option Z)
  : result (results * L * P * list bool) :=
  full_traces <- match replace_data with
                 | Some d => ok d
                 | None => tt <- dict_item pars "trace-type" ;;
                           tt <- as_str tt ;;
                           ok (trace (trace2p r) tt)
                 end ;;
  let nan_cells := match nan_cells with
                   | Some n => n
                   | None => any_not_finite full_traces
                   end in
  priors <- match replace_priors with
            | Some p => ok p
            | None =>
                for_each (fun acc cs =>
                            prob <- dict_item pars "probability" ;;
                            prob <- as_floats prob ;;
                            v <- dict_item prob cs ;;
                            ok (dict_set acc cs v))
                         (classnames model) []
            end ;;
  stim_mask <- build_stim_mask pars replace_data r ;;
  used_priors <- frame_priors r pars full_traces nan_cells priors stim_mask
                   replace_temporal_prior ;;
  mult <- dict_item pars "analog-comparison-multiplier" ;;
  mult <- as_float mult ;;
  let full_traces := scale_clip mult full_traces in
  integrate_frames <- match replace_integrate_frames with
                      | None => n <- dict_item pars "classification-frames" ;;
                                as_int n
                      | Some n => ok n
                      end ;;
  '(res, _, likelihoods) <-
    compare model full_traces integrate_frames used_priors ;;
  ok (res, likelihoods, used_priors, nan_cells).

Definition classify_reactivations (r : Run) (model : AODE P D L M)
    (pars : params) (nan_cells : option (list bool))
    (merge_cses : option (list string)) (replace_data : option matrix)
    (replace_priors : option (dict float))
    (replace_temporal_prior : option (list float))
    (replace_integrate_frames : option Z) : result (output P L M) :=
  let merge_cses := match merge_cses with Some l => l | None => [] end in
  '(res, likelihoods, used_priors, nan_cells) <-
    compare_traces r model pars nan_cells replace_data replace_priors
      replace_temporal_prior replace_integrate_frames ;;
  res <- merge_results merge_cses res ;;
  ok (mkOutput pars res likelihoods (marginal model) used_priors
               (invert nan_cells)).
End Inference.

(** ** Training orchestrator: [train_classifier] *)

(** [round(x)]: to the nearest integer, ties to the even one. *)
Definition py_round (x : float) : result Z :=
  match x with
  | NaN => raise (ValueError "cannot convert float NaN to integer")
  | Fin q =>
      let f := Qfloor q in
      let twice := Qfloor (q * 2) - 2 * f in
      ok (if Qeq_bool (q - inject_Z f) (1 # 2)
          then (if Z.even f then f else f + 1)
          else f + twice)
  end.

(** [int(round(ms/1000.0*framerate))] *)
Definition ms_to_frames (ms : pyval) (framerate : float) : result Z :=
  ms <- as_float ms ;;
  py_round (fmul (fdiv ms (Fin 1000)) framerate).

Definition _convert_time_to_frames (pars : params) (framerate : float)
  : result params :=
  v <- dict_item pars "stimulus-training-ms" ;;
  n <- ms_to_frames v framerate ;;
  let pars := dict_set pars "stimulus-frames" (VInt n) in
  v <- dict_item pars "stimulus-training-offset-ms" ;;
  n <- ms_to_frames v framerate ;;
  let pars := dict_set pars "stimulus-offset-frames" (VInt n) in
  v <- dict_item pars "classification-ms" ;;
  n <- ms_to_frames v framerate ;;
  let pars := dict_set pars "classification-frames" (VInt n) in
  v <- dict_item pars "excluded-time-around-onsets-ms" ;;
  let pars :=
    match v with
    | VInt _ | VBool _ =>
        dict_set pars "excluded-time-around-onsets-ms" (VTuple v v)
    | _ => pars
    end in
  v <- dict_item pars "excluded-time-around-onsets-ms" ;;
  pre <- item0 v ;;
  pre <- ms_to_frames pre framerate ;;
  v <- dict_item pars "excluded-time-around-onsets-ms" ;;
  post <- item1 v ;;
  post <- ms_to_frames post framerate ;;
  let pars :=
    dict_set pars "excluded-time-around-onsets-frames"
             (VTuple (VInt pre) (VInt post)) in
  v <- dict_item pars "temporal-prior-fwhm-ms" ;;
  n <- ms_to_frames v framerate ;;
  ok (dict_set pars "temporal-prior-fwhm-frames" (VInt n)).

(** [key.replace('_', '-')] *)
Fixpoint replace_underscores (s : string) : string :=
  match s with
  | EmptyString => EmptyString
  | String c s' =>
      String (if Ascii.eqb c "_"%char then "-"%char else c)
             (replace_underscores s')
  end.

(** Whether some window of [ws] has a non-finite value for cell [i]. *)
Definition cell_has_nan (ws : list matrix) (i : nat) : bool :=
  existsb (fun w => existsb (fun fr => isnan (nth i fr NaN)) (frames w)) ws.

(** Lines 559-567: the cells found with a non-finite value, bucket by
    bucket, and the number of cells of the last bucket that is not
    empty. *)
Definition find_nan_cells (traces : buckets) : list nat * Z :=
  fold_left
    (fun '(nancells, n) '(_, ws) =>
       match ws with
       | [] => (nancells, n)
       | w :: _ =>
           let vals := seq 0 (ncells w) in
           (nancells ++ filter (cell_has_nan ws) vals, Z.of_nat (ncells w))
       end)
    traces ([], -1).

(** What [_nan_cells] returns; what it prints is [nan_cells_prints]. *)
Definition _nan_cells (traces : buckets) : result (list bool) :=
  let '(nancells, n) := find_nan_cells traces in
  if n <? 0 then raise (ValueError "negative dimensions are not allowed")
  else
    if forallb (fun i => (Z.of_nat i <? n)) nancells
    then ok (map (fun i => existsb (Nat.eqb i) nancells)
                 (seq 0 (Z.to_nat n)))
    else raise (IndexError "index is out of bounds").

(** The warning of line 575, printed once the mask is allocated when
    [set(nancells)] is not empty. *)
Definition nan_cells_prints (traces : buckets) : list string :=
  let '(nancells, n) := find_nan_cells traces in
  if n <? 0 then []
  else
    let found := length (nodup Nat.eq_dec nancells) in
    if (0 <? found)%nat
    then [("Warning: " ++ decimal found ++ " cells have NaNs")%string]
    else [].

Fixpoint insert_int (x : Z) (l : list Z) : list Z :=
  match l with
  | [] => [x]
  | y :: l' => if x <=? y then x :: l else y :: insert_int x l'
  end.

(** [sorted] on run numbers. *)
Definition sorted (l : list Z) : list Z := fold_right insert_int [] l.

(** What [train_classifier] does to the world, in order. *)
Inductive event : Type :=
| RunsQueried (d : Date) (run_types : list string) (tags : option (list string))
| TracesExtracted (target : Run) (runs running_runs : list Run)
| ModelTrained
| Printed (text : string).

(** A computation that may raise and that records its events. *)
Definition traced (A : Type) : Type := (list event * result A)%type.

Definition lift {A} (m : result A) : traced A := ([], m).
Definition tell (e : event) : traced unit := ([e], ok tt).

(** A call together with the lines it prints. *)
Definition printing {A} (lines : list string) (m : result A) : traced A :=
  (map Printed lines, m).

Definition tbind {A B} (m : traced A) (k : A -> traced B) : traced B :=
  match m with
  | (log, inl e) => (log, inl e)
  | (log, inr a) => let '(log', r) := k a in (log ++ log', r)
  end.

Notation "x <~ m ;; k" := (tbind m (fun x => k))
  (at level 61, m at next level, right associativity).
Notation "' pat <~ m ;; k" := (tbind m (fun x => match x with pat => k end))
  (at level 61, pat pattern, m at next level, right associativity).

(** [assert cond] *)
Definition assert (cond : bool) : result unit :=
  if cond then ok tt else raise AssertionError.

(** Lines 50-57: the date to train on. *)
Definition resolve_training_date (r : Run) (training_date : option Date)
  : result Date :=
  match training_date with
  | None => ok (parent r)
  | Some d =>
      if negb (date_eqb d (parent r)) then raise NotImplementedError
      else ok d
  end.

Section Training.
Variable rng : Type.
Variable np_random_choice :
  rng -> list matrix -> Z -> result (list matrix * rng).
Variable date_runs : Date -> list string -> option (list string) -> list Run.

(** Modelled from the spec: [config.default()], the default parameter
    set; the module [config] is not part of the sources. *)
Variable config_default : params.

Variables P D L M : Type.

(** [aode.AODE().train(traces, params['classifier'])] and
    [model.describe()]. *)
Variable aode_train : buckets -> pyval -> result (AODE P D L M).
Variable describe : AODE P D L M -> string.

(** Lines 60-69, for one of the two run sets. *)
Definition resolve_runs (training_date : Date) (supplied : option (list Run))
    (run_types tags : list string) : traced (list Run) :=
  match supplied with
  | None =>
      _ <~ tell (RunsQueried training_date run_types (Some tags)) ;;
      lift (ok (date_runs training_date run_types (Some tags)))
  | Some runs =>
      _ <~ lift (assert (forallb (fun r => date_eqb (parent r) training_date)
                                 runs)) ;;
      lift (ok runs)
  end.

(** Lines 82-84. *)
Definition collect_cses (pars : params) : result (dict string) :=
  prob <- dict_item pars "probability" ;;
  prob <- as_floats prob ;;
  let all_cses :=
    fold_left (fun acc key =>
                 if negb (contains "disengaged" key)
                 then dict_set acc key key else acc)
              (dict_keys prob) [] in
  equiv <- dict_item pars "training-equivalent" ;;
  equiv <- as_strs equiv ;;
  ok (fold_left (fun acc '(key, v) => dict_set acc key v) equiv all_cses).

(** The keyword arguments of the call of [_get_traces] (lines 87-99). *)
Definition extraction_kwargs (pars : params) : result kwargs :=
  tt <- dict_item pars "trace-type" ;; tt <- as_str tt ;;
  len <- dict_item pars "stimulus-frames" ;; len <- as_int len ;;
  padv <- dict_item pars "excluded-time-around-onsets-frames" ;;
  '(pre, post) <- as_int_pair padv ;;
  off <- dict_item pars "stimulus-offset-frames" ;; off <- as_int off ;;
  thr <- dict_item pars "other-running-speed-threshold-cms" ;;
  thr <- as_float thr ;;
  lc <- dict_item pars "lick-cutoff" ;; lc <- as_int lc ;;
  lw <- dict_item pars "lick-window" ;; lw <- as_int_pair lw ;;
  ct <- dict_item pars "train-only-on-positives" ;;
  rf <- dict_item pars "other-running-fraction" ;; rf <- as_float rf ;;
  mx <- dict_item pars "maximum-cs-onsets" ;; mx <- as_int mx ;;
  rs <- dict_item pars "remove-stim" ;;
  ok {| trace_type := tt; length_fr := len; pad_fr := PadPair pre post;
        offset_fr := off; running_threshold_cms := thr;
        correct_trials := truthy ct; lick_cutoff := lc; lick_window := lw;
        running_fraction := rf; max_n_onsets := mx;
        remove_stim := truthy rs |}.

(** Lines 102-104. *)
Definition rescale_traces (pars : params) (traces : buckets)
  : result buckets :=
  for_each
    (fun traces cs =>
       ws <- dict_item traces cs ;;
       mult <- dict_item pars "analog-training-multiplier" ;;
       mult <- as_float mult ;;
       ok (dict_set traces cs (map (scale_clip mult) ws)))
    (dict_keys traces) traces.

(** Lines 111-118. *)
Definition annotate (pars : params) (r : Run) (training_date : Date)
    (training_runs running_runs : list Run) : params :=
  let pars := dict_set pars "comparison-date" (VInt (date r)) in
  let pars := dict_set pars "comparison-run" (VInt (run r)) in
  let pars := dict_set pars "mouse" (VStr (mouse r)) in
  let pars := dict_set pars "training-date" (VInt (date_date training_date)) in
  let pars := dict_set pars "training-other-running-runs"
                       (VRuns (sorted (map run running_runs))) in
  dict_set pars "training-runs" (VRuns (sorted (map run training_runs))).

Definition train_classifier (r : Run)
    (training_runs running_runs : option (list Run))
    (training_date : option Date) (verbose : bool)
    (pars : list (string * pyval)) (g : rng)
  : traced (AODE P D L M * params * list bool) :=
  training_date <~ lift (resolve_training_date r training_date) ;;
  training_runs <~
    resolve_runs training_date training_runs ["training"] ["hungry"] ;;
  running_runs <~
    resolve_runs training_date running_runs ["running"] ["hungry"] ;;
  let params :=
    fold_left (fun acc '(key, val) =>
                 dict_set acc (replace_underscores key) val)
              pars config_default in
  params <~
    lift (_convert_time_to_frames params (date_framerate training_date)) ;;
  all_cses <~ lift (collect_cses params) ;;
  k <~ lift (extraction_kwargs params) ;;
  _ <~ tell (TracesExtracted r training_runs running_runs) ;;
  '(traces, _) <~
    printing
      (get_traces_prints rng np_random_choice r training_runs running_runs
         all_cses k g)
      (_get_traces rng np_random_choice r training_runs running_runs
         all_cses k g) ;;
  traces <~ lift (rescale_traces params traces) ;;
  classifier <~ lift (dict_item params "classifier") ;;
  _ <~ tell ModelTrained ;;
  model <~ lift (aode_train traces classifier) ;;
  _ <~ (if verbose then tell (Printed (describe model)) else lift (ok tt)) ;;
  let params :=
    annotate params r training_date training_runs running_runs in
  nan <~ printing (nan_cells_prints traces) (_nan_cells traces) ;;
  lift (ok (model, params, nan)).
End Training.

(** ** Predicates used in the statements *)

(** The run kinds [_activity] knows how to pool. *)
Definition supported_kind (r : Run) : Prop :=
  (run_type r = "spontaneous" /\ In "sated" (tags r))
  \/ (run_type r = "spontaneous" /\ In "hungry" (tags r))
  \/ run_type r = "training".

(** A supplied run set with a run that belongs to another date than [d]. *)
Definition foreign_run (d : Date) (supplied : option (list Run)) : Prop :=
  exists runs x,
    supplied = Some runs /\ In x runs /\ date_eqb (parent x) d = false.

(** [ws] is drawn from [pre] without replacement: what is left of [pre]
    completes [ws] to a rearrangement of [pre]. *)
Definition subsample (ws pre : list matrix) : Prop :=
  exists rest, Permutation pre (ws ++ rest).

(** The contract of [np.random.choice(a, size, replace=False)]: a result
    has [size] elements drawn from [a] without replacement. *)
Definition without_replacement {rng : Type}
    (choice : rng -> list matrix -> Z -> result (list matrix * rng)) : Prop :=
  forall g ws n chosen g',
    choice g ws n = ok (chosen, g') ->
    Z.of_nat (length chosen) = n /\ subsample chosen ws.

(** *** What each pass files under a bucket *)

(** Whether a window has exactly [length_fr] frames. *)
Definition exact_length (k : kwargs) (w : matrix) : bool :=
  Z.of_nat (nframes w) =? length_fr k.

(** The windows of one stimulus class [ncs] of a training run that the
    class pass files under [bucket]. *)
Definition cs_windows (k : kwargs) (all_cses : dict string) (t2p : Trace2P)
    (trs : matrix) (bucket ncs : string) : list matrix :=
  match dict_get all_cses ncs with
  | Some cs =>
      if String.eqb cs bucket
      then filter (exact_length k)
             (map (window_at trs (offset_fr k) (length_fr k))
                  (csonsets t2p ncs
                     (Args (if correct_trials k then 0 else -1)
                           (lick_cutoff k) (lick_window k))))
      else []
  | None => []
  end.

(** Whether the mouse runs in the window at the non-stimulus onset [ot]. *)
Definition is_running (k : kwargs) (t2p : Trace2P) (ot : Z) : bool :=
  let running := map (fun s => fgt s (running_threshold_cms k)) (speed t2p) in
  let start := ot + offset_fr k in
  fgt (nanmean_bool (py_slice running (Some start) (Some (start + length_fr k))))
      (running_fraction k).

(** The non-stimulus windows of a training run in which the mouse runs. *)
Definition running_windows (k : kwargs) (t2p : Trace2P) (trs : matrix)
  : list matrix :=
  if (0 <? length (speed t2p))%nat
  then map (window_at trs (offset_fr k) (length_fr k))
           (filter (is_running k t2p)
                   (nocs t2p (length_fr k) (pad_fr k) (of_Z (-1))))
  else [].

(** What one training run adds to the bucket ['other-running']: its class
    windows remapped to that name and, unless it is the target run, its
    running non-stimulus windows. *)
Definition other_running_of (k : kwargs) (target : Run)
    (all_cses : dict string) (training_run : Run) : list matrix :=
  let t2p := trace2p training_run in
  let trs := trace t2p (trace_type k) in
  (if remove_stim k || negb (run_eqb training_run target)
   then flat_map (cs_windows k all_cses t2p trs "other-running") (cses t2p)
   else [])
  ++ (if negb (run_eqb training_run target)
      then running_windows k t2p trs
      else []).

(** Every window of every bucket has exactly [length_fr] frames. *)
Definition windows_exact (k : kwargs) (out : option buckets) : Prop :=
  forall d cs ws w,
    out = Some d -> dict_get d cs = Some ws -> In w ws ->
    Z.of_nat (nframes w) = length_fr k.

(** The bucket ['other-running'] of a state of the extraction. *)
Definition other_running (out : option buckets) : option (list matrix) :=
  match out with
  | Some d => dict_get d "other-running"
  | None => None
  end.

(** *** The pooled activity of the spontaneous branch *)

(** The mean population activity, frame by frame, pooled over the runs
    and computed after the outlier cells are excluded (lines 292-315). *)
Definition pooled_activity (np_sqrt : Q -> Q) (runs : list Run)
  : result (list float * list bool) :=
  '(popact, outliers) <- pool_spontaneous np_sqrt runs ;;
  kept <- mask_cells popact (invert outliers) ;;
  ok (nanmean_axis0 kept, outliers).

(** A run catalogue as [Date.runs]: the runs of the date that have one
    of the run types and every tag and are not tagged ['bad'], the
    filters of [meta] in [metadata.py]. *)
Definition catalogue_runs (catalogue : list Run) (d : Date)
    (run_types : list string) (tgs : option (list string)) : list Run :=
  filter
    (fun r =>
       date_eqb (parent r) d
       && tag_in (run_type r) run_types
       && match tgs with
          | Some ts => forallb (fun t => tag_in t (tags r)) ts
          | None => true
          end
       && negb (tag_in "bad" (tags r)))
    catalogue.

(** *** Finite and non-negative values *)

Definition finite (x : float) : Prop := isfinite x = true.

(** A finite value that is not negative. *)
Definition nonneg (x : float) : Prop :=
  match x with
  | NaN => False
  | Fin q => (0 <= q)%Q
  end.

(** *** Merged series *)

(** The series of a class in a results mapping. *)
Definition series (res : results) (k : string) : list float :=
  match dict_get res k with
  | Some s => s
  | None => []
  end.

(** The frame-by-frame sum of the series of [first] and of every class of
    [rest], added in the order of the list. *)
Definition merged_series (res : results) (first : string)
    (rest : list string) : list float :=
  fold_left (fun acc k => zip_with fadd acc (series res k)) rest
            (series res first).

(** Equality of series, frame by frame. *)
Definition series_eq (a b : list float) : Prop := Forall2 feq a b.

(** *** The stimulus-exclusion mask in words *)

(** A duration in seconds rounded up to whole frames. *)
Definition round_up_to_frames (seconds rate : float) : float :=
  fdiv (fceil (fmul seconds rate)) rate.

(** Half the classification window, in seconds. *)
Definition half_window (classification_ms : float) : float :=
  fdiv (fdiv classification_ms (Fin 1000)) (Fin 2).

(** The union of the all-trial and the pavlovian-trial masks, minus the
    blank-trial mask.  Every mask is padded before the trial by half the
    classification window rounded up to whole frames; after the trial the
    all-trial mask is padded by the same amount, the pavlovian and blank
    masks by [extra] seconds more (rounded up together). *)
Definition padded_stim_mask (extra : float) (t2p : Trace2P)
    (classification_ms : float) : result (list bool) :=
  let pre := round_up_to_frames (half_window classification_ms) (framerate t2p) in
  let post :=
    round_up_to_frames (fadd extra (half_window classification_ms))
                       (framerate t2p) in
  either <- mask_or (trialmask t2p "" (-1) false pre pre)
                    (trialmask t2p "pavlovian*" (-1) false pre post) ;;
  mask_and either (invert (trialmask t2p "blank*" (-1) false pre post)).

(** *** Buckets of the extraction *)

(** Every window of the buckets whose name satisfies [named] has exactly
    [length_fr] frames. *)
Definition exact_on (named : string -> Prop) (k : kwargs)
    (out : option buckets) : Prop :=
  forall d cs ws w,
    out = Some d -> named cs -> dict_get d cs = Some ws -> In w ws ->
    Z.of_nat (nframes w) = length_fr k.

(** A class bucket: any bucket but the two that hold non-stimulus time. *)
Definition class_bucket (cs : string) : Prop :=
  cs <> "other" /\ cs <> "other-running".

(** The state of the extraction has a bucket named [cs]. *)
Definition has_bucket (cs : string) (out : option buckets) : Prop :=
  exists d ws, out = Some d /\ dict_get d cs = Some ws.

(** No stimulus class is remapped to ['other']. *)
Definition maps_nothing_to_other (all_cses : dict string) : Prop :=
  forall ncs cs, dict_get all_cses ncs = Some cs -> cs <> "other".

(** The buckets exist, ['other-running'] is one of them and ['other'] is
    not. *)
Definition lacks_other (out : option buckets) : Prop :=
  exists d ws,
    out = Some d /\ dict_get d "other" = None
    /\ dict_get d "other-running" = Some ws.

(** *** Further predicates *)

(** One step of the loop of [_nan_cells] (lines 561-567). *)
Definition nan_step (acc : list nat * Z) (kv : string * list matrix)
  : list nat * Z :=
  let '(nancells, n) := acc in
  let '(_, ws) := kv in
  match ws with
  | [] => (nancells, n)
  | w :: _ =>
      (nancells ++ filter (cell_has_nan ws) (seq 0 (ncells w)),
       Z.of_nat (ncells w))
  end.

(** Every non-empty bucket starts with a window of [n] cells. *)
Definition uniform_cells (n : nat) (traces : buckets) : Prop :=
  forall cs w ws, In (cs, w :: ws) traces -> ncells w = n.

(** Every bucket is a regular array of windows of [n] cells: the windows
    of a bucket have the same number of frames. *)
Definition regular_buckets (n : nat) (traces : buckets) : Prop :=
  forall cs ws,
    In (cs, ws) traces ->
    exists f, forall w, In w ws -> ncells w = n /\ nframes w = f.

(** The exclusion time as [_convert_time_to_frames] reads it: an integer
    stands for the pair of itself. *)
Definition as_exclusion_pair (v : pyval) : pyval :=
  match v with
  | VInt _ | VBool _ => VTuple v v
  | _ => v
  end.

(** The keys that [_convert_time_to_frames] writes. *)
Definition written_by_conversion : list string :=
  ["stimulus-frames"; "stimulus-offset-frames"; "classification-frames";
   "excluded-time-around-onsets-ms"; "excluded-time-around-onsets-frames";
   "temporal-prior-fwhm-frames"].

(** The scalar durations and the frame counts computed from them. *)
Definition scalar_conversions : list (string * string) :=
  [("stimulus-training-ms", "stimulus-frames");
   ("stimulus-training-offset-ms", "stimulus-offset-frames");
   ("classification-ms", "classification-frames");
   ("temporal-prior-fwhm-ms", "temporal-prior-fwhm-frames")].

(** [v] with NaN at the positions, counted from [i], that [blanked]
    selects. *)
Fixpoint blank_where (blanked : nat -> bool) (i : nat) (v : list float)
  : list float :=
  match v with
  | [] => []
  | y :: v' => (if blanked i then NaN else y) :: blank_where blanked (S i) v'
  end.

(** The onsets of the four stimulus classes of a run. *)
Definition stimulus_onsets (t2p : Trace2P) : list Z :=
  flat_map (fun cs => csonsets t2p cs DefaultArgs) stimulus_classes.

(** Frame [i] lies within [skipframes] frames after a stimulus onset. *)
Definition after_onset (t2p : Trace2P) (skipframes : Z) (i : nat) : bool :=
  existsb (fun ons => (ons <=? Z.of_nat i) && (Z.of_nat i <? ons + skipframes))
          (stimulus_onsets t2p).

(** The date [train_classifier] trains on when it does not raise. *)
Definition chosen_date (r : Run) (training_date : option Date) : Date :=
  match training_date with
  | Some d => d
  | None => parent r
  end.

(** The runs of one kind that [train_classifier] works with: the
    supplied ones, or the hungry runs of that kind of the date. *)
Definition resolved_runs
    (date_runs : Date -> list string -> option (list string) -> list Run)
    (d : Date) (supplied : option (list Run)) (kind : string) : list Run :=
  match supplied with
  | Some runs => runs
  | None => date_runs d [kind] (Some ["hungry"])
  end.

(** The metadata queries of one resolution. *)
Definition queries (d : Date) (supplied : option (list Run)) (kind : string)
  : list event :=
  match supplied with
  | Some _ => []
  | None => [RunsQueried d [kind] (Some ["hungry"])]
  end.

Definition is_query (e : event) : bool :=
  match e with
  | RunsQueried _ _ _ => true
  | _ => false
  end.

(** The warnings of line 467 of a call that went through the cap: with
    the cap on, one for every returned class without ['other'] in its
    name. *)
Definition cap_warnings (k : kwargs) (out : buckets) : list string :=
  if max_n_onsets k >? 0
  then map (fun _ => msg_timing)
           (filter (fun cs => negb (contains "other" cs)) (dict_keys out))
  else [].

(** The warning of line 575 for a returned mask: the number of cells it
    marks, when it marks one. *)
Definition nan_warning (mask : list bool) : list string :=
  let found := length (filter (fun b : bool => b) mask) in
  if (0 <? found)%nat
  then [("Warning: " ++ decimal found ++ " cells have NaNs")%string]
  else [].

(** The keys that [train_classifier] writes after training. *)
Definition written_after_training : list string :=
  ["comparison-date"; "comparison-run"; "mouse"; "training-date";
   "training-other-running-runs"; "training-runs"].

(** The value of the last keyword argument whose name, with hyphens for
    underscores, is [key]. *)
Fixpoint override (pars : list (string * pyval)) (key : string)
  : option pyval :=
  match pars with
  | [] => None
  | (k, v) :: rest =>
      match override rest key with
      | Some v' => Some v'
      | None => if String.eqb key (replace_underscores k) then Some v else None
      end
  end.

(** A value that [np.clip(., 0, 1)] can return: a missing value stays
    missing, every other value lies between 0 and 1. *)
Definition in_unit_interval (x : float) : Prop :=
  match x with
  | NaN => True
  | Fin q => (0 <= q <= 1)%Q
  end.

(** The data [classify_reactivations] compares: the replacement data, or
    the traces of the run of the type named in the parameters. *)
Definition compared_data (r : Run) (pars : params)
    (replace_data : option matrix) (data : matrix) : Prop :=
  match replace_data with
  | Some d => data = d
  | None => exists tt, dict_get pars "trace-type" = Some (VStr tt)
                       /\ data = trace (trace2p r) tt
  end.

(** Every window of every bucket multiplied by [mult] and clipped. *)
Definition rescaled (mult : float) (traces : buckets) : buckets :=
  map (fun kv => (fst kv, map (scale_clip mult) (snd kv))) traces.

(** ** Inputs used to run the model *)

(** A square root that is exact on squares of rationals. *)
Definition sqrt_of_squares (q : Q) : Q :=
  Z.sqrt (Qnum q) # Pos.sqrt (Qden q).

(** One cell, with the given values frame by frame. *)
Definition one_cell (values : list Q) : matrix :=
  mkMatrix 1 (map (fun q => [Fin q]) values).

(** A trace source with one stimulus class ["plus"]. *)
Definition ex_t2p (m : matrix) (onsets others : list Z) (sp : list float)
    (last : Z) (inactive : list bool) : Trace2P :=
  {| trace := fun _ => m;
     cses := ["plus"];
     csonsets := fun cs _ => if String.eqb cs "plus" then onsets else [];
     nocs := fun _ _ _ => others;
     speed := sp;
     framerate := Fin 1;
     t2p_ncells := ncells m;
     lastonset := last;
     inactivity := inactive;
     trialmask := fun _ _ _ _ _ => repeat false (nframes m) |}.

Definition ex_date : Date :=
  {| date_mouse := "M1"; date_date := 190101; date_framerate := Fin 1 |}.

Definition ex_other_date : Date :=
  {| date_mouse := "M1"; date_date := 190102; date_framerate := Fin 1 |}.

Definition ex_run (d : Date) (number : Z) (kind : string) (ts : list string)
    (t2p : Trace2P) : Run :=
  {| mouse := date_mouse d; date := date_date d; run := number;
     run_type := kind; tags := ts; parent := d; trace2p := t2p |}.

Definition ex_trace4 : matrix := one_cell [1; 2; 3; 4]%Q.

(** The run to classify in the examples: spontaneous and sated. *)
Definition ex_target : Run :=
  ex_run ex_date 3 "spontaneous" ["sated"]
    (ex_t2p ex_trace4 [] [] [] 0 [true; true; true; true]).

(** A training run of another date. *)
Definition ex_foreign : Run :=
  ex_run ex_other_date 1 "training" ["hungry"]
    (ex_t2p ex_trace4 [0] [] [] 0 []).

(** A classifier that cannot be trained. *)
Definition ex_untrained (traces : buckets) (classifier : pyval)
  : result (AODE unit unit unit unit) :=
  raise (ValueError "no training data").

(** A training run with two onsets of the class ["plus"]. *)
Definition ex_training : Run :=
  ex_run ex_date 1 "training" ["hungry"] (ex_t2p ex_trace4 [0; 1] [] [] 0 []).

(** The keyword arguments with a window length, an offset and a cap. *)
Definition ex_kwargs (len off cap : Z) : kwargs :=
  {| trace_type := "deconvolved"; length_fr := len; pad_fr := PadInt 31;
     offset_fr := off; running_threshold_cms := Fin 4; correct_trials := false;
     lick_cutoff := -1; lick_window := (-1, 0);
     running_fraction := Fin (3 # 10); max_n_onsets := cap;
     remove_stim := true |}.

(** A running-only run: four frames, one non-stimulus onset at frame 1. *)
Definition ex_running : Run :=
  ex_run ex_date 2 "running" ["hungry"]
    (ex_t2p ex_trace4 [] [1] [Fin 5; Fin 5; Fin 5; Fin 5] 0 []).

(** A training run during which the mouse runs: onsets of ["plus"] at
    frames 0 and 1, one non-stimulus onset at frame 1. *)
Definition ex_training_moving : Run :=
  ex_run ex_date 4 "training" ["hungry"]
    (ex_t2p ex_trace4 [0; 1] [1] [Fin 5; Fin 5; Fin 5; Fin 5] 0 []).

(** A sated spontaneous run of two frames, inactive throughout. *)
Definition ex_rest : Run :=
  ex_run ex_date 5 "spontaneous" ["sated"]
    (ex_t2p (one_cell [1; 3]%Q) [] [] [] 0 [true; true]).

(** A sated spontaneous run during which the mouse is never inactive. *)
Definition ex_restless : Run :=
  ex_run ex_date 6 "spontaneous" ["sated"]
    (ex_t2p ex_trace4 [] [] [] 0 [false; false; false; false]).

(** Six frames with one pavlovian trial on frame 2: a trial mask covers
    the frames from [2 - padpre] up to, not including, [3 + padpost]
    (the frame rate is 1); there is no blank trial. *)
Definition ex_trialmask (cs : string) (errortrials : Z) (fulltrial : bool)
    (padpre padpost : float) : list bool :=
  if String.eqb cs "blank*" then repeat false 6
  else map (fun i => fle (fsub (Fin 2) padpre) (of_nat i)
                     && fgt (fadd (Fin 3) padpost) (of_nat i))
           (seq 0 6).

Definition ex_trials : Run :=
  ex_run ex_date 7 "spontaneous" ["sated"]
    {| trace := fun _ => one_cell [0; 0; 1; 0; 0; 0]%Q;
       cses := ["pavlovian"];
       csonsets := fun _ _ => [2];
       nocs := fun _ _ _ => [];
       speed := [];
       framerate := Fin 1;
       t2p_ncells := 1;
       lastonset := 2;
       inactivity := repeat true 6;
       trialmask := ex_trialmask |}.

(** A parameter set: a classification window of two seconds, stimulus
    removal on, no temporal prior. *)
Definition ex_pars : params :=
  [("trace-type", VStr "deconvolved");
   ("remove-stim", VBool true);
   ("classification-ms", VInt 2000);
   ("classification-frames", VInt 2);
   ("temporal-dependent-priors", VBool false);
   ("analog-comparison-multiplier", VFloat (Fin 1));
   ("probability",
    VFloats [("A", Fin (1 # 4)); ("B", Fin (1 # 4)); ("other", Fin (1 # 2))])].

(** A trained model with the classes A, B and other, whose comparison
    returns fixed series. *)
Definition ex_model : AODE unit unit unit unit :=
  {| classnames := ["A"; "B"; "other"];
     compare := fun _ _ _ =>
       ok ([("A", [Fin (1 # 4); Fin (1 # 2)]);
            ("B", [Fin (1 # 4); Fin (1 # 8)]);
            ("other", [Fin (1 # 2); Fin (3 # 8)])], tt, tt);
     marginal := tt |}.

(** The collaborators of [aode] used by the examples. *)
Definition ex_temporal_prior (kept : matrix) (actmn actvar : float)
    (fwhm : pyval) (stim_mask : option (list bool)) : result (list float) :=
  ok (repeat (Fin 1) (nframes kept)).

Definition ex_assign_priors (priors : dict float) (tpriorvec : list float)
    (other : string) : result unit :=
  ok tt.

(** A training run with the class ["plus"] but no onset of it. *)
Definition ex_training_silent : Run :=
  ex_run ex_date 8 "training" ["hungry"] (ex_t2p ex_trace4 [] [] [] 0 []).

(** A training run during which the mouse stands still: one onset of
    ["plus"] and one non-stimulus onset, both at frame 0. *)
Definition ex_training_still : Run :=
  ex_run ex_date 9 "training" ["hungry"]
    (ex_t2p ex_trace4 [0] [0] [Fin 0; Fin 0; Fin 0; Fin 0] 0 []).

(** Windows of two frames, stimulus frames kept for the comparison. *)
Definition ex_kwargs_keep_stim : kwargs :=
  {| trace_type := "deconvolved"; length_fr := 2; pad_fr := PadInt 31;
     offset_fr := 0; running_threshold_cms := Fin 4; correct_trials := false;
     lick_cutoff := -1; lick_window := (-1, 0);
     running_fraction := Fin (3 # 10); max_n_onsets := -1;
     remove_stim := false |}.

(** A default parameter set with every key that the training reads:
    windows of two seconds, an exclusion time given as one integer. *)
Definition ex_config : params :=
  [("stimulus-training-ms", VInt 2000);
   ("stimulus-training-offset-ms", VInt 0);
   ("classification-ms", VInt 2000);
   ("excluded-time-around-onsets-ms", VInt 1000);
   ("temporal-prior-fwhm-ms", VInt 2500);
   ("probability",
    VFloats [("plus", Fin (1 # 20)); ("other", Fin (17 # 20));
             ("other-running", Fin (1 # 20)); ("disengaged1", Fin (1 # 20))]);
   ("training-equivalent", VStrs []);
   ("trace-type", VStr "deconvolved");
   ("other-running-speed-threshold-cms", VFloat (Fin 4));
   ("lick-cutoff", VInt (-1));
   ("lick-window", VTuple (VInt (-1)) (VInt 0));
   ("train-only-on-positives", VBool false);
   ("other-running-fraction", VFloat (Fin (3 # 10)));
   ("maximum-cs-onsets", VInt (-1));
   ("remove-stim", VBool true);
   ("analog-training-multiplier", VFloat (Fin (1 # 2)));
   ("classifier", VStr "aode")].

(** A training that returns the model of the examples. *)
Definition ex_trained (traces : buckets) (classifier : pyval)
  : result (AODE unit unit unit unit) :=
  ok ex_model.

(** A training run of four frames with an onset of every stimulus class
    at frame 0. *)
Definition ex_training_blanked : Run :=
  ex_run ex_date 10 "training" ["hungry"]
    {| trace := fun _ => ex_trace4;
       cses := ["plus"];
       csonsets := fun _ _ => [0];
       nocs := fun _ _ _ => [];
       speed := [];
       framerate := Fin 1;
       t2p_ncells := 1;
       lastonset := 0;
       inactivity := [];
       trialmask := fun _ _ _ _ _ => repeat false 4 |}.

(** Two cells and two frames; the second cell has a missing value. *)
Definition ex_gappy : matrix :=
  mkMatrix 2 [[Fin 1; NaN]; [Fin 2; Fin 3]].

(** A training run over these two frames with one onset of ["plus"]. *)
Definition ex_training_gappy : Run :=
  ex_run ex_date 11 "training" ["hungry"] (ex_t2p ex_gappy [0] [] [] 0 []).

(** * Properties *)

(** ** The error monad and loops *)

Lemma bind_ok {A B} (m : result A) (k : A -> result B) (b : B) :
  bind m k = ok b -> exists a, m = ok a /\ k a = ok b.
Proof.
  destruct m as [e | a]; simpl; intros H.
  - discriminate.
  - exists a; split; [reflexivity | exact H].
Qed.

(** Splits a successful [bind] in the hypotheses. *)
Ltac bind_inv H :=
  let a := fresh "a" in
  let Ha := fresh "Ha" in
  apply bind_ok in H; destruct H as (a & Ha & H).

Tactic Notation "split_bind" hyp(H) "as" ident(a) ident(Ha) :=
  apply bind_ok in H; destruct H as (a & Ha & H).

(** An invariant of the loop body is an invariant of the loop. *)
Lemma for_each_invariant {S X} (I : S -> Prop) (body : S -> X -> result S) :
  (forall s x s', I s -> body s x = ok s' -> I s') ->
  forall xs s s', I s -> for_each body xs s = ok s' -> I s'.
Proof.
  intros step xs; induction xs as [| x xs IH]; simpl; intros s s' Hs H.
  - injection H as <-; exact Hs.
  - bind_inv H. eapply IH; [| exact H]. eapply step; eauto.
Qed.

(** ** Membership tests *)

Lemma tag_in_In (tag : string) (ts : list string) :
  tag_in tag ts = true <-> In tag ts.
Proof.
  unfold tag_in; rewrite existsb_exists; split.
  - intros (x & Hx & E). apply String.eqb_eq in E; subst; exact Hx.
  - intros H; exists tag; split; [exact H | apply String.eqb_refl].
Qed.

(** ** Training orchestrator *)

Lemma select_runs_unsupported date_runs (r : Run) :
  ~ supported_kind r ->
  select_runs date_runs r = raise (ValueError msg_unknown_run).
Proof.
  intros H; unfold select_runs.
  destruct (String.eqb (run_type r) "spontaneous") eqn:Es; simpl.
  - apply String.eqb_eq in Es.
    destruct (tag_in "sated" (tags r)) eqn:Et.
    + exfalso; apply H; left; split; [exact Es | now apply tag_in_In].
    + destruct (tag_in "hungry" (tags r)) eqn:Eh.
      * exfalso; apply H; right; left; split; [exact Es | now apply tag_in_In].
      * rewrite Es; reflexivity.
  - destruct (String.eqb (run_type r) "training") eqn:Et.
    + exfalso; apply H; right; right; now apply String.eqb_eq.
    + reflexivity.
Qed.

(** C4. For every run whose run type and tags are not spontaneous/sated,
    spontaneous/hungry or training, [_activity] raises [ValueError] and
    returns nothing, whatever its other arguments; with the trace type
    ['deconvolved'] the error is the one about the unknown run type and
    tags. *)
Theorem activity_rejects_unsupported_kind np_sqrt date_runs (r : Run)
    (baseline_activity baseline_sigma : float) (trace_type : string) :
  ~ supported_kind r ->
  (exists msg,
      _activity np_sqrt date_runs r baseline_activity baseline_sigma trace_type
      = raise (ValueError msg))
  /\ (trace_type = "deconvolved" ->
      _activity np_sqrt date_runs r baseline_activity baseline_sigma trace_type
      = raise (ValueError msg_unknown_run)).
Proof.
  intros H; unfold _activity; split.
  - destruct (String.eqb trace_type "deconvolved"); simpl.
    + exists msg_unknown_run. now rewrite select_runs_unsupported.
    + exists msg_trace_type. reflexivity.
  - intros ->. simpl. now rewrite select_runs_unsupported.
Qed.

Lemma activity_rejects_unsupported_kind_witness :
  ~ supported_kind
      (ex_run ex_date 1 "running" ["hungry"] (ex_t2p (one_cell []) [] [] [] 0 []))
  /\ _activity sqrt_of_squares (fun _ _ _ => [])
       (ex_run ex_date 1 "running" ["hungry"] (ex_t2p (one_cell []) [] [] [] 0 []))
       (Fin 0) (Fin 3) "deconvolved"
     = raise (ValueError msg_unknown_run).
Proof.
  assert (H : ~ supported_kind
      (ex_run ex_date 1 "running" ["hungry"] (ex_t2p (one_cell []) [] [] [] 0 []))).
  { unfold supported_kind; simpl.
    intros [[E _] | [[E _] | E]]; discriminate E. }
  split; [exact H |].
  apply (activity_rejects_unsupported_kind sqrt_of_squares (fun _ _ _ => []) _
           (Fin 0) (Fin 3) "deconvolved" H).
  reflexivity.
Defined.

Lemma tbind_raise {A B} (log : list event) (e : exn) (k : A -> traced B) :
  tbind (log, inl e) k = (log, inl e).
Proof. reflexivity. Qed.

Lemma tbind_ok {A B} (log : list event) (a : A) (k : A -> traced B) :
  tbind (log, inr a) k = (log ++ fst (k a), snd (k a)).
Proof. unfold tbind. destruct (k a); reflexivity. Qed.

Lemma tbind_lift_ok {A B} (a : A) (k : A -> traced B) :
  tbind (lift (ok a)) k = k a.
Proof. unfold lift, ok. rewrite tbind_ok. destruct (k a); reflexivity. Qed.

Section TrainingProperties.
Context {rng : Type}.
Variable np_random_choice :
  rng -> list matrix -> Z -> result (list matrix * rng).
Variable date_runs : Date -> list string -> option (list string) -> list Run.
Variable config_default : params.
Context {P D L M : Type}.
Variable aode_train : buckets -> pyval -> result (AODE P D L M).
Variable describe : AODE P D L M -> string.

Local Abbreviation train :=
  (train_classifier rng np_random_choice date_runs config_default P D L M
     aode_train describe).

(** C10. A call that supplies a training date different from the date
    of the target run raises [NotImplementedError] with an empty event
    log: no run set was resolved and no trace was extracted. *)
Theorem train_on_other_date_not_implemented (r : Run)
    (training_runs running_runs : option (list Run)) (d : Date)
    (verbose : bool) (pars : list (string * pyval)) (g : rng) :
  date_eqb d (parent r) = false ->
  train r training_runs running_runs (Some d) verbose pars g
  = ([], raise NotImplementedError).
Proof.
  intros H. unfold train_classifier, resolve_training_date.
  rewrite H. reflexivity.
Qed.

Lemma resolve_runs_foreign (d : Date) (supplied : option (list Run))
    (run_types tgs : list string) :
  foreign_run d supplied ->
  resolve_runs date_runs d supplied run_types tgs = ([], raise AssertionError).
Proof.
  intros (runs & x & -> & Hin & Hx). unfold resolve_runs.
  assert (E : forallb (fun r => date_eqb (parent r) d) runs = false).
  { destruct (forallb _ runs) eqn:E; [| reflexivity].
    rewrite forallb_forall in E. rewrite (E x Hin) in Hx. discriminate. }
  rewrite E. reflexivity.
Qed.

(** Resolving a run set raises nothing but [AssertionError], and logs
    nothing but queries of the run catalogue. *)
Lemma resolve_runs_cases (d : Date) (supplied : option (list Run))
    (run_types tgs : list string) :
  exists log,
    Forall (fun e => exists rt tg, e = RunsQueried d rt tg) log
    /\ (resolve_runs date_runs d supplied run_types tgs
        = (log, raise AssertionError)
        \/ exists runs,
             resolve_runs date_runs d supplied run_types tgs = (log, ok runs)).
Proof.
  unfold resolve_runs. destruct supplied as [runs |].
  - exists []. split; [constructor |].
    unfold assert. destruct (forallb _ runs).
    + right. exists runs. reflexivity.
    + left. reflexivity.
  - exists [RunsQueried d run_types (Some tgs)]. split.
    + constructor; [eauto | constructor].
    + right. eexists. reflexivity.
Qed.

(** C5. When the training date resolves to [d] and a supplied training
    run or running run belongs to another date, the call raises
    [AssertionError]; the events before it are queries of the run
    catalogue only, so no trace was extracted. *)
Theorem foreign_run_fails_before_extraction (r : Run)
    (training_runs running_runs : option (list Run))
    (training_date : option Date) (d : Date)
    (verbose : bool) (pars : list (string * pyval)) (g : rng) :
  resolve_training_date r training_date = ok d ->
  foreign_run d training_runs \/ foreign_run d running_runs ->
  exists log,
    train r training_runs running_runs training_date verbose pars g
    = (log, raise AssertionError)
    /\ Forall (fun e => exists rt tg, e = RunsQueried d rt tg) log.
Proof.
  intros Hd Hf. unfold train_classifier. rewrite Hd, tbind_lift_ok.
  destruct (resolve_runs_cases d training_runs ["training"] ["hungry"])
    as (log1 & Hlog1 & [E1 | (runs1 & E1)]); rewrite E1.
  - exists log1. split; [apply tbind_raise | exact Hlog1].
  - destruct Hf as [Hf | Hf].
    + rewrite (resolve_runs_foreign _ _ ["training"] ["hungry"] Hf) in E1.
      discriminate.
    + unfold ok. rewrite tbind_ok. cbv beta.
      rewrite (resolve_runs_foreign _ _ ["running"] ["hungry"] Hf).
      rewrite tbind_raise. simpl fst; simpl snd.
      exists (log1 ++ []). split; [reflexivity |].
      rewrite app_nil_r. exact Hlog1.
Qed.
End TrainingProperties.

Lemma train_on_other_date_not_implemented_witness :
  date_eqb ex_other_date (parent ex_target) = false
  /\ train_classifier unit numpy_choice (fun _ _ _ => []) [] unit unit unit
       unit ex_untrained (fun _ => "") ex_target None None
       (Some ex_other_date) true [] tt
     = ([], raise NotImplementedError).
Proof.
  split; [reflexivity |].
  apply (train_on_other_date_not_implemented numpy_choice (fun _ _ _ => []) []
           ex_untrained (fun _ => "") ex_target None None ex_other_date true
           [] tt).
  reflexivity.
Defined.

Lemma foreign_run_fails_before_extraction_witness :
  resolve_training_date ex_target None = ok ex_date
  /\ foreign_run ex_date (Some [ex_foreign])
  /\ exists log,
      train_classifier unit numpy_choice (fun _ _ _ => []) [] unit unit unit
        unit ex_untrained (fun _ => "") ex_target (Some [ex_foreign]) None
        None true [] tt
      = (log, raise AssertionError)
      /\ Forall (fun e => exists rt tg, e = RunsQueried ex_date rt tg) log.
Proof.
  assert (F : foreign_run ex_date (Some [ex_foreign])).
  { exists [ex_foreign], ex_foreign.
    split; [reflexivity | split; [left; reflexivity | reflexivity]]. }
  split; [reflexivity | split; [exact F |]].
  apply (foreign_run_fails_before_extraction numpy_choice (fun _ _ _ => []) []
           ex_untrained (fun _ => "") ex_target (Some [ex_foreign]) None None
           ex_date true [] tt).
  - reflexivity.
  - left. exact F.
Defined.

(** ** Dictionaries *)

Lemma dict_get_set {V} (d : dict V) (k k' : string) (v : V) :
  dict_get (dict_set d k v) k'
  = if String.eqb k' k then Some v else dict_get d k'.
Proof.
  induction d as [| [k0 v0] d IH]; simpl.
  - destruct (String.eqb k' k); reflexivity.
  - destruct (String.eqb k k0) eqn:E; simpl.
    + apply String.eqb_eq in E; subst k0.
      destruct (String.eqb k' k); reflexivity.
    + destruct (String.eqb k' k0) eqn:E0.
      * apply String.eqb_eq in E0; subst k0.
        rewrite String.eqb_sym, E. reflexivity.
      * exact IH.
Qed.

Lemma dict_get_set_same {V} (d : dict V) (k : string) (v : V) :
  dict_get (dict_set d k v) k = Some v.
Proof. rewrite dict_get_set, String.eqb_refl. reflexivity. Qed.

Lemma dict_get_set_other {V} (d : dict V) (k k' : string) (v : V) :
  k' <> k -> dict_get (dict_set d k v) k' = dict_get d k'.
Proof.
  intros H. rewrite dict_get_set.
  destruct (String.eqb k' k) eqn:E; [| reflexivity].
  apply String.eqb_eq in E. contradiction.
Qed.

Lemma dict_get_keys {V} (d : dict V) (k : string) :
  In k (dict_keys d) <-> exists v, dict_get d k = Some v.
Proof.
  induction d as [| [k0 v0] d IH]; simpl.
  - split; [intros [] | intros (v & E); discriminate].
  - destruct (String.eqb k k0) eqn:E.
    + apply String.eqb_eq in E; subst. split; eauto.
    + rewrite <- IH. split.
      * intros [-> | H]; [rewrite String.eqb_refl in E; discriminate | exact H].
      * intros H; right; exact H.
Qed.

Lemma dict_get_remove {V} (d : dict V) (k k' : string) :
  dict_get (dict_remove d k) k'
  = if String.eqb k' k then None else dict_get d k'.
Proof.
  unfold dict_remove.
  induction d as [| [k0 v0] d IH]; simpl.
  - destruct (String.eqb k' k); reflexivity.
  - destruct (String.eqb k k0) eqn:E; simpl.
    + apply String.eqb_eq in E; subst k0. rewrite IH.
      destruct (String.eqb k' k); reflexivity.
    + rewrite IH. destruct (String.eqb k' k0) eqn:E0; [| reflexivity].
      apply String.eqb_eq in E0; subst k0.
      rewrite String.eqb_sym, E. reflexivity.
Qed.

Lemma dict_item_ok {V} (d : dict V) (k : string) (v : V) :
  dict_item d k = ok v <-> dict_get d k = Some v.
Proof.
  unfold dict_item. destruct (dict_get d k); split; intros H;
    try discriminate; injection H as <-; reflexivity.
Qed.

Lemma dict_set_noop {V} (d : dict V) (k : string) (v : V) :
  dict_get d k = Some v -> dict_set d k v = d.
Proof.
  induction d as [| [k0 v0] d IH]; simpl; [discriminate |].
  destruct (String.eqb k k0) eqn:E.
  - intros H; injection H as ->. reflexivity.
  - intros H. f_equal. apply IH. exact H.
Qed.

(** ** Sampling without replacement *)

Lemma subsample_refl (ws : list matrix) : subsample ws ws.
Proof. exists []. rewrite app_nil_r. apply Permutation_refl. Qed.

Lemma subsample_trans (a b c : list matrix) :
  subsample a b -> subsample b c -> subsample a c.
Proof.
  intros (r1 & H1) (r2 & H2). exists (r1 ++ r2).
  rewrite app_assoc. eapply Permutation_trans; [exact H2 |].
  apply Permutation_app_tail. exact H1.
Qed.

(** ** The cap on the number of onsets *)

Section CapProperties.
Context {rng : Type}.
Variable np_random_choice :
  rng -> list matrix -> Z -> result (list matrix * rng).

Local Abbreviation limit := (limit_onsets rng np_random_choice).

(** One step of the cap either leaves the buckets alone or replaces one
    bucket, of a class without ['other'] in its name and with too many
    windows, by what the random choice returned. *)
Lemma limit_onsets_cases (k : kwargs) (d d1 : buckets) (g g1 : rng)
    (cs : string) :
  limit k (d, g) cs = ok (d1, g1) ->
  (d1 = d /\ g1 = g
   /\ (contains "other" cs = true
       \/ exists ws, dict_get d cs = Some ws
                     /\ Z.of_nat (length ws) <= max_n_onsets k))
  \/ (exists ws chosen,
        contains "other" cs = false
        /\ dict_get d cs = Some ws
        /\ max_n_onsets k < Z.of_nat (length ws)
        /\ np_random_choice g ws (max_n_onsets k) = ok (chosen, g1)
        /\ d1 = dict_set d cs chosen).
Proof.
  unfold limit_onsets.
  destruct (contains "other" cs) eqn:Ec; simpl.
  - intros H; injection H as <- <-. left; auto.
  - intros H. bind_inv H. apply dict_item_ok in Ha.
    destruct (Z.of_nat (length a) >? max_n_onsets k) eqn:El.
    + bind_inv H. destruct a0 as [chosen g']. injection H as <- <-.
      right. exists a, chosen. repeat split; auto. lia.
    + injection H as <- <-. left. repeat split. right. exists a. split; auto.
      lia.
Qed.

(** Classes with ['other'] in their name are never touched. *)
Lemma cap_loop_keeps_other (k : kwargs) (ks : list string) :
  forall d g d' g',
    for_each (limit k) ks (d, g) = ok (d', g') ->
    forall cs, contains "other" cs = true -> dict_get d' cs = dict_get d cs.
Proof.
  induction ks as [| x ks IH]; simpl; intros d g d' g' H cs Hc.
  - injection H as <- <-. reflexivity.
  - bind_inv H. destruct a as [d1 g1].
    rewrite (IH _ _ _ _ H cs Hc).
    apply limit_onsets_cases in Ha.
    destruct Ha as [(-> & _ & _) | (ws & chosen & Hx & _ & _ & _ & ->)].
    + reflexivity.
    + apply dict_get_set_other. intros ->. congruence.
Qed.

Section Contract.
Hypothesis choice_without_replacement : without_replacement np_random_choice.

(** What the cap loop does to every bucket. *)
Lemma cap_loop_buckets (k : kwargs) (ks : list string) :
  forall d g d' g',
    for_each (limit k) ks (d, g) = ok (d', g') ->
    forall cs ws,
      dict_get d' cs = Some ws ->
      exists ws0,
        dict_get d cs = Some ws0
        /\ subsample ws ws0
        /\ (Z.of_nat (length ws0) <= max_n_onsets k -> ws = ws0)
        /\ (In cs ks -> contains "other" cs = false ->
            Z.of_nat (length ws) <= max_n_onsets k).
Proof.
  induction ks as [| x ks IH]; simpl; intros d g d' g' H cs ws Hws.
  - injection H as <- <-. exists ws. repeat split; auto using subsample_refl.
    intros [].
  - bind_inv H. destruct a as [d1 g1].
    destruct (IH _ _ _ _ H cs ws Hws) as (ws1 & H1 & Hsub & Hsmall & Hin).
    apply limit_onsets_cases in Ha.
    destruct Ha as [(-> & -> & Hx) | (wsx & chosen & Hx & Hgx & Hlen & Hch & ->)].
    + exists ws1. repeat split; auto.
      intros [<- | Hk] Hc; [| auto].
      destruct Hx as [Hx | (wsx & Hgx & Hlen)]; [congruence |].
      rewrite Hgx in H1. injection H1 as <-.
      rewrite (Hsmall Hlen). exact Hlen.
    + destruct (choice_without_replacement _ _ _ _ _ Hch) as (Hn & Hs).
      rewrite dict_get_set in H1.
      destruct (String.eqb cs x) eqn:E.
      * apply String.eqb_eq in E; subst x. injection H1 as <-.
        exists wsx. repeat split; auto.
        -- eapply subsample_trans; eauto.
        -- intros Hle. lia.
        -- intros _ _. rewrite Hsmall by lia. lia.
      * exists ws1. repeat split; auto.
        intros [<- | Hk] Hc; [| auto].
        rewrite String.eqb_refl in E. discriminate.
Qed.
End Contract.

End CapProperties.

(** *** The random choice of NumPy *)

Lemma np_array_ok (ws stacked : list matrix) :
  np_array ws = ok stacked -> stacked = ws.
Proof.
  unfold np_array. destruct ws as [| w rest].
  - intros H. injection H as <-. reflexivity.
  - destruct (forallb (same_shape w) rest); [| discriminate].
    intros H. injection H as <-. reflexivity.
Qed.

(** NumPy draws from no list of windows: what it returns is the empty
    sample of the empty list. *)
Lemma numpy_choice_ok {rng : Type} (g g' : rng) (ws chosen : list matrix)
    (n : Z) :
  numpy_choice g ws n = ok (chosen, g') ->
  ws = [] /\ chosen = [] /\ n = 0 /\ g' = g.
Proof.
  unfold numpy_choice. intros H. split_bind H as pop Hpop.
  apply np_array_ok in Hpop. subst pop.
  destruct ws as [| w ws]; [| discriminate].
  destruct (n =? 0) eqn:E; [| discriminate].
  injection H as <- <-. repeat split. lia.
Qed.

Lemma numpy_choice_without_replacement {rng : Type} :
  without_replacement (@numpy_choice rng).
Proof.
  intros g ws n chosen g' H.
  apply numpy_choice_ok in H as (-> & -> & -> & _).
  split; [reflexivity | apply subsample_refl].
Qed.

(** Windows stacked by [np.array] are the windows. *)
Lemma stack_buckets_ok (d d' : buckets) : stack_buckets d = ok d' -> d' = d.
Proof.
  unfold stack_buckets.
  apply (for_each_invariant (fun s : buckets => s = d)); [| reflexivity].
  intros s cs s' -> H.
  split_bind H as ws Hws. split_bind H as stacked Hst. injection H as <-.
  apply np_array_ok in Hst. subst stacked.
  apply dict_set_noop. apply dict_item_ok. exact Hws.
Qed.

(** With NumPy's choice the cap raises [ValueError] at every class it
    applies to. *)
Lemma numpy_cap_refuses {rng : Type} (k : kwargs) (d : buckets) (g : rng)
    (cs : string) (ws : list matrix) :
  contains "other" cs = false ->
  dict_get d cs = Some ws ->
  0 < max_n_onsets k < Z.of_nat (length ws) ->
  exists msg,
    limit_onsets rng numpy_choice k (d, g) cs = raise (ValueError msg).
Proof.
  intros Hc Hget Hlen. unfold limit_onsets, dict_item.
  rewrite Hc, Hget. cbn [negb bind ok].
  assert (E : (Z.of_nat (length ws) >? max_n_onsets k) = true) by lia.
  rewrite E. unfold numpy_choice, np_array.
  destruct ws as [| w rest]; [simpl in Hlen; lia |].
  destruct (forallb (same_shape w) rest); eexists; reflexivity.
Qed.

(** C2 fails on the code.  The class ['plus'] collects two windows, one
    more than the cap of one, and line 471 hands this list of windows to
    [np.random.choice], which takes a population of one dimension only:
    the extraction raises [ValueError] where the claim has it return one
    of the two windows.  With a cap of two, which the class does not
    exceed, nothing is drawn and both windows are returned. *)
Theorem cap_raises_when_a_class_exceeds_it :
  collect_windows ex_target [ex_training] [] [("plus", "plus")]
    (ex_kwargs 2 0 1)
  = ok (Some [("other-running", []);
              ("plus", [one_cell [1; 2]%Q; one_cell [2; 3]%Q])])
  /\ _get_traces unit numpy_choice ex_target [ex_training] []
       [("plus", "plus")] (ex_kwargs 2 0 1) tt
     = raise (ValueError "a must be 1-dimensional")
  /\ _get_traces unit numpy_choice ex_target [ex_training] []
       [("plus", "plus")] (ex_kwargs 2 0 2) tt
     = ok ([("other-running", []);
            ("plus", [one_cell [1; 2]%Q; one_cell [2; 3]%Q])], tt).
Proof. repeat split. Qed.

(** ** The bucket ['other-running'] *)

(** A loop whose body appends [f x] to a view of the state appends the
    concatenation of all [f x]. *)
Lemma for_each_accumulates {S X A} (view : S -> option (list A))
    (f : X -> list A) (body : S -> X -> result S) :
  (forall s x s' l,
      view s = Some l -> body s x = ok s' -> view s' = Some (l ++ f x)) ->
  forall xs s s' l,
    view s = Some l -> for_each body xs s = ok s' ->
    view s' = Some (l ++ flat_map f xs).
Proof.
  intros step xs. induction xs as [| x xs IH]; simpl; intros s s' l Hl H.
  - injection H as <-. rewrite app_nil_r. exact Hl.
  - split_bind H as s1 H1. rewrite app_assoc.
    eapply IH; [| exact H]. eapply step; eauto.
Qed.

Lemma flat_map_filter_map {X A} (p : A -> bool) (h : X -> A) (xs : list X) :
  flat_map (fun x => if p (h x) then [h x] else []) xs = filter p (map h xs).
Proof.
  induction xs as [| x xs IH]; simpl; [reflexivity |].
  destruct (p (h x)); simpl; now rewrite IH.
Qed.

Lemma flat_map_map_filter {X A} (p : X -> bool) (h : X -> A) (xs : list X) :
  flat_map (fun x => if p x then [h x] else []) xs = map h (filter p xs).
Proof.
  induction xs as [| x xs IH]; simpl; [reflexivity |].
  destruct (p x); simpl; now rewrite IH.
Qed.

Lemma flat_map_nil {X A} (xs : list X) :
  flat_map (fun _ : X => @nil A) xs = [].
Proof. induction xs; simpl; auto. Qed.

Lemma append_window_other_running (out out' : option buckets) (cs : string)
    (w : matrix) (l : list matrix) :
  other_running out = Some l ->
  append_window out cs w = ok out' ->
  other_running out'
  = Some (l ++ if String.eqb cs "other-running" then [w] else []).
Proof.
  destruct out as [d |]; [| discriminate]. simpl. intros Hl H.
  unfold append_window in H. simpl in H.
  split_bind H as ws Hws. apply dict_item_ok in Hws.
  injection H as <-. simpl. rewrite dict_get_set, String.eqb_sym.
  destruct (String.eqb cs "other-running") eqn:E.
  - apply String.eqb_eq in E; subst cs. congruence.
  - rewrite app_nil_r. exact Hl.
Qed.

Lemma add_cs_onsets_other_running (k : kwargs) (all_cses : dict string)
    (t2p : Trace2P) (trs : matrix) (out out' : option buckets) (ncs : string)
    (l : list matrix) :
  other_running out = Some l ->
  add_cs_onsets k all_cses t2p trs out ncs = ok out' ->
  other_running out'
  = Some (l ++ cs_windows k all_cses t2p trs "other-running" ncs).
Proof.
  intros Hl H. unfold add_cs_onsets in H. unfold cs_windows.
  destruct (dict_get all_cses ncs) as [cs |].
  - split_bind H as d Hd.
    destruct out as [d0 |]; [| discriminate]. injection Hd as ->.
    simpl in Hl.
    rewrite <- flat_map_filter_map.
    assert (E : (if String.eqb cs "other-running"
                 then flat_map
                        (fun x =>
                           if exact_length k
                                (window_at trs (offset_fr k) (length_fr k) x)
                           then [window_at trs (offset_fr k) (length_fr k) x]
                           else [])
                        (csonsets t2p ncs
                           (Args (if correct_trials k then 0 else -1)
                                 (lick_cutoff k) (lick_window k)))
                 else [])
                = flat_map
                    (fun x =>
                       if exact_length k
                            (window_at trs (offset_fr k) (length_fr k) x)
                       then (if String.eqb cs "other-running"
                             then [window_at trs (offset_fr k) (length_fr k) x]
                             else [])
                       else [])
                    (csonsets t2p ncs
                       (Args (if correct_trials k then 0 else -1)
                             (lick_cutoff k) (lick_window k)))).
    { destruct (String.eqb cs "other-running"); [reflexivity |].
      symmetry. erewrite flat_map_ext; [apply flat_map_nil |].
      intros x. simpl. destruct (exact_length k _); reflexivity. }
    rewrite E.
    eapply (for_each_accumulates other_running); [| | exact H].
    + intros s x s' l0 Hs Hb. cbv beta in Hb. unfold exact_length.
      destruct (Z.of_nat (nframes _) =? length_fr k).
      * eapply append_window_other_running; eauto.
      * injection Hb as <-. rewrite app_nil_r. exact Hs.
    + simpl. destruct (dict_mem d cs) eqn:Em; [exact Hl |].
      rewrite dict_get_set_other; [exact Hl |].
      intros <-. unfold dict_mem in Em. rewrite Hl in Em. discriminate.
  - injection H as <-. rewrite app_nil_r. exact Hl.
Qed.

Lemma add_other_windows_other_running (k : kwargs) (t2p : Trace2P)
    (trs : matrix) (out out' : option buckets) (l : list matrix) :
  other_running out = Some l ->
  add_other_windows k t2p trs out = ok out' ->
  other_running out' = Some (l ++ running_windows k t2p trs).
Proof.
  intros Hl H. unfold add_other_windows in H. unfold running_windows.
  destruct (0 <? length (speed t2p))%nat.
  - rewrite <- flat_map_map_filter.
    eapply (for_each_accumulates other_running); [| exact Hl | exact H].
    intros s x s' l0 Hs Hb. cbv beta zeta in Hb. unfold is_running.
    cbv zeta.
    destruct (fgt _ (running_fraction k)).
    + apply (append_window_other_running _ _ _ _ _ Hs Hb).
    + rewrite (append_window_other_running _ _ _ _ _ Hs Hb).
      simpl. reflexivity.
  - injection H as <-. rewrite app_nil_r. exact Hl.
Qed.

Lemma add_training_run_other_running (k : kwargs) (target : Run)
    (all_cses : dict string) (out out' : option buckets) (training_run : Run)
    (l : list matrix) :
  other_running out = Some l ->
  add_training_run k target all_cses out training_run = ok out' ->
  other_running out'
  = Some (l ++ other_running_of k target all_cses training_run).
Proof.
  intros Hl H. unfold add_training_run in H. unfold other_running_of.
  cbv zeta in *. split_bind H as out1 H1. rewrite app_assoc.
  assert (E1 : other_running out1
               = Some (l ++ (if remove_stim k
                                || negb (run_eqb training_run target)
                             then flat_map
                                    (cs_windows k all_cses (trace2p training_run)
                                       (trace (trace2p training_run)
                                              (trace_type k))
                                       "other-running")
                                    (cses (trace2p training_run))
                             else []))).
  { destruct (remove_stim k || negb (run_eqb training_run target)).
    - eapply (for_each_accumulates other_running); [| exact Hl | exact H1].
      intros s x s' l0 Hs Hb.
      eapply add_cs_onsets_other_running; eauto.
    - injection H1 as <-. rewrite app_nil_r. exact Hl. }
  destruct (negb (run_eqb training_run target)).
  - eapply add_other_windows_other_running; eauto.
  - injection H as <-. rewrite app_nil_r. exact E1.
Qed.

(** The class pass keeps the invariant of the specification: it only
    appends windows that passed the length test of line 442. *)
Lemma add_cs_onsets_exact (k : kwargs) (all_cses : dict string)
    (t2p : Trace2P) (trs : matrix) (out out' : option buckets) (ncs : string) :
  windows_exact k out ->
  add_cs_onsets k all_cses t2p trs out ncs = ok out' ->
  windows_exact k out'.
Proof.
  intros Hout H. unfold add_cs_onsets in H.
  destruct (dict_get all_cses ncs) as [cs |].
  - split_bind H as d Hd.
    destruct out as [d0 |]; [| discriminate]. injection Hd as ->.
    eapply (for_each_invariant (windows_exact k)); [| | exact H].
    + intros s x s' Hs Hb. cbv beta zeta in Hb.
      destruct (Z.of_nat (nframes _) =? length_fr k) eqn:E.
      * unfold append_window in Hb.
        split_bind Hb as d1 Hd1. split_bind Hb as ws Hws.
        injection Hb as <-. destruct s as [d2 |]; [| discriminate].
        injection Hd1 as ->. apply dict_item_ok in Hws.
        intros d' cs' ws' w Hd' Hget Hin. injection Hd' as <-.
        rewrite dict_get_set in Hget.
        destruct (String.eqb cs' cs) eqn:Ecs.
        -- apply String.eqb_eq in Ecs; subst cs'. injection Hget as <-.
           apply in_app_or in Hin. destruct Hin as [Hin | [<- | []]].
           ++ eapply Hs; eauto.
           ++ lia.
        -- eapply Hs; eauto.
      * injection Hb as <-. exact Hs.
    + intros d' cs' ws' w Hd' Hget Hin. injection Hd' as <-.
      destruct (dict_mem d cs); [eapply Hout; eauto |].
      rewrite dict_get_set in Hget.
      destruct (String.eqb cs' cs).
      * injection Hget as <-. destruct Hin.
      * eapply Hout; eauto.
  - injection H as <-. exact Hout.
Qed.

Lemma for_each_stuck {S X} (body : S -> X -> result S) (s0 : S) (e : exn) :
  (forall x, body s0 x = ok s0 \/ body s0 x = raise e) ->
  forall xs, for_each body xs s0 = ok s0 \/ for_each body xs s0 = raise e.
Proof.
  intros step xs. induction xs as [| x xs IH]; simpl.
  - left; reflexivity.
  - destruct (step x) as [-> | ->]; simpl; [exact IH | right; reflexivity].
Qed.

(** While [out] is unbound, a training run either leaves it unbound or
    raises [UnboundLocalError]. *)
Lemma add_training_run_unbound (k : kwargs) (target : Run)
    (all_cses : dict string) (training_run : Run) :
  add_training_run k target all_cses None training_run = ok None
  \/ add_training_run k target all_cses None training_run
     = raise (UnboundLocalError "out").
Proof.
  unfold add_training_run. cbv zeta.
  assert (H1 : forall xs,
             for_each (add_cs_onsets k all_cses (trace2p training_run)
                         (trace (trace2p training_run) (trace_type k)))
                      xs None = ok None
             \/ for_each (add_cs_onsets k all_cses (trace2p training_run)
                            (trace (trace2p training_run) (trace_type k)))
                         xs None = raise (UnboundLocalError "out")).
  { apply for_each_stuck. intros ncs. unfold add_cs_onsets.
    destruct (dict_get all_cses ncs); [right | left]; reflexivity. }
  assert (H2 : add_other_windows k (trace2p training_run)
                 (trace (trace2p training_run) (trace_type k)) None = ok None
               \/ add_other_windows k (trace2p training_run)
                    (trace (trace2p training_run) (trace_type k)) None
                  = raise (UnboundLocalError "out")).
  { unfold add_other_windows.
    destruct (0 <? length (speed (trace2p training_run)))%nat;
      [| left; reflexivity].
    apply for_each_stuck. intros ot. right.
    destruct (fgt _ (running_fraction k)); reflexivity. }
  destruct (remove_stim k || negb (run_eqb training_run target)).
  - destruct (H1 (cses (trace2p training_run))) as [-> | ->]; simpl.
    + destruct (negb (run_eqb training_run target)); [exact H2 | now left].
    + now right.
  - simpl. destruct (negb (run_eqb training_run target)); [exact H2 | now left].
Qed.

(** The extraction never returns when the target run is one of the
    running runs: [out] is bound only in the other branch of line 404. *)
Lemma get_traces_unbound_out {rng : Type}
    (np_random_choice : rng -> list matrix -> Z -> result (list matrix * rng))
    (target : Run) (runs running_runs : list Run) (all_cses : dict string)
    (k : kwargs) (g : rng) :
  run_in target running_runs = true ->
  _get_traces rng np_random_choice target runs running_runs all_cses k g
  = raise (UnboundLocalError "out").
Proof.
  intros Hin. unfold _get_traces, collect_windows. rewrite Hin. simpl negb.
  cbv iota zeta.
  destruct (for_each_stuck (add_training_run k target all_cses) None
              (UnboundLocalError "out")
              (add_training_run_unbound k target all_cses) runs) as [-> | ->].
  - unfold cap_onsets. destruct (max_n_onsets k >? 0); reflexivity.
  - reflexivity.
Qed.

(** X28. When the target run is not one of the running runs and the
    extraction returns, the bucket ['other-running'] holds the windows of
    the running-run pass ([_get_run_onsets] over the running runs)
    followed, training run by training run, by the class windows remapped
    to ['other-running'] and by the running non-stimulus windows of the
    training runs other than the target; the cap leaves it alone. *)
Theorem other_running_bucket_contents {rng : Type}
    (np_random_choice : rng -> list matrix -> Z -> result (list matrix * rng))
    (target : Run) (runs running_runs : list Run) (all_cses : dict string)
    (k : kwargs) (g g' : rng) (out : buckets) :
  run_in target running_runs = false ->
  _get_traces rng np_random_choice target runs running_runs all_cses k g
  = ok (out, g') ->
  dict_get out "other-running"
  = Some (_get_run_onsets running_runs (length_fr k) (pad_fr k)
            (running_threshold_cms k) (offset_fr k)
          ++ flat_map (other_running_of k target all_cses) runs).
Proof.
  intros Hin H. unfold _get_traces in H.
  split_bind H as o Ho. split_bind H as p Hp. destruct p as [o1 g1].
  split_bind H as d Hd. split_bind H as stacked Hst.
  apply stack_buckets_ok in Hst. subst stacked. injection H as <- <-.
  destruct o1 as [d1 |]; [| discriminate]. injection Hd as <-.
  unfold collect_windows in Ho. rewrite Hin in Ho. simpl negb in Ho.
  cbv iota in Ho.
  assert (E : other_running o
              = Some (_get_run_onsets running_runs (length_fr k) (pad_fr k)
                        (running_threshold_cms k) (offset_fr k)
                      ++ flat_map (other_running_of k target all_cses) runs)).
  { eapply (for_each_accumulates other_running); [| | exact Ho].
    - intros s x s' l Hs Hb. eapply add_training_run_other_running; eauto.
    - reflexivity. }
  unfold cap_onsets in Hp. destruct (max_n_onsets k >? 0).
  - split_bind Hp as d0 Hd0. split_bind Hp as q Hq. destruct q as [d2 g2].
    injection Hp as <- <-.
    destruct o as [d' |]; [| discriminate]. injection Hd0 as <-.
    rewrite (cap_loop_keeps_other np_random_choice _ _ _ _ _ _ Hq
               "other-running" eq_refl).
    exact E.
  - injection Hp as -> _. exact E.
Qed.

Lemma other_running_bucket_contents_witness :
  run_in ex_target [ex_running] = false
  /\ exists out,
      _get_traces unit numpy_choice ex_target [ex_training_moving] [ex_running]
        [("plus", "plus")] (ex_kwargs 2 0 (-1)) tt = ok (out, tt)
      /\ dict_get out "other-running"
         = Some [one_cell [2; 3]%Q; one_cell [2; 3]%Q].
Proof.
  split; [reflexivity |].
  eexists. split; [reflexivity |].
  apply (other_running_bucket_contents numpy_choice ex_target
           [ex_training_moving] [ex_running] [("plus", "plus")]
           (ex_kwargs 2 0 (-1)) tt tt _ eq_refl eq_refl).
Defined.

(** C3 fails on the code.  The target run is the one running run, whose
    running-run pass would give the bucket ['other-running'] one window;
    line 404 runs that pass, and binds [out], only when the target is not
    among the running runs, so the extraction raises
    [UnboundLocalError] where the claim has it complete with that
    bucket. *)
Theorem target_among_running_runs_raises :
  run_in ex_running [ex_running] = true
  /\ _get_run_onsets [ex_running] 2 (PadInt 31) (Fin 4) 0
     = [one_cell [2; 3]%Q]
  /\ _get_traces unit numpy_choice ex_running [ex_training_moving] [ex_running]
       [("plus", "plus")] (ex_kwargs 2 0 (-1)) tt
     = raise (UnboundLocalError "out").
Proof. repeat split. Qed.

(** C1 fails on the code: the window of the running run starts at frame
    [1 + offset_fr = 2] of four and is cut to two frames, yet it is
    kept, both by the running-run pass and by the non-stimulus pass over
    the training run; only the class window went through the length
    test. *)
Theorem truncated_other_windows_are_kept :
  _get_traces unit numpy_choice ex_target [ex_training_moving] [ex_running]
    [("plus", "plus")] (ex_kwargs 3 1 (-1)) tt
  = ok ([("other-running", [one_cell [3; 4]%Q; one_cell [3; 4]%Q]);
         ("plus", [one_cell [2; 3; 4]%Q])], tt)
  /\ _get_run_onsets [ex_running] 3 (PadInt 31) (Fin 4) 1 = [one_cell [3; 4]%Q]
  /\ Z.of_nat (nframes (one_cell [3; 4]%Q)) <> length_fr (ex_kwargs 3 1 (-1)).
Proof. repeat split. discriminate. Qed.

(** ** Means and deviations of finite values *)

Lemma Qmult_opp_opp_square (q : Q) : (- q * - q == q * q)%Q.
Proof. ring. Qed.

Lemma Qred_nonneg (q : Q) : (0 <= q)%Q -> (0 <= Qred q)%Q.
Proof.
  intros H. eapply Qle_trans; [exact H |].
  apply Qle_lteq. right. symmetry. apply Qred_correct.
Qed.

Lemma nonneg_fge (x : float) : nonneg x <-> fge x (Fin 0) = true.
Proof.
  destruct x as [| q]; simpl.
  - split; [intros [] | discriminate].
  - symmetry. apply Qle_bool_iff.
Qed.

Lemma fold_fadd_finite (l : list float) (a : Q) :
  Forall finite l -> exists q, fold_left fadd l (Fin a) = Fin q.
Proof.
  revert a. induction l as [| x l IH]; intros a H; cbn [fold_left].
  - eauto.
  - inversion H as [| ? ? Hx Hl]; subst.
    destruct x as [| q]; [discriminate |]. cbn [fadd]. apply IH. exact Hl.
Qed.

Lemma fold_fadd_nonneg (l : list float) (a : Q) :
  (0 <= a)%Q -> Forall nonneg l ->
  exists q, fold_left fadd l (Fin a) = Fin q /\ (0 <= q)%Q.
Proof.
  revert a. induction l as [| x l IH]; intros a Ha H; cbn [fold_left].
  - eauto.
  - inversion H as [| ? ? Hx Hl]; subst.
    destruct x as [| q]; [destruct Hx |]. cbn [fadd]. apply IH; [| exact Hl].
    change (0 <= q)%Q in Hx. apply Qred_nonneg.
    apply (Qplus_le_compat 0 a 0 q); assumption.
Qed.

Lemma count_not_zero {A} (l : list A) :
  l <> [] -> Qeq_bool (inject_Z (Z.of_nat (length l))) 0 = false.
Proof.
  intros H. destruct l as [| x l]; [contradiction |].
  destruct (Qeq_bool _ 0) eqn:E; [| reflexivity].
  apply Qeq_bool_eq in E. unfold Qeq in E. simpl in E. lia.
Qed.

Lemma mean_cons (x : float) (l : list float) :
  mean (x :: l) = fdiv (fsum (x :: l)) (of_nat (length (x :: l))).
Proof. reflexivity. Qed.

Lemma mean_finite (l : list float) :
  l <> [] -> Forall finite l -> exists q, mean l = Fin q.
Proof.
  intros Hne Hf. destruct l as [| x l']; [contradiction |].
  rewrite mean_cons. unfold fsum.
  destruct (fold_fadd_finite (x :: l') 0 Hf) as (s & ->).
  unfold fdiv, of_nat, of_Z. rewrite (count_not_zero (x :: l') Hne). eauto.
Qed.

Lemma mean_nonneg (l : list float) :
  l <> [] -> Forall nonneg l -> nonneg (mean l).
Proof.
  intros Hne Hf. destruct l as [| x l']; [contradiction |].
  rewrite mean_cons. unfold fsum.
  destruct (fold_fadd_nonneg (x :: l') 0 (Qle_refl 0) Hf) as (s & -> & Hs).
  unfold fdiv, of_nat, of_Z. rewrite (count_not_zero (x :: l') Hne).
  cbn [nonneg]. apply Qred_nonneg. apply Qle_shift_div_l.
  - unfold Qlt. cbn [length Qnum Qden inject_Z]. lia.
  - rewrite Qmult_0_l. exact Hs.
Qed.

Lemma square_nonneg (x y : float) :
  finite x -> finite y -> nonneg (fmul (fsub x y) (fsub x y)).
Proof.
  destruct x as [| a]; [discriminate |]. destruct y as [| b]; [discriminate |].
  intros _ _. cbn [fsub fmul nonneg]. apply Qred_nonneg.
  destruct (Qlt_le_dec (Qred (a - b)) 0) as [Hneg | Hpos].
  - eapply Qle_trans;
      [| apply Qle_lteq; right;
         apply (Qmult_opp_opp_square (Qred (a - b)))].
    apply Qmult_le_0_compat; apply (Qopp_le_compat _ 0);
      apply Qlt_le_weak; exact Hneg.
  - apply Qmult_le_0_compat; exact Hpos.
Qed.

Section StdProperties.
Variable np_sqrt : Q -> Q.
Hypothesis np_sqrt_nonneg : forall q, (0 <= np_sqrt q)%Q.

(** The standard deviation of finite values is finite and not negative. *)
Lemma std_nonneg (l : list float) :
  l <> [] -> Forall finite l -> nonneg (std np_sqrt l).
Proof.
  intros Hne Hf. unfold std.
  destruct (mean_finite l Hne Hf) as (mu & ->).
  assert (Hsq : nonneg (mean (map (fun x => fmul (fsub x (Fin mu))
                                               (fsub x (Fin mu))) l))).
  { apply mean_nonneg.
    - destruct l; [contradiction | discriminate].
    - apply Forall_map. eapply Forall_impl; [| exact Hf].
      intros x Hx. apply square_nonneg; [exact Hx | reflexivity]. }
  destruct (mean _) as [| m]; [destruct Hsq |]. cbn [nonneg fsqrt] in *.
  apply Qle_bool_iff in Hsq. rewrite Hsq. cbn [nonneg]. apply np_sqrt_nonneg.
Qed.

Lemma fmul_nonneg (x y : float) : nonneg x -> nonneg y -> nonneg (fmul x y).
Proof.
  destruct x as [| a]; [intros [] |]. destruct y as [| b]; [intros _ [] |].
  cbn [nonneg fmul]. intros Ha Hb. apply Qred_nonneg.
  apply Qmult_le_0_compat; assumption.
Qed.
End StdProperties.

(** ** Temporal prior estimator *)

(** Pooled activity with a finite value can only come from a matrix with
    at least one cell. *)
Lemma finite_pool_has_cells (popact kept : matrix) (mask : list bool) :
  mask_cells popact mask = ok kept ->
  nanmean_axis0 kept <> [] ->
  Forall finite (nanmean_axis0 kept) ->
  (0 <? ncells popact)%nat = true.
Proof.
  unfold mask_cells. intros H Hne Hf.
  destruct (Nat.eqb (length mask) (ncells popact)) eqn:E; [| discriminate].
  injection H as <-. apply Nat.eqb_eq in E.
  destruct (ncells popact) as [| n]; [| reflexivity].
  destruct mask; [| discriminate].
  unfold nanmean_axis0 in *. simpl in *.
  destruct (frames popact) as [| fr frs]; [contradiction |].
  simpl in Hf. inversion Hf as [| ? ? Hx _]; subst. discriminate Hx.
Qed.

Section ActivityProperties.
Variable np_sqrt : Q -> Q.
Hypothesis np_sqrt_nonneg : forall q, (0 <= np_sqrt q)%Q.
Variable date_runs : Date -> list string -> option (list string) -> list Run.

(** C6, as amended. For a spontaneous-state run whose pooled mean
    population activity (after outlier exclusion) is non-empty and
    finite, [_activity] on deconvolved traces returns the median of that
    activity times [baseline_activity] as baseline and its standard
    deviation times [baseline_sigma] as variance; the variance is not
    negative when [baseline_sigma] is not. *)
Theorem spontaneous_activity_is_scaled (r : Run) (runs : list Run)
    (baseline_activity baseline_sigma : float) (pooled : list float)
    (outliers : list bool) :
  select_runs date_runs r = ok (runs, true) ->
  pooled_activity np_sqrt runs = ok (pooled, outliers) ->
  pooled <> [] ->
  Forall finite pooled ->
  _activity np_sqrt date_runs r baseline_activity baseline_sigma "deconvolved"
  = ok (fmul (median pooled) baseline_activity,
        fmul (std np_sqrt pooled) baseline_sigma,
        Some outliers)
  /\ (nonneg baseline_sigma ->
      fge (fmul (std np_sqrt pooled) baseline_sigma) (Fin 0) = true).
Proof.
  intros Hsel Hpool Hne Hfin. split.
  - unfold _activity. simpl negb. cbv iota. rewrite Hsel. cbn [bind ok].
    unfold pooled_activity in Hpool.
    split_bind Hpool as p Hp. destruct p as [popact outs].
    split_bind Hpool as kept Hk. injection Hpool as <- <-.
    rewrite Hp. cbn [bind ok]. unfold spontaneous_stats.
    rewrite (finite_pool_has_cells _ _ _ Hk Hne Hfin), Hk. reflexivity.
  - intros Hs. apply nonneg_fge. apply fmul_nonneg; [| exact Hs].
    apply std_nonneg; assumption.
Qed.
End ActivityProperties.

Lemma sqrt_of_squares_nonneg (q : Q) : (0 <= sqrt_of_squares q)%Q.
Proof.
  unfold sqrt_of_squares, Qle. simpl. rewrite Z.mul_1_r.
  apply Z.sqrt_nonneg.
Qed.

Lemma spontaneous_activity_is_scaled_witness :
  _activity sqrt_of_squares (catalogue_runs [ex_rest]) ex_rest (Fin 1) (Fin 3)
    "deconvolved"
  = ok (Fin 2, Fin 3, Some [false])
  /\ fge (Fin 3) (Fin 0) = true.
Proof.
  assert (Hne : [Fin 1; Fin 3] <> []) by discriminate.
  assert (Hfin : Forall finite [Fin 1; Fin 3]).
  { repeat constructor. }
  assert (Hs : nonneg (Fin 3)).
  { unfold nonneg, Qle. simpl. lia. }
  destruct (spontaneous_activity_is_scaled sqrt_of_squares
              sqrt_of_squares_nonneg (catalogue_runs [ex_rest]) ex_rest
              [ex_rest] (Fin 1) (Fin 3) [Fin 1; Fin 3] [false]
              eq_refl eq_refl Hne Hfin) as (E & Hv).
  split; [exact E | exact (Hv Hs)].
Defined.

(** C6, as stated, fails: with the default [baseline_activity] of 0 the
    baseline is 0 although the median of the pooled activity is 2. *)
Lemma baseline_is_not_the_median :
  select_runs (catalogue_runs [ex_rest]) ex_rest = ok ([ex_rest], true)
  /\ pooled_activity sqrt_of_squares [ex_rest] = ok ([Fin 1; Fin 3], [false])
  /\ median [Fin 1; Fin 3] = Fin 2
  /\ _activity sqrt_of_squares (catalogue_runs [ex_rest]) ex_rest (Fin 0)
       (Fin 3) "deconvolved"
     = ok (Fin 0, Fin 3, Some [false])
  /\ Fin 0 <> median [Fin 1; Fin 3].
Proof. repeat split. discriminate. Qed.

(** C7 fails on the code: the run pools no frame at all (the mouse is
    never inactive), yet the test [len(popact)] counts the cells of the
    empty pool, the fallback is skipped and the statistics of an empty
    vector, NaN, are returned instead of 0.01 and 0.08 * 3. *)
Theorem empty_pool_misses_fallback :
  pooled_activity sqrt_of_squares [ex_restless] = ok ([], [false])
  /\ _activity sqrt_of_squares (catalogue_runs [ex_restless]) ex_restless
       (Fin 0) (Fin 3) "deconvolved"
     = ok (NaN, NaN, Some [false])
  /\ scale_activity None (Fin 0) (Fin 3) = (Fin (1 # 100), Fin (6 # 25)).
Proof. repeat split. Qed.

(** The fallback is taken when no run of the kind exists on the date. *)
Lemma activity_fallback_without_runs np_sqrt date_runs (r : Run)
    (baseline_activity baseline_sigma : float) (spontaneous : bool) :
  select_runs date_runs r = ok ([], spontaneous) ->
  exists outliers,
    _activity np_sqrt date_runs r baseline_activity baseline_sigma
      "deconvolved"
    = ok (Fin (1 # 100), fmul (Fin (8 # 100)) baseline_sigma, outliers).
Proof.
  intros H. unfold _activity. simpl negb. cbv iota. rewrite H. cbn [bind ok].
  destruct spontaneous; eexists; reflexivity.
Qed.

(** ** Merging class results *)

Lemma zip_with_length {A B C} (f : A -> B -> C) (xs : list A) (ys : list B) :
  length xs = length ys -> length (zip_with f xs ys) = length xs.
Proof.
  revert ys. induction xs as [| x xs IH]; intros [| y ys] H; simpl in *;
    try discriminate; [reflexivity |].
  f_equal. apply IH. lia.
Qed.

Lemma series_get (res : results) (k : string) (s : list float) :
  dict_get res k = Some s -> series res k = s.
Proof. unfold series. now intros ->. Qed.

Lemma merge_into_ok (res : results) (first k : string) (a b : list float) :
  first <> k ->
  dict_get res first = Some a ->
  dict_get res k = Some b ->
  length a = length b ->
  merge_into first res k
  = ok (dict_remove (dict_set res first (zip_with fadd a b)) k).
Proof.
  intros Hne Ha Hb Hlen. unfold merge_into, dict_item.
  rewrite Ha, Hb. cbn [bind ok]. unfold iadd.
  rewrite Hlen, Nat.eqb_refl. cbn [bind ok].
  rewrite dict_get_set_other by congruence. rewrite Hb. reflexivity.
Qed.

Lemma fold_series_ext (r1 r2 : results) (l : list string) (a : list float) :
  (forall k, In k l -> series r1 k = series r2 k) ->
  fold_left (fun acc k => zip_with fadd acc (series r1 k)) l a
  = fold_left (fun acc k => zip_with fadd acc (series r2 k)) l a.
Proof.
  revert a. induction l as [| k l IH]; simpl; intros a H; [reflexivity |].
  rewrite (H k) by (left; reflexivity). apply IH. intros k' Hk'. apply H.
  right; exact Hk'.
Qed.

(** The merge loop sums the listed classes into the first one, removes
    the others and leaves every unlisted class alone. *)
Lemma merge_loop (first : string) (n : nat) (rest : list string) :
  forall res : results,
    NoDup (first :: rest) ->
    (forall k, In k (first :: rest) ->
               exists b, dict_get res k = Some b /\ length b = n) ->
    exists res',
      for_each (merge_into first) rest res = ok res'
      /\ dict_get res' first = Some (merged_series res first rest)
      /\ (forall k, In k rest -> dict_get res' k = None)
      /\ (forall k, ~ In k (first :: rest) -> dict_get res' k = dict_get res k).
Proof.
  induction rest as [| k1 rest IH]; intros res Hnd Hall.
  - exists res. cbn [for_each]. repeat split.
    + destruct (Hall first (or_introl eq_refl)) as (a & Ha & _).
      unfold merged_series. cbn [fold_left]. now rewrite (series_get _ _ _ Ha).
    + intros k [].
  - destruct (Hall first (or_introl eq_refl)) as (a & Ha & Hla).
    destruct (Hall k1 (or_intror (or_introl eq_refl))) as (b & Hb & Hlb).
    assert (Hne : first <> k1).
    { intros ->. inversion Hnd as [| ? ? Hnot _]; subst.
      apply Hnot. left; reflexivity. }
    assert (Hnd' : NoDup (first :: rest)).
    { inversion Hnd as [| ? ? Hnot Hnd1]; subst.
      inversion Hnd1 as [| ? ? Hnot1 Hnd2]; subst.
      constructor; [| exact Hnd2]. intros Hin. apply Hnot. right; exact Hin. }
    assert (Hk1 : ~ In k1 rest).
    { inversion Hnd as [| ? ? _ Hnd1]; subst.
      inversion Hnd1; subst; assumption. }
    set (res1 := dict_remove (dict_set res first (zip_with fadd a b)) k1).
    assert (Hget1 : forall k, k <> first -> k <> k1 ->
                              dict_get res1 k = dict_get res k).
    { intros k H1 H2. unfold res1. rewrite dict_get_remove.
      destruct (String.eqb k k1) eqn:E;
        [apply String.eqb_eq in E; contradiction |].
      now apply dict_get_set_other. }
    assert (Hfirst1 : dict_get res1 first = Some (zip_with fadd a b)).
    { unfold res1. rewrite dict_get_remove.
      destruct (String.eqb first k1) eqn:E;
        [apply String.eqb_eq in E; contradiction |].
      apply dict_get_set_same. }
    destruct (IH res1 Hnd') as (res' & Hloop & Hsum & Hgone & Hkeep).
    { intros k [<- | Hin].
      - exists (zip_with fadd a b). split; [exact Hfirst1 |].
        rewrite zip_with_length; congruence.
      - rewrite Hget1.
        + apply Hall. right; right; exact Hin.
        + intros ->. inversion Hnd' as [| ? ? Hnot _]; subst. contradiction.
        + intros ->. contradiction. }
    exists res'. cbn [for_each].
    rewrite (merge_into_ok res first k1 a b Hne Ha Hb) by congruence.
    cbn [bind ok]. fold res1. repeat split.
    + exact Hloop.
    + rewrite Hsum. unfold merged_series. cbn [fold_left].
      rewrite (series_get _ _ _ Hfirst1), (series_get _ _ _ Ha),
        (series_get _ _ _ Hb).
      f_equal. apply fold_series_ext. intros k Hin. unfold series.
      rewrite Hget1; [reflexivity | |]; intros ->.
      * inversion Hnd' as [| ? ? Hnot _]; subst. contradiction.
      * contradiction.
    + intros k [<- | Hin]; [| now apply Hgone].
      rewrite Hkeep.
      * unfold res1. rewrite dict_get_remove, String.eqb_refl. reflexivity.
      * intros [E | Hin]; [congruence | contradiction].
    + intros k Hk. rewrite Hkeep.
      * apply Hget1; intros ->; apply Hk; [left | right; left]; reflexivity.
      * intros [E | Hin]; apply Hk; [left; exact E | right; right; exact Hin].
Qed.

(** *** The order of the merge list *)

Lemma feq_refl (x : float) : feq x x.
Proof. destruct x; simpl; [exact I | reflexivity]. Qed.

Lemma feq_trans (x y z : float) : feq x y -> feq y z -> feq x z.
Proof.
  destruct x, y, z; simpl; auto; try contradiction.
  intros H1 H2. now rewrite H1.
Qed.

Lemma fadd_feq (x x' y y' : float) :
  feq x x' -> feq y y' -> feq (fadd x y) (fadd x' y').
Proof.
  destruct x, x', y, y'; cbn [feq fadd]; auto; try contradiction.
  intros H1 H2. rewrite !Qred_correct. now rewrite H1, H2.
Qed.

Lemma fadd_comm (x y : float) : feq (fadd x y) (fadd y x).
Proof.
  destruct x, y; cbn [feq fadd]; auto.
  rewrite !Qred_correct. ring.
Qed.

Lemma fadd_right_comm (x y z : float) :
  feq (fadd (fadd x y) z) (fadd (fadd x z) y).
Proof.
  destruct x, y, z; cbn [feq fadd]; auto.
  rewrite !Qred_correct. ring.
Qed.

Lemma series_eq_refl (a : list float) : series_eq a a.
Proof. induction a; constructor; auto using feq_refl. Qed.

Lemma series_eq_trans (a b c : list float) :
  series_eq a b -> series_eq b c -> series_eq a c.
Proof.
  unfold series_eq. intros H. revert c.
  induction H as [| x y a b Hxy _ IH]; intros c Hc; inversion Hc; subst;
    constructor; [eapply feq_trans; eassumption | apply IH; assumption].
Qed.

Lemma zip_fadd_eq (a a' b b' : list float) :
  series_eq a a' -> series_eq b b' ->
  series_eq (zip_with fadd a b) (zip_with fadd a' b').
Proof.
  unfold series_eq. intros Ha. revert b b'.
  induction Ha as [| x x' a a' Hx _ IH]; intros b b' Hb.
  - constructor.
  - destruct Hb as [| y y' b b' Hy Hb]; cbn [zip_with]; constructor.
    + apply fadd_feq; assumption.
    + apply IH. exact Hb.
Qed.

Lemma zip_fadd_comm (a b : list float) :
  series_eq (zip_with fadd a b) (zip_with fadd b a).
Proof.
  unfold series_eq. revert b.
  induction a as [| x a IH]; intros [| y b]; cbn [zip_with];
    constructor; [apply fadd_comm | apply IH].
Qed.

Lemma zip_fadd_right_comm (a b c : list float) :
  series_eq (zip_with fadd (zip_with fadd a b) c)
            (zip_with fadd (zip_with fadd a c) b).
Proof.
  unfold series_eq. revert b c.
  induction a as [| x a IH]; intros [| y b] [| z c]; cbn [zip_with];
    constructor; [apply fadd_right_comm | apply IH].
Qed.

(** Summing the same classes in another order gives the same series. *)
Lemma fold_series_permutation (res : results) (l1 l2 : list string) :
  Permutation l1 l2 ->
  forall a a',
    series_eq a a' ->
    series_eq
      (fold_left (fun acc k => zip_with fadd acc (series res k)) l1 a)
      (fold_left (fun acc k => zip_with fadd acc (series res k)) l2 a').
Proof.
  induction 1 as [| k l1 l2 _ IH | k1 k2 l | l1 l2 l3 _ IH1 _ IH2];
    intros a a' Ha; cbn [fold_left].
  - exact Ha.
  - apply IH. apply zip_fadd_eq; [exact Ha | apply series_eq_refl].
  - assert (E : series_eq
                  (zip_with fadd (zip_with fadd a (series res k2))
                            (series res k1))
                  (zip_with fadd (zip_with fadd a' (series res k1))
                            (series res k2))).
    { eapply series_eq_trans; [apply zip_fadd_right_comm |].
      repeat apply zip_fadd_eq; auto using series_eq_refl. }
    revert E. generalize (zip_with fadd (zip_with fadd a (series res k2))
                                   (series res k1)).
    generalize (zip_with fadd (zip_with fadd a' (series res k1))
                         (series res k2)).
    clear. induction l as [| k l IH]; intros b b' E; cbn [fold_left].
    + exact E.
    + apply IH. apply zip_fadd_eq; [exact E | apply series_eq_refl].
  - eapply series_eq_trans; [apply IH1; exact Ha |].
    apply IH2. apply series_eq_refl.
Qed.

(** Two lists with the same elements either start alike, or each holds
    the head of the other one in its tail. *)
Lemma permutation_heads (a b : string) (l1 l2 : list string) :
  Permutation (a :: l1) (b :: l2) ->
  (a = b /\ Permutation l1 l2)
  \/ exists l, Permutation l1 (b :: l) /\ Permutation l2 (a :: l).
Proof.
  intros H. destruct (string_dec a b) as [-> | Hne].
  - left. split; [reflexivity |]. eapply Permutation_cons_inv; exact H.
  - right.
    assert (Hin : In a l2).
    { assert (Hin : In a (b :: l2)).
      { eapply Permutation_in; [exact H | left; reflexivity]. }
      destruct Hin as [E | Hin]; [congruence | exact Hin]. }
    apply in_split in Hin. destruct Hin as (x & y & ->).
    exists (x ++ y). split.
    + apply (Permutation_cons_inv (a := a)).
      eapply Permutation_trans; [exact H |].
      eapply Permutation_trans; [| apply perm_swap].
      apply perm_skip. symmetry. apply Permutation_middle.
    + symmetry. apply Permutation_middle.
Qed.

(** Only the name of the surviving class depends on the order of the
    merge list. *)
Lemma merged_series_permutation (res : results) (first1 first2 : string)
    (rest1 rest2 : list string) :
  Permutation (first1 :: rest1) (first2 :: rest2) ->
  series_eq (merged_series res first1 rest1)
            (merged_series res first2 rest2).
Proof.
  intros H. unfold merged_series.
  destruct (permutation_heads _ _ _ _ H) as [(-> & Hp) | (l & H1 & H2)].
  - apply fold_series_permutation; [exact Hp | apply series_eq_refl].
  - eapply series_eq_trans.
    { apply (fold_series_permutation res _ _ H1). apply series_eq_refl. }
    eapply series_eq_trans.
    2: { apply (fold_series_permutation res (first1 :: l) rest2).
         - symmetry; exact H2.
         - apply series_eq_refl. }
    cbn [fold_left].
    apply fold_series_permutation; [apply Permutation_refl |].
    apply zip_fadd_comm.
Qed.

(** ** Inference orchestrator *)

Section InferenceProperties.
Variable np_sqrt : Q -> Q.
Variable date_runs : Date -> list string -> option (list string) -> list Run.
Context {P D L M : Type}.
Variable temporal_prior :
  matrix -> float -> float -> pyval -> option (list bool) ->
  result (list float).
Variable assign_temporal_priors :
  dict float -> list float -> string -> result P.

Local Abbreviation classify :=
  (classify_reactivations np_sqrt date_runs P D L M temporal_prior
     assign_temporal_priors).

(** A call with a merge list is the call without one followed by the
    merge of its results. *)
Lemma classify_then_merge (r : Run) (model : AODE P D L M) (pars : params)
    (nan_cells : option (list bool)) (merge_cses : list string)
    (replace_data : option matrix) (replace_priors : option (dict float))
    (replace_temporal_prior : option (list float))
    (replace_integrate_frames : option Z) (out0 : output P L M) :
  classify r model pars nan_cells None replace_data replace_priors
    replace_temporal_prior replace_integrate_frames = ok out0 ->
  classify r model pars nan_cells (Some merge_cses) replace_data
    replace_priors replace_temporal_prior replace_integrate_frames
  = (res <- merge_results merge_cses (out_results out0) ;;
     ok (mkOutput (out_parameters out0) res (out_likelihood out0)
                  (out_marginal out0) (out_priors out0)
                  (out_cell_mask out0))).
Proof.
  unfold classify_reactivations. intros H.
  split_bind H as c Hc. destruct c as [[[res lik] pri] nan].
  cbn [merge_results bind ok] in H. injection H as <-.
  rewrite Hc. reflexivity.
Qed.

(** C8. Take a call without a merge list that returns [out0].  The same
    call with the merge list [first :: rest], whose classes are distinct
    and all have a series of the same length in the results of [out0],
    returns results in which [first] holds the frame-by-frame sum of the
    series of all listed classes, no class of [rest] is a key any more,
    and every unlisted class is unchanged; in particular ['A', 'B'] puts
    the sum of A and B under A and removes B.  The summed series does not
    depend on the order of the list, which only decides the surviving
    name. *)
Theorem classify_merges_listed_classes (r : Run) (model : AODE P D L M)
    (pars : params) (nan_cells : option (list bool))
    (replace_data : option matrix) (replace_priors : option (dict float))
    (replace_temporal_prior : option (list float))
    (replace_integrate_frames : option Z) (out0 : output P L M) :
  classify r model pars nan_cells None replace_data replace_priors
    replace_temporal_prior replace_integrate_frames = ok out0 ->
  (forall first rest n,
      NoDup (first :: rest) ->
      (forall k, In k (first :: rest) ->
         exists b, dict_get (out_results out0) k = Some b /\ length b = n) ->
      exists out,
        classify r model pars nan_cells (Some (first :: rest)) replace_data
          replace_priors replace_temporal_prior replace_integrate_frames
        = ok out
        /\ dict_get (out_results out) first
           = Some (merged_series (out_results out0) first rest)
        /\ (forall k, In k rest -> dict_get (out_results out) k = None)
        /\ (forall k, ~ In k (first :: rest) ->
              dict_get (out_results out) k = dict_get (out_results out0) k))
  /\ (forall a b,
        dict_get (out_results out0) "A" = Some a ->
        dict_get (out_results out0) "B" = Some b ->
        length a = length b ->
        exists out,
          classify r model pars nan_cells (Some ["A"; "B"]) replace_data
            replace_priors replace_temporal_prior replace_integrate_frames
          = ok out
          /\ dict_get (out_results out) "A" = Some (zip_with fadd a b)
          /\ dict_get (out_results out) "B" = None)
  /\ (forall first1 rest1 first2 rest2,
        Permutation (first1 :: rest1) (first2 :: rest2) ->
        series_eq (merged_series (out_results out0) first1 rest1)
                  (merged_series (out_results out0) first2 rest2)).
Proof.
  intros H0.
  assert (General :
    forall first rest n,
      NoDup (first :: rest) ->
      (forall k, In k (first :: rest) ->
         exists b, dict_get (out_results out0) k = Some b /\ length b = n) ->
      exists out,
        classify r model pars nan_cells (Some (first :: rest)) replace_data
          replace_priors replace_temporal_prior replace_integrate_frames
        = ok out
        /\ dict_get (out_results out) first
           = Some (merged_series (out_results out0) first rest)
        /\ (forall k, In k rest -> dict_get (out_results out) k = None)
        /\ (forall k, ~ In k (first :: rest) ->
              dict_get (out_results out) k = dict_get (out_results out0) k)).
  { intros first rest n Hnd Hall.
    destruct (merge_loop first n rest (out_results out0) Hnd Hall)
      as (res' & Hloop & Hsum & Hgone & Hkeep).
    rewrite (classify_then_merge _ _ _ _ (first :: rest) _ _ _ _ _ H0).
    cbn [merge_results]. rewrite Hloop. cbn [bind ok].
    eexists. split; [reflexivity |]. cbn [out_results]. auto. }
  split; [exact General | split].
  - intros a b Ha Hb Hlen.
    destruct (General "A" ["B"] (length a)) as (out & E & Hsum & Hgone & _).
    + repeat constructor; simpl; [intros [E | []]; discriminate | intros []].
    + intros k [<- | [<- | []]]; eauto.
    + exists out. split; [exact E |]. split.
      * rewrite Hsum. unfold merged_series. cbn [fold_left].
        now rewrite (series_get _ _ _ Ha), (series_get _ _ _ Hb).
      * apply Hgone. left; reflexivity.
  - intros first1 rest1 first2 rest2 Hp.
    apply merged_series_permutation. exact Hp.
Qed.

(** Adding nothing to half the window leaves it as it is. *)
Lemma fadd_zero_half_window (ms : float) :
  fadd (Fin 0) (half_window ms) = half_window ms.
Proof.
  unfold half_window. destruct (fdiv ms (Fin 1000)) as [| q]; [reflexivity |].
  unfold fdiv. destruct (Qeq_bool 2 0); [reflexivity |].
  cbn [fadd]. f_equal.
  apply Qred_complete. rewrite Qplus_0_l. apply Qred_correct.
Qed.

(** C9, as amended. With stimulus removal on and no replacement data the
    mask is the union of the all-trial and pavlovian-trial masks minus
    the blank-trial mask; all three are padded before the trial by half
    the classification window rounded up to whole frames, the all-trial
    mask by the same amount after the trial, the pavlovian and blank
    masks by half the window plus half a second, rounded up. *)
Theorem stim_mask_is_padded_union (r : Run) (pars : params)
    (remove window : pyval) (ms : float) :
  dict_get pars "remove-stim" = Some remove ->
  truthy remove = true ->
  dict_get pars "classification-ms" = Some window ->
  as_float window = ok ms ->
  build_stim_mask pars None r
  = (mask <- padded_stim_mask (Fin (1 # 2)) (trace2p r) ms ;; ok (Some mask)).
Proof.
  intros Hr Ht Hw Hms. unfold build_stim_mask, dict_item.
  rewrite Hr, Hw. cbn [bind ok]. rewrite Ht, Hms. cbn [bind ok andb].
  unfold padded_stim_mask, round_up_to_frames.
  fold (half_window ms). rewrite fadd_zero_half_window.
  destruct (mask_or _ _) as [e | either]; [reflexivity |]. cbn [bind].
  destruct (mask_and _ _); reflexivity.
Qed.
End InferenceProperties.

Lemma classify_merges_listed_classes_witness :
  exists out,
    classify_reactivations sqrt_of_squares (catalogue_runs [ex_trials])
      unit unit unit unit ex_temporal_prior ex_assign_priors ex_trials
      ex_model ex_pars None (Some ["A"; "B"]) None None None None
    = ok out
    /\ dict_get (out_results out) "A"
       = Some (zip_with fadd [Fin (1 # 4); Fin (1 # 2)]
                              [Fin (1 # 4); Fin (1 # 8)])
    /\ dict_get (out_results out) "B" = None.
Proof.
  destruct (classify_merges_listed_classes sqrt_of_squares
              (catalogue_runs [ex_trials]) ex_temporal_prior ex_assign_priors
              ex_trials ex_model ex_pars None None None None None _ eq_refl)
    as (_ & HAB & _).
  apply (HAB [Fin (1 # 4); Fin (1 # 2)] [Fin (1 # 4); Fin (1 # 8)]
             eq_refl eq_refl eq_refl).
Defined.

Lemma stim_mask_is_padded_union_witness :
  build_stim_mask ex_pars None ex_trials
  = (mask <- padded_stim_mask (Fin (1 # 2)) (trace2p ex_trials) (Fin 2000) ;;
     ok (Some mask))
  /\ padded_stim_mask (Fin (1 # 2)) (trace2p ex_trials) (Fin 2000)
     = ok [false; true; true; true; true; false].
Proof.
  split; [| reflexivity].
  apply (stim_mask_is_padded_union ex_trials ex_pars (VBool true) (VInt 2000)
           (Fin 2000) eq_refl eq_refl eq_refl eq_refl).
Defined.

(** C9, as stated, fails: with every mask padded by half the window only,
    frame 4 would be outside the mask; the code pads the pavlovian mask
    by half a second more after the trial and excludes that frame. *)
Lemma stim_mask_post_padding_differs :
  build_stim_mask ex_pars None ex_trials
  = ok (Some [false; true; true; true; true; false])
  /\ padded_stim_mask (Fin 0) (trace2p ex_trials) (Fin 2000)
     = ok [false; true; true; true; false; false]
  /\ build_stim_mask ex_pars None ex_trials
     <> (mask <- padded_stim_mask (Fin 0) (trace2p ex_trials) (Fin 2000) ;;
         ok (Some mask)).
Proof. repeat split. discriminate. Qed.

(** * Further properties *)

(** ** Slices *)

Lemma py_slice_length_le {A} (l : list A) (s len : Z) :
  0 <= len ->
  Z.of_nat (length (py_slice l (Some s) (Some (s + len)))) <= len.
Proof.
  intros Hlen. unfold py_slice, slice_bound.
  rewrite length_firstn, length_skipn.
  destruct (s <? 0) eqn:E1; destruct (s + len <? 0) eqn:E2; lia.
Qed.

Lemma py_slice_inside {A} (l : list A) (s len : Z) :
  0 <= s -> 0 <= len -> s + len <= Z.of_nat (length l) ->
  py_slice l (Some s) (Some (s + len))
  = firstn (Z.to_nat len) (skipn (Z.to_nat s) l).
Proof.
  intros Hs Hlen Hfit. unfold py_slice, slice_bound.
  assert (E1 : (s <? 0) = false) by lia.
  assert (E2 : (s + len <? 0) = false) by lia.
  rewrite E1, E2. f_equal; [| f_equal]; lia.
Qed.

Lemma py_slice_exact_iff {A} (l : list A) (s len : Z) :
  0 <= s -> 0 < len ->
  Z.of_nat (length (py_slice l (Some s) (Some (s + len)))) = len
  <-> s + len <= Z.of_nat (length l).
Proof.
  intros Hs Hlen. unfold py_slice, slice_bound.
  rewrite length_firstn, length_skipn.
  assert (E1 : (s <? 0) = false) by lia.
  assert (E2 : (s + len <? 0) = false) by lia.
  rewrite E1, E2. lia.
Qed.

Lemma py_slice_wraps {A} (l : list A) (s len : Z) :
  - Z.of_nat (length l) <= s -> 0 <= len -> s + len < 0 ->
  py_slice l (Some s) (Some (s + len))
  = firstn (Z.to_nat len) (skipn (Z.to_nat (Z.of_nat (length l) + s)) l).
Proof.
  intros Hs Hlen Hneg. unfold py_slice, slice_bound.
  assert (E1 : (s <? 0) = true) by lia.
  assert (E2 : (s + len <? 0) = true) by lia.
  rewrite E1, E2. f_equal; [| f_equal]; lia.
Qed.

(** ** The slicing rule of the windows *)

(** X5. The slicing rule [trs[:, start:start + length_fr]] with
    [start = onset + offset_fr >= 0] and [length_fr > 0]: the window has
    exactly [length_fr] frames if and only if it ends within the trace,
    it never has more, and when it fits it is the frames [start] to
    [start + length_fr - 1] of the trace. *)
Theorem window_complete_iff_fits (trs : matrix)
    (offset_fr length_fr onset : Z) :
  0 <= onset + offset_fr ->
  0 < length_fr ->
  (Z.of_nat (nframes (window_at trs offset_fr length_fr onset)) = length_fr
   <-> onset + offset_fr + length_fr <= Z.of_nat (nframes trs))
  /\ Z.of_nat (nframes (window_at trs offset_fr length_fr onset)) <= length_fr
  /\ (onset + offset_fr + length_fr <= Z.of_nat (nframes trs) ->
      frames (window_at trs offset_fr length_fr onset)
      = firstn (Z.to_nat length_fr)
               (skipn (Z.to_nat (onset + offset_fr)) (frames trs))).
Proof.
  intros Hs Hlen. unfold window_at, slice_frames, nframes. cbn [frames].
  split; [| split].
  - apply py_slice_exact_iff; assumption.
  - apply py_slice_length_le. lia.
  - intros Hfit. apply py_slice_inside; lia.
Qed.

Lemma flat_map_length {A B} (f : A -> list B) (l : list A) :
  length (flat_map f l) = list_sum (map (fun x => length (f x)) l).
Proof.
  induction l as [| x l IH]; simpl; [reflexivity |].
  rewrite length_app, IH. reflexivity.
Qed.

Lemma window_length_cases (trs : matrix) (offset_fr length_fr onset : Z) :
  0 <= onset + offset_fr ->
  0 < length_fr ->
  (Z.of_nat (nframes (window_at trs offset_fr length_fr onset)) = length_fr
   <-> onset + offset_fr + length_fr <= Z.of_nat (nframes trs))
  /\ Z.of_nat (nframes (window_at trs offset_fr length_fr onset)) <= length_fr.
Proof.
  intros Hs Hlen. unfold window_at, slice_frames, nframes. cbn [frames].
  split; [apply py_slice_exact_iff; assumption |].
  apply py_slice_length_le. lia.
Qed.

(** X6. [_get_run_onsets] returns one window per non-stimulus onset of
    the runs and drops none; with [length_fr >= 0] no window is longer
    than [length_fr], and an onset whose window runs past the end of the
    trace leaves a shorter window in the result. *)
Theorem run_onsets_keep_every_onset (runs : list Run) (length_fr : Z)
    (pad_fr : pad) (running_threshold_cms : float) (offset_fr : Z) :
  length (_get_run_onsets runs length_fr pad_fr running_threshold_cms offset_fr)
  = list_sum
      (map (fun r => length (nocs (trace2p r) length_fr pad_fr
                               running_threshold_cms))
           runs)
  /\ (0 <= length_fr ->
      forall w,
        In w (_get_run_onsets runs length_fr pad_fr running_threshold_cms
                offset_fr) ->
        Z.of_nat (nframes w) <= length_fr)
  /\ (0 < length_fr ->
      forall r ot,
        In r runs ->
        In ot (nocs (trace2p r) length_fr pad_fr running_threshold_cms) ->
        0 <= ot + offset_fr ->
        Z.of_nat (nframes (trace (trace2p r) "deconvolved"))
        < ot + offset_fr + length_fr ->
        exists w,
          In w (_get_run_onsets runs length_fr pad_fr running_threshold_cms
                  offset_fr)
          /\ Z.of_nat (nframes w) < length_fr).
Proof.
  unfold _get_run_onsets. split; [| split].
  - rewrite flat_map_length. f_equal. apply map_ext. intros r.
    cbv zeta. apply length_map.
  - intros Hlen w Hw. apply in_flat_map in Hw. destruct Hw as (r & _ & Hw).
    cbv zeta in Hw. apply in_map_iff in Hw. destruct Hw as (ot & <- & _).
    unfold window_at, slice_frames, nframes. cbn [frames].
    apply py_slice_length_le. exact Hlen.
  - intros Hlen r ot Hr Hot Hs Hpast.
    exists (window_at (trace (trace2p r) "deconvolved") offset_fr length_fr ot).
    split.
    + apply in_flat_map. exists r. split; [exact Hr |]. cbv zeta.
      apply in_map. exact Hot.
    + destruct (window_length_cases (trace (trace2p r) "deconvolved")
                  offset_fr length_fr ot Hs Hlen) as (Hiff & Hle).
      destruct (Z.eq_dec
                  (Z.of_nat (nframes (window_at (trace (trace2p r) "deconvolved")
                                        offset_fr length_fr ot)))
                  length_fr) as [E | E]; [| lia].
      apply Hiff in E. lia.
Qed.

(** X7. When [onset + offset_fr] is negative (not below minus the number
    of frames) and the window ends before index 0, the slice counts from
    the end of the trace: the window has [length_fr] frames taken from
    the tail of the recording, and it passes the length test of line 442. *)
Theorem negative_start_reads_from_the_end (k : kwargs) (trs : matrix)
    (onset : Z) :
  - Z.of_nat (nframes trs) <= onset + offset_fr k ->
  0 <= length_fr k ->
  onset + offset_fr k + length_fr k < 0 ->
  frames (window_at trs (offset_fr k) (length_fr k) onset)
  = firstn (Z.to_nat (length_fr k))
           (skipn (Z.to_nat (Z.of_nat (nframes trs) + (onset + offset_fr k)))
                  (frames trs))
  /\ exact_length k (window_at trs (offset_fr k) (length_fr k) onset) = true.
Proof.
  intros Hs Hlen Hneg. unfold window_at, slice_frames, exact_length, nframes in *.
  cbn [frames]. rewrite py_slice_wraps by assumption. split; [reflexivity |].
  apply Z.eqb_eq. rewrite length_firstn, length_skipn. lia.
Qed.

(** ** Class buckets *)

Lemma append_window_exact_on (named : string -> Prop) (k : kwargs)
    (out out' : option buckets) (cs : string) (w : matrix) :
  exact_on named k out ->
  (named cs -> Z.of_nat (nframes w) = length_fr k) ->
  append_window out cs w = ok out' ->
  exact_on named k out'.
Proof.
  intros Hout Hw H. unfold append_window in H.
  split_bind H as d1 Hd1. split_bind H as ws Hws. injection H as <-.
  destruct out as [d2 |]; [| discriminate]. injection Hd1 as ->.
  apply dict_item_ok in Hws.
  intros d' cs' ws' w' Hd' Hn Hget Hin. injection Hd' as <-.
  rewrite dict_get_set in Hget.
  destruct (String.eqb cs' cs) eqn:E.
  - apply String.eqb_eq in E; subst cs'. injection Hget as <-.
    apply in_app_or in Hin. destruct Hin as [Hin | [<- | []]].
    + eapply Hout; eauto.
    + auto.
  - eapply Hout; eauto.
Qed.

Lemma add_cs_onsets_exact_on (named : string -> Prop) (k : kwargs)
    (all_cses : dict string) (t2p : Trace2P) (trs : matrix)
    (out out' : option buckets) (ncs : string) :
  exact_on named k out ->
  add_cs_onsets k all_cses t2p trs out ncs = ok out' ->
  exact_on named k out'.
Proof.
  intros Hout H. unfold add_cs_onsets in H.
  destruct (dict_get all_cses ncs) as [cs |].
  - split_bind H as d Hd.
    destruct out as [d0 |]; [| discriminate]. injection Hd as ->.
    eapply (for_each_invariant (exact_on named k)); [| | exact H].
    + intros s x s' Hs Hb. cbv beta zeta in Hb.
      destruct (Z.of_nat (nframes _) =? length_fr k) eqn:E.
      * eapply append_window_exact_on; [exact Hs | | exact Hb].
        intros _. lia.
      * injection Hb as <-. exact Hs.
    + intros d' cs' ws' w Hd' Hn Hget Hin. injection Hd' as <-.
      destruct (dict_mem d cs); [eapply Hout; eauto |].
      rewrite dict_get_set in Hget.
      destruct (String.eqb cs' cs).
      * injection Hget as <-. destruct Hin.
      * eapply Hout; eauto.
  - injection H as <-. exact Hout.
Qed.

Lemma add_other_windows_exact_on (k : kwargs) (t2p : Trace2P) (trs : matrix)
    (out out' : option buckets) :
  exact_on class_bucket k out ->
  add_other_windows k t2p trs out = ok out' ->
  exact_on class_bucket k out'.
Proof.
  intros Hout H. unfold add_other_windows in H.
  destruct (0 <? length (speed t2p))%nat.
  - eapply (for_each_invariant (exact_on class_bucket k)); [| exact Hout | exact H].
    intros s x s' Hs Hb. cbv beta zeta in Hb.
    destruct (fgt _ (running_fraction k));
      (eapply append_window_exact_on; [exact Hs | | exact Hb]);
      intros [H1 H2]; congruence.
  - injection H as <-. exact Hout.
Qed.

Lemma add_training_run_exact_on (k : kwargs) (target : Run)
    (all_cses : dict string) (out out' : option buckets) (training_run : Run) :
  exact_on class_bucket k out ->
  add_training_run k target all_cses out training_run = ok out' ->
  exact_on class_bucket k out'.
Proof.
  intros Hout H. unfold add_training_run in H. cbv zeta in H.
  split_bind H as out1 H1.
  assert (E1 : exact_on class_bucket k out1).
  { destruct (remove_stim k || negb (run_eqb training_run target)).
    - eapply (for_each_invariant (exact_on class_bucket k));
        [| exact Hout | exact H1].
      intros s x s' Hs Hb. eapply add_cs_onsets_exact_on; eauto.
    - injection H1 as <-. exact Hout. }
  destruct (negb (run_eqb training_run target)).
  - eapply add_other_windows_exact_on; eauto.
  - injection H as <-. exact E1.
Qed.

Lemma collect_windows_exact_on (target : Run) (runs running_runs : list Run)
    (all_cses : dict string) (k : kwargs) (out : option buckets) :
  collect_windows target runs running_runs all_cses k = ok out ->
  exact_on class_bucket k out.
Proof.
  unfold collect_windows. intros H.
  eapply (for_each_invariant (exact_on class_bucket k)); [| | exact H].
  - intros s x s' Hs Hb. eapply add_training_run_exact_on; eauto.
  - destruct (negb (run_in target running_runs)).
    + intros d cs ws w Hd [_ Hn] Hget Hin. injection Hd as <-.
      simpl in Hget. destruct (String.eqb cs "other-running") eqn:E.
      * apply String.eqb_eq in E. contradiction.
      * discriminate.
    + intros d cs ws w Hd. discriminate.
Qed.

(** X1. With a random choice that samples without replacement, every
    window of a returned bucket other than ['other'] and
    ['other-running'] has exactly [length_fr] frames. *)
Theorem class_buckets_hold_exact_windows {rng : Type}
    (np_random_choice : rng -> list matrix -> Z -> result (list matrix * rng))
    (target : Run) (runs running_runs : list Run) (all_cses : dict string)
    (k : kwargs) (g g' : rng) (out : buckets) (cs : string)
    (ws : list matrix) (w : matrix) :
  without_replacement np_random_choice ->
  _get_traces rng np_random_choice target runs running_runs all_cses k g
  = ok (out, g') ->
  cs <> "other" -> cs <> "other-running" ->
  dict_get out cs = Some ws ->
  In w ws ->
  Z.of_nat (nframes w) = length_fr k.
Proof.
  intros Hchoice H Hn1 Hn2 Hget Hin. unfold _get_traces in H.
  split_bind H as o Ho. split_bind H as p Hp. destruct p as [o1 g1].
  split_bind H as d Hd. split_bind H as stacked Hst.
  apply stack_buckets_ok in Hst. subst stacked. injection H as <- <-.
  destruct o1 as [d1 |]; [| discriminate]. injection Hd as <-.
  pose proof (collect_windows_exact_on _ _ _ _ _ _ Ho) as Hex.
  unfold cap_onsets in Hp. destruct (max_n_onsets k >? 0).
  - split_bind Hp as d0 Hd0. split_bind Hp as q Hq. destruct q as [d2 g2].
    injection Hp as <- <-.
    destruct o as [d' |]; [| discriminate]. injection Hd0 as <-.
    destruct (cap_loop_buckets np_random_choice Hchoice _ _ _ _ _ _ Hq cs ws Hget)
      as (ws0 & H0 & (rest & Hperm) & _).
    eapply (Hex d' cs ws0 w eq_refl (conj Hn1 Hn2) H0).
    eapply Permutation_in; [symmetry; exact Hperm |].
    apply in_or_app. left. exact Hin.
  - injection Hp as -> _. eapply (Hex d1 cs ws w eq_refl (conj Hn1 Hn2)); eauto.
Qed.

(** ** Buckets of the classes of a training run *)

Lemma for_each_establishes {S X} (I : S -> Prop) (body : S -> X -> result S)
    (x0 : X) :
  (forall s s', body s x0 = ok s' -> I s') ->
  (forall s x s', I s -> body s x = ok s' -> I s') ->
  forall xs s s', In x0 xs -> for_each body xs s = ok s' -> I s'.
Proof.
  intros Hest Hkeep xs. induction xs as [| x xs IH]; intros s s' Hin H.
  - destruct Hin.
  - cbn [for_each] in H. split_bind H as s1 H1. destruct Hin as [-> | Hin].
    + eapply for_each_invariant; [exact Hkeep | | exact H]. eapply Hest; eauto.
    + eapply IH; eauto.
Qed.

Lemma append_window_has_bucket (cs cs' : string) (out out' : option buckets)
    (w : matrix) :
  has_bucket cs out -> append_window out cs' w = ok out' -> has_bucket cs out'.
Proof.
  intros (d & ws & -> & Hget) H. unfold append_window in H. cbn in H.
  split_bind H as ws' Hws. injection H as <-.
  exists (dict_set d cs' (ws' ++ [w])). rewrite dict_get_set.
  destruct (String.eqb cs cs'); eauto.
Qed.

Lemma class_loop_has_bucket (k : kwargs) (trs : matrix) (cs cs' : string)
    (ons : list Z) (out out' : option buckets) :
  has_bucket cs out ->
  for_each
    (fun out on =>
       let toappend := window_at trs (offset_fr k) (length_fr k) on in
       if Z.of_nat (nframes toappend) =? length_fr k
       then append_window out cs' toappend
       else ok out)
    ons out = ok out' ->
  has_bucket cs out'.
Proof.
  intros Hout H.
  eapply (for_each_invariant (has_bucket cs)); [| exact Hout | exact H].
  intros s x s' Hs Hb. cbv beta zeta in Hb.
  destruct (Z.of_nat (nframes _) =? length_fr k).
  - eapply append_window_has_bucket; eauto.
  - injection Hb as <-. exact Hs.
Qed.

Lemma add_cs_onsets_keeps_bucket (k : kwargs) (all_cses : dict string)
    (t2p : Trace2P) (trs : matrix) (out out' : option buckets)
    (cs ncs : string) :
  has_bucket cs out ->
  add_cs_onsets k all_cses t2p trs out ncs = ok out' ->
  has_bucket cs out'.
Proof.
  intros Hout H. unfold add_cs_onsets in H.
  destruct (dict_get all_cses ncs) as [cs' |].
  - split_bind H as d Hd. eapply class_loop_has_bucket; [| exact H].
    destruct Hout as (d0 & ws & -> & Hget). injection Hd as ->.
    destruct (dict_mem d cs'); [exists d, ws; auto |].
    exists (dict_set d cs' []). rewrite dict_get_set.
    destruct (String.eqb cs cs'); eauto.
  - injection H as <-. exact Hout.
Qed.

Lemma add_cs_onsets_makes_bucket (k : kwargs) (all_cses : dict string)
    (t2p : Trace2P) (trs : matrix) (out out' : option buckets)
    (cs ncs : string) :
  dict_get all_cses ncs = Some cs ->
  add_cs_onsets k all_cses t2p trs out ncs = ok out' ->
  has_bucket cs out'.
Proof.
  intros Hcs H. unfold add_cs_onsets in H. rewrite Hcs in H.
  split_bind H as d Hd. eapply class_loop_has_bucket; [| exact H].
  unfold dict_mem. destruct (dict_get d cs) as [ws |] eqn:E.
  - exists d, ws. auto.
  - exists (dict_set d cs []), []. split; [reflexivity |].
    apply dict_get_set_same.
Qed.

Lemma add_other_windows_keeps_bucket (k : kwargs) (t2p : Trace2P)
    (trs : matrix) (out out' : option buckets) (cs : string) :
  has_bucket cs out ->
  add_other_windows k t2p trs out = ok out' ->
  has_bucket cs out'.
Proof.
  intros Hout H. unfold add_other_windows in H.
  destruct (0 <? length (speed t2p))%nat.
  - eapply (for_each_invariant (has_bucket cs)); [| exact Hout | exact H].
    intros s x s' Hs Hb. cbv beta zeta in Hb.
    destruct (fgt _ (running_fraction k));
      eapply append_window_has_bucket; eauto.
  - injection H as <-. exact Hout.
Qed.

Lemma add_training_run_keeps_bucket (k : kwargs) (target : Run)
    (all_cses : dict string) (out out' : option buckets) (training_run : Run)
    (cs : string) :
  has_bucket cs out ->
  add_training_run k target all_cses out training_run = ok out' ->
  has_bucket cs out'.
Proof.
  intros Hout H. unfold add_training_run in H. cbv zeta in H.
  split_bind H as out1 H1.
  assert (E1 : has_bucket cs out1).
  { destruct (remove_stim k || negb (run_eqb training_run target)).
    - eapply (for_each_invariant (has_bucket cs)); [| exact Hout | exact H1].
      intros s x s' Hs Hb. eapply add_cs_onsets_keeps_bucket; eauto.
    - injection H1 as <-. exact Hout. }
  destruct (negb (run_eqb training_run target)).
  - eapply add_other_windows_keeps_bucket; eauto.
  - injection H as <-. exact E1.
Qed.

Lemma add_training_run_makes_bucket (k : kwargs) (target : Run)
    (all_cses : dict string) (out out' : option buckets) (training_run : Run)
    (cs ncs : string) :
  remove_stim k = true \/ run_eqb training_run target = false ->
  In ncs (cses (trace2p training_run)) ->
  dict_get all_cses ncs = Some cs ->
  add_training_run k target all_cses out training_run = ok out' ->
  has_bucket cs out'.
Proof.
  intros Huse Hncs Hcs H. unfold add_training_run in H. cbv zeta in H.
  split_bind H as out1 H1.
  assert (Ec : remove_stim k || negb (run_eqb training_run target) = true).
  { destruct Huse as [-> | ->]; [reflexivity | apply orb_true_r]. }
  rewrite Ec in H1.
  assert (E1 : has_bucket cs out1).
  { eapply (for_each_establishes (has_bucket cs)); [| | exact Hncs | exact H1].
    - intros s s' Hb. eapply add_cs_onsets_makes_bucket; eauto.
    - intros s x s' Hs Hb. eapply add_cs_onsets_keeps_bucket; eauto. }
  destruct (negb (run_eqb training_run target)).
  - eapply add_other_windows_keeps_bucket; eauto.
  - injection H as <-. exact E1.
Qed.

Lemma cap_loop_keeps_keys {rng : Type}
    (np_random_choice : rng -> list matrix -> Z -> result (list matrix * rng))
    (k : kwargs) (ks : list string) :
  forall (d : buckets) (g : rng) d' g',
    for_each (limit_onsets rng np_random_choice k) ks (d, g) = ok (d', g') ->
    forall cs ws, dict_get d cs = Some ws -> exists ws', dict_get d' cs = Some ws'.
Proof.
  induction ks as [| x ks IH]; intros d g d' g' H cs ws Hget; cbn [for_each] in H.
  - injection H as <- <-. eauto.
  - split_bind H as q Hq. destruct q as [d1 g1].
    apply limit_onsets_cases in Hq.
    destruct Hq as [(-> & _ & _) | (wsx & chosen & _ & _ & _ & _ & ->)].
    + eapply IH; eauto.
    + destruct (String.eqb cs x) eqn:E.
      * eapply (IH _ _ _ _ H cs chosen). rewrite dict_get_set, E. reflexivity.
      * eapply (IH _ _ _ _ H cs ws). rewrite dict_get_set, E. exact Hget.
Qed.

(** X2. A stimulus class of a training run whose stimulus windows are
    used (stimulus removal is on, or the run is not the target) is a key
    of the returned buckets under its remapped name, also when none of
    its windows was retained. *)
Theorem seen_classes_stay_as_buckets {rng : Type}
    (np_random_choice : rng -> list matrix -> Z -> result (list matrix * rng))
    (target : Run) (runs running_runs : list Run) (all_cses : dict string)
    (k : kwargs) (g g' : rng) (out : buckets) (training_run : Run)
    (ncs cs : string) :
  _get_traces rng np_random_choice target runs running_runs all_cses k g
  = ok (out, g') ->
  In training_run runs ->
  remove_stim k = true \/ run_eqb training_run target = false ->
  In ncs (cses (trace2p training_run)) ->
  dict_get all_cses ncs = Some cs ->
  exists ws, dict_get out cs = Some ws.
Proof.
  intros H Hrun Huse Hncs Hcs. unfold _get_traces in H.
  split_bind H as o Ho. split_bind H as p Hp. destruct p as [o1 g1].
  split_bind H as d Hd. split_bind H as stacked Hst.
  apply stack_buckets_ok in Hst. subst stacked. injection H as <- <-.
  destruct o1 as [d1 |]; [| discriminate]. injection Hd as <-.
  assert (Hb : has_bucket cs o).
  { unfold collect_windows in Ho.
    eapply (for_each_establishes (has_bucket cs)); [| | exact Hrun | exact Ho].
    - intros s s' Hs. eapply add_training_run_makes_bucket; eauto.
    - intros s x s' Hs Hstep. eapply add_training_run_keeps_bucket; eauto. }
  destruct Hb as (d0 & ws0 & -> & Hget0).
  unfold cap_onsets in Hp. destruct (max_n_onsets k >? 0).
  - cbn [read_local bind ok] in Hp. split_bind Hp as q Hq.
    destruct q as [d2 g2]. injection Hp as <- <-.
    eapply cap_loop_keeps_keys; eauto.
  - injection Hp as <- _. eauto.
Qed.

(** ** The bucket ['other'] *)

Lemma for_each_total {S X} (I : S -> Prop) (body : S -> X -> result S) :
  (forall s x, I s -> exists s', body s x = ok s' /\ I s') ->
  forall xs s, I s -> exists s', for_each body xs s = ok s' /\ I s'.
Proof.
  intros step xs. induction xs as [| x xs IH]; intros s Hs; cbn [for_each].
  - eauto.
  - destruct (step s x Hs) as (s1 & -> & H1). cbn [bind ok]. apply IH. exact H1.
Qed.

Lemma for_each_ok_or_raise {S X} (I : S -> Prop) (body : S -> X -> result S)
    (e : exn) :
  (forall s x, I s -> (exists s', body s x = ok s' /\ I s')
                      \/ body s x = raise e) ->
  forall xs s, I s ->
    (exists s', for_each body xs s = ok s' /\ I s')
    \/ for_each body xs s = raise e.
Proof.
  intros step xs. induction xs as [| x xs IH]; intros s Hs; cbn [for_each].
  - left. eauto.
  - destruct (step s x Hs) as [(s1 & -> & H1) | ->].
    + cbn [bind ok]. apply IH. exact H1.
    + right. reflexivity.
Qed.

Lemma for_each_raises {S X} (I : S -> Prop) (body : S -> X -> result S)
    (e : exn) (x0 : X) :
  (forall s x, I s -> (exists s', body s x = ok s' /\ I s')
                      \/ body s x = raise e) ->
  (forall s, I s -> body s x0 = raise e) ->
  forall xs s, In x0 xs -> I s -> for_each body xs s = raise e.
Proof.
  intros step Hx0 xs. induction xs as [| x xs IH]; intros s Hin Hs.
  - destruct Hin.
  - cbn [for_each]. destruct Hin as [-> | Hin].
    + rewrite (Hx0 s Hs). reflexivity.
    + destruct (step s x Hs) as [(s1 & -> & H1) | ->].
      * cbn [bind ok]. apply IH; assumption.
      * reflexivity.
Qed.

Lemma add_cs_onsets_lacks_other (k : kwargs) (all_cses : dict string)
    (t2p : Trace2P) (trs : matrix) (out : option buckets) (ncs : string) :
  maps_nothing_to_other all_cses ->
  lacks_other out ->
  exists out', add_cs_onsets k all_cses t2p trs out ncs = ok out'
               /\ lacks_other out'.
Proof.
  intros Hmap Hout. unfold add_cs_onsets.
  destruct (dict_get all_cses ncs) as [cs |] eqn:Ecs; [| eauto].
  assert (Hcs : cs <> "other") by (eapply Hmap; eauto).
  destruct Hout as (d & wsr & -> & Hno & Hr). cbn [read_local bind ok].
  destruct (for_each_total
              (fun o => lacks_other o /\ has_bucket cs o)
              (fun out on =>
                 let toappend := window_at trs (offset_fr k) (length_fr k) on in
                 if Z.of_nat (nframes toappend) =? length_fr k
                 then append_window out cs toappend
                 else ok out))
    with (xs := csonsets t2p ncs
                  (Args (if correct_trials k then 0 else -1)
                        (lick_cutoff k) (lick_window k)))
         (s := Some (if dict_mem d cs then d else dict_set d cs []))
    as (out' & E & Hl & _).
  - intros s x ((d1 & ws1 & -> & Hno1 & Hr1) & (d2 & ws2 & Ed & Hc)).
    injection Ed as <-. cbv beta zeta.
    destruct (Z.of_nat (nframes _) =? length_fr k).
    + unfold append_window, dict_item. cbn [read_local bind ok].
      rewrite Hc. cbn [bind ok]. eexists. split; [reflexivity |]. split.
      * exists (dict_set d1 cs (ws2 ++ [window_at trs (offset_fr k) (length_fr k) x])).
        rewrite !dict_get_set.
        assert (E1 : String.eqb "other" cs = false).
        { destruct (String.eqb "other" cs) eqn:E; [| reflexivity].
          apply String.eqb_eq in E. congruence. }
        rewrite E1.
        destruct (String.eqb "other-running" cs); eauto.
      * eexists _, _. split; [reflexivity | apply dict_get_set_same].
    + eexists. split; [reflexivity |]. split.
      * exists d1, ws1. auto.
      * exists d1, ws2. auto.
  - unfold dict_mem. destruct (dict_get d cs) as [wsc |] eqn:Ec.
    + split; [exists d, wsr; auto | exists d, wsc; auto].
    + split.
      * exists (dict_set d cs []), wsr. split; [reflexivity |].
        rewrite !dict_get_set_other; auto.
        intros E. rewrite <- E, Hr in Ec. discriminate.
      * exists (dict_set d cs []), []. split; [reflexivity |].
        apply dict_get_set_same.
  - exists out'. split; [exact E | exact Hl].
Qed.

Lemma add_other_windows_lacks_other (k : kwargs) (t2p : Trace2P)
    (trs : matrix) (out : option buckets) :
  lacks_other out ->
  ((exists out', add_other_windows k t2p trs out = ok out' /\ lacks_other out')
   \/ add_other_windows k t2p trs out = raise (KeyError "other"))
  /\ ((0 < length (speed t2p))%nat ->
      (exists ot,
          In ot (nocs t2p (length_fr k) (pad_fr k) (of_Z (-1)))
          /\ is_running k t2p ot = false) ->
      add_other_windows k t2p trs out = raise (KeyError "other")).
Proof.
  intros Hout. unfold add_other_windows.
  assert (Hstep : forall s x,
             lacks_other s ->
             (exists s',
                 (let start := x + offset_fr k in
                  if fgt (nanmean_bool
                            (py_slice
                               (map (fun s0 => fgt s0 (running_threshold_cms k))
                                    (speed t2p))
                               (Some start) (Some (start + length_fr k))))
                         (running_fraction k)
                  then append_window s "other-running"
                         (window_at trs (offset_fr k) (length_fr k) x)
                  else append_window s "other"
                         (window_at trs (offset_fr k) (length_fr k) x))
                 = ok s' /\ lacks_other s')
             \/ (let start := x + offset_fr k in
                 if fgt (nanmean_bool
                           (py_slice
                              (map (fun s0 => fgt s0 (running_threshold_cms k))
                                   (speed t2p))
                              (Some start) (Some (start + length_fr k))))
                        (running_fraction k)
                 then append_window s "other-running"
                        (window_at trs (offset_fr k) (length_fr k) x)
                 else append_window s "other"
                        (window_at trs (offset_fr k) (length_fr k) x))
                = raise (KeyError "other")).
  { intros s x (d & ws & -> & Hno & Hr). cbv zeta.
    destruct (fgt _ (running_fraction k)).
    - left. unfold append_window, dict_item. cbn [read_local bind ok].
      rewrite Hr. cbn [bind ok]. eexists. split; [reflexivity |].
      eexists _, _. split; [reflexivity |].
      rewrite dict_get_set_other by discriminate.
      split; [exact Hno | apply dict_get_set_same].
    - right. unfold append_window, dict_item. cbn [read_local bind ok].
      rewrite Hno. reflexivity. }
  split.
  - destruct (0 <? length (speed t2p))%nat; [| left; eauto].
    apply (for_each_ok_or_raise lacks_other _ _ Hstep _ _ Hout).
  - intros Hsp (ot & Hot & Hrun).
    assert (E : (0 <? length (speed t2p))%nat = true) by (apply Nat.ltb_lt; exact Hsp).
    rewrite E.
    apply (for_each_raises lacks_other _ (KeyError "other") ot Hstep);
      [| exact Hot | exact Hout].
    intros s (d & ws & -> & Hno & Hr). cbv zeta.
    unfold is_running in Hrun. cbv zeta in Hrun. rewrite Hrun.
    unfold append_window, dict_item. cbn [read_local bind ok].
    rewrite Hno. reflexivity.
Qed.

Lemma add_training_run_lacks_other (k : kwargs) (target : Run)
    (all_cses : dict string) (out : option buckets) (training_run : Run) :
  maps_nothing_to_other all_cses ->
  lacks_other out ->
  ((exists out', add_training_run k target all_cses out training_run = ok out'
                 /\ lacks_other out')
   \/ add_training_run k target all_cses out training_run
      = raise (KeyError "other"))
  /\ (run_eqb training_run target = false ->
      (0 < length (speed (trace2p training_run)))%nat ->
      (exists ot,
          In ot (nocs (trace2p training_run) (length_fr k) (pad_fr k)
                   (of_Z (-1)))
          /\ is_running k (trace2p training_run) ot = false) ->
      add_training_run k target all_cses out training_run
      = raise (KeyError "other")).
Proof.
  intros Hmap Hout. unfold add_training_run. cbv zeta.
  assert (H1 : exists out1,
             (if remove_stim k || negb (run_eqb training_run target)
              then for_each
                     (add_cs_onsets k all_cses (trace2p training_run)
                        (trace (trace2p training_run) (trace_type k)))
                     (cses (trace2p training_run)) out
              else ok out) = ok out1 /\ lacks_other out1).
  { destruct (remove_stim k || negb (run_eqb training_run target)); [| eauto].
    apply for_each_total; [| exact Hout].
    intros s x Hs. apply add_cs_onsets_lacks_other; assumption. }
  destruct H1 as (out1 & -> & Hout1). cbn [bind ok].
  destruct (add_other_windows_lacks_other k (trace2p training_run)
              (trace (trace2p training_run) (trace_type k)) out1 Hout1)
    as (Hcases & Hraise).
  split.
  - destruct (negb (run_eqb training_run target)); [exact Hcases | left; eauto].
  - intros Hne Hsp Hot. rewrite Hne. cbn [negb]. apply Hraise; assumption.
Qed.

(** X3. The bucket ['other'] is created by the class remapping only.
    When no class is remapped to ['other'] and a training run other than
    the target has speed data and a non-stimulus window in which the
    mouse does not run, the extraction raises [KeyError] for ['other']. *)
Theorem missing_other_bucket_raises {rng : Type}
    (np_random_choice : rng -> list matrix -> Z -> result (list matrix * rng))
    (target : Run) (runs running_runs : list Run) (all_cses : dict string)
    (k : kwargs) (g : rng) (training_run : Run) (ot : Z) :
  run_in target running_runs = false ->
  maps_nothing_to_other all_cses ->
  In training_run runs ->
  run_eqb training_run target = false ->
  (0 < length (speed (trace2p training_run)))%nat ->
  In ot (nocs (trace2p training_run) (length_fr k) (pad_fr k) (of_Z (-1))) ->
  is_running k (trace2p training_run) ot = false ->
  _get_traces rng np_random_choice target runs running_runs all_cses k g
  = raise (KeyError "other").
Proof.
  intros Hin Hmap Hrun Hne Hsp Hot Hnr.
  unfold _get_traces, collect_windows. rewrite Hin. cbn [negb].
  rewrite (for_each_raises lacks_other (add_training_run k target all_cses)
             (KeyError "other") training_run).
  - reflexivity.
  - intros s x Hs.
    apply (add_training_run_lacks_other k target all_cses s x Hmap Hs).
  - intros s Hs.
    apply (add_training_run_lacks_other k target all_cses s training_run Hmap Hs);
      eauto.
  - exact Hrun.
  - eexists _, _. split; [reflexivity |]. split; reflexivity.
Qed.

(** ** The target run among the training runs *)

Lemma for_each_skip {S X} (body : S -> X -> result S) (keep : X -> bool) :
  (forall s x, keep x = false -> body s x = ok s) ->
  forall xs s, for_each body xs s = for_each body (filter keep xs) s.
Proof.
  intros Hskip xs. induction xs as [| x xs IH]; intros s; cbn [for_each filter].
  - reflexivity.
  - destruct (keep x) eqn:E; cbn [for_each].
    + destruct (body s x); cbn [bind]; [reflexivity | apply IH].
    + rewrite (Hskip s x E). cbn [bind ok]. apply IH.
Qed.

(** X4. With [remove_stim] off, the target run contributes nothing when
    it is among the training runs: the extraction equals the one over
    the training runs without the target. *)
Theorem target_is_left_out_without_remove_stim {rng : Type}
    (np_random_choice : rng -> list matrix -> Z -> result (list matrix * rng))
    (target : Run) (runs running_runs : list Run) (all_cses : dict string)
    (k : kwargs) (g : rng) :
  remove_stim k = false ->
  _get_traces rng np_random_choice target runs running_runs all_cses k g
  = _get_traces rng np_random_choice target
      (filter (fun r => negb (run_eqb r target)) runs)
      running_runs all_cses k g.
Proof.
  intros Hrs. unfold _get_traces, collect_windows.
  rewrite (for_each_skip (add_training_run k target all_cses)
             (fun r => negb (run_eqb r target))); [reflexivity |].
  intros s x Hx. unfold add_training_run. cbv zeta.
  rewrite Hrs, Hx. reflexivity.
Qed.

(** ** Runs of the further properties *)

Lemma window_complete_iff_fits_witness :
  (Z.of_nat (nframes (window_at ex_trace4 1 3 0)) = 3 <-> 0 + 1 + 3 <= 4)
  /\ Z.of_nat (nframes (window_at ex_trace4 1 3 1)) <= 3.
Proof.
  split.
  - apply (window_complete_iff_fits ex_trace4 1 3 0); lia.
  - apply (window_complete_iff_fits ex_trace4 1 3 1); lia.
Defined.

Lemma run_onsets_keep_every_onset_witness :
  exists w,
    In w (_get_run_onsets [ex_running] 3 (PadInt 31) (Fin 4) 1)
    /\ Z.of_nat (nframes w) < 3.
Proof.
  destruct (run_onsets_keep_every_onset [ex_running] 3 (PadInt 31) (Fin 4) 1)
    as (_ & _ & H).
  apply (H ltac:(lia) ex_running 1).
  - left; reflexivity.
  - left; reflexivity.
  - lia.
  - simpl. lia.
Defined.

Lemma negative_start_reads_from_the_end_witness :
  frames (window_at ex_trace4 (-3) 2 0) = [[Fin 2]; [Fin 3]]
  /\ exact_length (ex_kwargs 2 (-3) (-1)) (window_at ex_trace4 (-3) 2 0) = true.
Proof.
  apply (negative_start_reads_from_the_end (ex_kwargs 2 (-3) (-1)) ex_trace4 0);
    simpl; lia.
Defined.

Lemma class_buckets_hold_exact_windows_witness :
  Z.of_nat (nframes (one_cell [2; 3; 4]%Q)) = 3.
Proof.
  apply (class_buckets_hold_exact_windows numpy_choice ex_target
           [ex_training_moving] [ex_running] [("plus", "plus")]
           (ex_kwargs 3 1 (-1)) tt tt
           [("other-running", [one_cell [3; 4]%Q; one_cell [3; 4]%Q]);
            ("plus", [one_cell [2; 3; 4]%Q])]
           "plus" [one_cell [2; 3; 4]%Q] (one_cell [2; 3; 4]%Q)
           numpy_choice_without_replacement eq_refl).
  - discriminate.
  - discriminate.
  - reflexivity.
  - left; reflexivity.
Defined.

Lemma seen_classes_stay_as_buckets_witness :
  _get_traces unit numpy_choice ex_target [ex_training_silent] [ex_running]
    [("plus", "plus")] (ex_kwargs 2 0 (-1)) tt
  = ok ([("other-running", [one_cell [2; 3]%Q]); ("plus", [])], tt)
  /\ exists ws,
      dict_get [("other-running", [one_cell [2; 3]%Q]); ("plus", [])] "plus"
      = Some ws.
Proof.
  split; [reflexivity |].
  apply (seen_classes_stay_as_buckets numpy_choice ex_target
           [ex_training_silent] [ex_running] [("plus", "plus")]
           (ex_kwargs 2 0 (-1)) tt tt _ ex_training_silent "plus" "plus"
           eq_refl).
  - left; reflexivity.
  - left; reflexivity.
  - left; reflexivity.
  - reflexivity.
Defined.

Lemma plus_maps_nothing_to_other : maps_nothing_to_other [("plus", "plus")].
Proof.
  intros ncs cs H. simpl in H.
  destruct (String.eqb ncs "plus"); [| discriminate].
  injection H as <-. discriminate.
Qed.

Lemma missing_other_bucket_raises_witness :
  _get_traces unit numpy_choice ex_target [ex_training_still] [ex_running]
    [("plus", "plus")] (ex_kwargs 2 0 (-1)) tt
  = raise (KeyError "other").
Proof.
  apply (missing_other_bucket_raises numpy_choice ex_target
           [ex_training_still] [ex_running] [("plus", "plus")]
           (ex_kwargs 2 0 (-1)) tt ex_training_still 0).
  - reflexivity.
  - exact plus_maps_nothing_to_other.
  - left; reflexivity.
  - reflexivity.
  - simpl. lia.
  - left; reflexivity.
  - reflexivity.
Defined.

Lemma target_is_left_out_without_remove_stim_witness :
  _get_traces unit numpy_choice ex_training
    [ex_training; ex_training_moving] [ex_running] [("plus", "plus")]
    ex_kwargs_keep_stim tt
  = _get_traces unit numpy_choice ex_training [ex_training_moving]
      [ex_running] [("plus", "plus")] ex_kwargs_keep_stim tt.
Proof.
  apply (target_is_left_out_without_remove_stim numpy_choice ex_training
           [ex_training; ex_training_moving] [ex_running] [("plus", "plus")]
           ex_kwargs_keep_stim tt).
  reflexivity.
Defined.

(** ** Cells with missing values: [_nan_cells] *)

Lemma find_nan_cells_steps (traces : buckets) :
  find_nan_cells traces = fold_left nan_step traces ([], -1).
Proof.
  unfold find_nan_cells. generalize (@nil nat, -1).
  induction traces as [| [cs ws] l IH]; intros [nc n]; cbn [fold_left].
  - reflexivity.
  - apply IH.
Qed.

Lemma nan_cells_unfold (traces : buckets) :
  _nan_cells traces
  = let '(nancells, n) := fold_left nan_step traces ([], -1) in
    if n <? 0 then raise (ValueError "negative dimensions are not allowed")
    else
      if forallb (fun i => (Z.of_nat i <? n)) nancells
      then ok (map (fun i => existsb (Nat.eqb i) nancells)
                   (seq 0 (Z.to_nat n)))
      else raise (IndexError "index is out of bounds").
Proof. unfold _nan_cells. rewrite find_nan_cells_steps. reflexivity. Qed.

Lemma nan_fold_empty (traces : buckets) (acc : list nat * Z) :
  Forall (fun kv => snd kv = []) traces ->
  fold_left nan_step traces acc = acc.
Proof.
  revert acc. induction traces as [| [cs ws] traces IH]; intros acc H.
  - reflexivity.
  - inversion H as [| ? ? Hws Ht]; subst. cbn [fold_left]. simpl in Hws. subst ws.
    destruct acc as [nc n]. cbn [nan_step]. apply IH. exact Ht.
Qed.

(** X8. When no bucket holds a window (also when there is no bucket at
    all) the cell count stays at -1 and [_nan_cells] raises [ValueError]
    where it builds the mask; it does not return an empty mask. *)
Theorem nan_cells_without_windows_raises (traces : buckets) :
  Forall (fun kv => snd kv = []) traces ->
  _nan_cells traces = raise (ValueError "negative dimensions are not allowed").
Proof.
  intros H. rewrite nan_cells_unfold, (nan_fold_empty traces _ H). reflexivity.
Qed.

Lemma nan_fold_uniform (n : nat) (traces : buckets) :
  uniform_cells n traces ->
  forall nc0 n0 nc n',
    fold_left nan_step traces (nc0, n0) = (nc, n') ->
    (forall i, In i nc <->
               In i nc0
               \/ ((i < n)%nat
                   /\ exists cs ws, In (cs, ws) traces
                                    /\ cell_has_nan ws i = true))
    /\ (n' = n0 \/ n' = Z.of_nat n)
    /\ ((exists cs w ws, In (cs, w :: ws) traces) -> n' = Z.of_nat n).
Proof.
  induction traces as [| [cs ws] traces IH]; intros Hu nc0 n0 nc n' H.
  - cbn [fold_left] in H. injection H as <- <-. repeat split.
    + intros Hi. left; exact Hi.
    + intros [Hi | (_ & cs & ws & [] & _)]. exact Hi.
    + left; reflexivity.
    + intros (cs & w & ws & []).
  - cbn [fold_left] in H.
    assert (Hu' : uniform_cells n traces).
    { intros cs' w' ws' Hin. eapply Hu. right. exact Hin. }
    destruct ws as [| w ws].
    + cbn [nan_step] in H.
      destruct (IH Hu' _ _ _ _ H) as (Hin & Hn & Hne). repeat split.
      * intros Hi. apply Hin in Hi.
        destruct Hi as [Hi | (Hlt & cs' & ws' & Hm & Hc)]; [left; exact Hi |].
        right. split; [exact Hlt |]. exists cs', ws'. split; [right; exact Hm | exact Hc].
      * intros [Hi | (Hlt & cs' & ws' & [E | Hm] & Hc)].
        -- apply Hin. left; exact Hi.
        -- injection E as <- <-. discriminate Hc.
        -- apply Hin. right. split; [exact Hlt |]. eauto.
      * exact Hn.
      * intros (cs' & w' & ws' & [E | Hm]); [discriminate E |]. apply Hne. eauto.
    + cbn [nan_step] in H.
      assert (Ew : ncells w = n) by (eapply Hu; left; reflexivity).
      rewrite Ew in H.
      destruct (IH Hu' _ _ _ _ H) as (Hin & Hn & Hne). repeat split.
      * intros Hi. apply Hin in Hi.
        destruct Hi as [Hi | (Hlt & cs' & ws' & Hm & Hc)].
        -- apply in_app_or in Hi. destruct Hi as [Hi | Hi]; [left; exact Hi |].
           apply filter_In in Hi. destruct Hi as (Hs & Hc).
           apply in_seq in Hs. right. split; [lia |].
           exists cs, (w :: ws). split; [left; reflexivity | exact Hc].
        -- right. split; [exact Hlt |]. exists cs', ws'.
           split; [right; exact Hm | exact Hc].
      * intros [Hi | (Hlt & cs' & ws' & [E | Hm] & Hc)].
        -- apply Hin. left. apply in_or_app. left; exact Hi.
        -- injection E as <- <-. apply Hin. left. apply in_or_app. right.
           apply filter_In. split; [apply in_seq; lia | exact Hc].
        -- apply Hin. right. split; [exact Hlt |]. eauto.
      * destruct Hn as [-> | ->]; right; reflexivity.
      * intros _. destruct Hn as [-> | ->]; reflexivity.
Qed.

(** X9. When every bucket is a regular array of windows of [n] cells and
    some bucket is not empty, [_nan_cells] returns a mask of [n] cells
    that is true exactly at the cells with a non-finite value in some
    window of some bucket. *)
Theorem nan_cells_marks_cells_with_missing_values (n : nat)
    (traces : buckets) :
  regular_buckets n traces ->
  (exists cs w ws, In (cs, w :: ws) traces) ->
  exists mask,
    _nan_cells traces = ok mask
    /\ length mask = n
    /\ forall i, (i < n)%nat ->
         (nth i mask false = true
          <-> exists cs ws, In (cs, ws) traces /\ cell_has_nan ws i = true).
Proof.
  intros Hr Hne.
  assert (Hu : uniform_cells n traces).
  { intros cs w ws Hin. destruct (Hr _ _ Hin) as (f & Hf).
    apply (Hf w). left. reflexivity. }
  rewrite nan_cells_unfold.
  destruct (fold_left nan_step traces ([], -1)) as [nc n'] eqn:E.
  destruct (nan_fold_uniform n traces Hu _ _ _ _ E) as (Hin & _ & Hn).
  rewrite (Hn Hne).
  assert (E1 : (Z.of_nat n <? 0) = false) by lia. rewrite E1.
  assert (E2 : forallb (fun i => Z.of_nat i <? Z.of_nat n) nc = true).
  { apply forallb_forall. intros i Hi. apply Hin in Hi.
    destruct Hi as [[] | (Hlt & _)]. lia. }
  rewrite E2, Nat2Z.id. eexists. split; [reflexivity |]. split.
  - rewrite length_map, length_seq. reflexivity.
  - intros i Hi.
    rewrite (nth_indep _ false (existsb (Nat.eqb 0) nc))
      by (rewrite length_map, length_seq; exact Hi).
    rewrite (map_nth (fun i => existsb (Nat.eqb i) nc) (seq 0 n) 0%nat i).
    rewrite seq_nth by exact Hi. cbn [Nat.add].
    rewrite existsb_exists. split.
    + intros (j & Hj & Ej). apply Nat.eqb_eq in Ej; subst j.
      apply Hin in Hj. destruct Hj as [[] | (_ & Hx)]. exact Hx.
    + intros Hx. exists i. split; [| apply Nat.eqb_refl].
      apply Hin. right. split; [exact Hi | exact Hx].
Qed.

(** ** Durations in frames: [_convert_time_to_frames] *)

Lemma py_round_within_half (q : Q) :
  exists n, py_round (Fin q) = ok n
            /\ (inject_Z n - (1 # 2) <= q <= inject_Z n + (1 # 2))%Q.
Proof.
  unfold py_round. eexists. split; [reflexivity |].
  pose proof (Qfloor_le q) as H1. pose proof (Qlt_floor q) as H2.
  pose proof (Qfloor_le (q * 2)) as H3. pose proof (Qlt_floor (q * 2)) as H4.
  set (f := Qfloor q) in *. set (t := Qfloor (q * 2)) in *.
  rewrite inject_Z_plus in H2, H4.
  change (inject_Z 1) with 1%Q in H2, H4.
  destruct (Qeq_bool (q - inject_Z f) (1 # 2)) eqn:E.
  - apply Qeq_bool_eq in E.
    destruct (Z.even f); [| rewrite inject_Z_plus; change (inject_Z 1) with 1%Q];
      split; lra.
  - assert (Ht1 : 2 * f <= t).
    { assert (Hq : (inject_Z (2 * f) < inject_Z (t + 1))%Q).
      { rewrite inject_Z_mult, inject_Z_plus.
        change (inject_Z 2) with 2%Q. change (inject_Z 1) with 1%Q. lra. }
      rewrite <- Zlt_Qlt in Hq. lia. }
    assert (Ht2 : t <= 2 * f + 1).
    { assert (Hq : (inject_Z t < inject_Z (2 * f + 2))%Q).
      { rewrite inject_Z_plus, inject_Z_mult.
        change (inject_Z 2) with 2%Q. lra. }
      rewrite <- Zlt_Qlt in Hq. lia. }
    assert (Ht : t = 2 * f \/ t = 2 * f + 1) by lia.
    destruct Ht as [Ht | Ht]; rewrite Ht in *.
    + replace (f + (2 * f - 2 * f)) with f by lia.
      rewrite inject_Z_mult in H4. change (inject_Z 2) with 2%Q in H4.
      split; lra.
    + replace (f + (2 * f + 1 - 2 * f)) with (f + 1) by lia.
      rewrite inject_Z_plus, inject_Z_mult in H3.
      change (inject_Z 2) with 2%Q in H3. change (inject_Z 1) with 1%Q in H3.
      rewrite inject_Z_plus. change (inject_Z 1) with 1%Q.
      split; lra.
Qed.

Lemma ms_to_frames_within_half_frame (v : pyval) (ms rate : Q) :
  as_float v = ok (Fin ms) ->
  exists n,
    ms_to_frames v (Fin rate) = ok n
    /\ (inject_Z n - (1 # 2) <= ms / 1000 * rate <= inject_Z n + (1 # 2))%Q.
Proof.
  intros Hv. unfold ms_to_frames. rewrite Hv. cbn [bind ok].
  unfold fdiv. change (Qeq_bool 1000 0) with false. cbn [fmul].
  destruct (py_round_within_half (Qred (Qred (ms / 1000) * rate)))
    as (n & -> & Hn).
  exists n. split; [reflexivity |].
  rewrite !Qred_correct in Hn. exact Hn.
Qed.

Lemma convert_inv (pars pars' : params) (rate : float) :
  _convert_time_to_frames pars rate = ok pars' ->
  exists v1 n1 v2 n2 v3 n3 v4 a b pre post v5 n5,
    dict_get pars "stimulus-training-ms" = Some v1
    /\ ms_to_frames v1 rate = ok n1
    /\ dict_get pars "stimulus-training-offset-ms" = Some v2
    /\ ms_to_frames v2 rate = ok n2
    /\ dict_get pars "classification-ms" = Some v3
    /\ ms_to_frames v3 rate = ok n3
    /\ dict_get pars "excluded-time-around-onsets-ms" = Some v4
    /\ as_exclusion_pair v4 = VTuple a b
    /\ ms_to_frames a rate = ok pre
    /\ ms_to_frames b rate = ok post
    /\ dict_get pars "temporal-prior-fwhm-ms" = Some v5
    /\ ms_to_frames v5 rate = ok n5
    /\ pars'
       = dict_set
           (dict_set
              (dict_set
                 (dict_set
                    (dict_set
                       (dict_set pars "stimulus-frames" (VInt n1))
                       "stimulus-offset-frames" (VInt n2))
                    "classification-frames" (VInt n3))
                 "excluded-time-around-onsets-ms" (as_exclusion_pair v4))
              "excluded-time-around-onsets-frames"
              (VTuple (VInt pre) (VInt post)))
           "temporal-prior-fwhm-frames" (VInt n5).
Proof.
  unfold _convert_time_to_frames. intros H.
  split_bind H as v1 H1. apply dict_item_ok in H1.
  split_bind H as n1 Hn1.
  split_bind H as v2 H2. apply dict_item_ok in H2.
  rewrite dict_get_set_other in H2 by discriminate.
  split_bind H as n2 Hn2.
  split_bind H as v3 H3. apply dict_item_ok in H3.
  rewrite !dict_get_set_other in H3 by discriminate.
  split_bind H as n3 Hn3.
  split_bind H as v4 H4. apply dict_item_ok in H4.
  rewrite !dict_get_set_other in H4 by discriminate.
  cbv zeta in H.
  split_bind H as v4' H4'. apply dict_item_ok in H4'.
  split_bind H as a0 Ha0. split_bind H as pre Hpre.
  split_bind H as v4'' H4''. apply dict_item_ok in H4''.
  split_bind H as b0 Hb0. split_bind H as post Hpost.
  split_bind H as v5 H5. apply dict_item_ok in H5.
  split_bind H as n5 Hn5. injection H as <-.
  match type of H4' with
  | dict_get ?d _ = _ =>
      assert (Ed : d = dict_set
                         (dict_set
                            (dict_set
                               (dict_set pars "stimulus-frames" (VInt n1))
                               "stimulus-offset-frames" (VInt n2))
                            "classification-frames" (VInt n3))
                         "excluded-time-around-onsets-ms"
                         (as_exclusion_pair v4))
  end.
  { destruct v4; try reflexivity; symmetry; apply dict_set_noop;
      cbn [as_exclusion_pair]; rewrite !dict_get_set_other by discriminate;
      exact H4. }
  rewrite Ed in *. clear Ed.
  rewrite dict_get_set_same in H4', H4''.
  injection H4' as <-. injection H4'' as <-.
  rewrite !dict_get_set_other in H5 by discriminate.
  destruct (as_exclusion_pair v4) as [| | | | a b | | | |] eqn:Ev;
    try discriminate Ha0.
  cbn [item0 item1] in Ha0, Hb0. injection Ha0 as <-. injection Hb0 as <-.
  exists v1, n1, v2, n2, v3, n3, v4, a, b, pre, post, v5, n5.
  rewrite <- Ev at 2.
  repeat split; assumption || reflexivity.
Qed.

Lemma convert_intro (pars : params) (rate : float)
    (v1 v2 v3 v4 a b v5 : pyval) (n1 n2 n3 pre post n5 : Z) :
  dict_get pars "stimulus-training-ms" = Some v1 ->
  ms_to_frames v1 rate = ok n1 ->
  dict_get pars "stimulus-training-offset-ms" = Some v2 ->
  ms_to_frames v2 rate = ok n2 ->
  dict_get pars "classification-ms" = Some v3 ->
  ms_to_frames v3 rate = ok n3 ->
  dict_get pars "excluded-time-around-onsets-ms" = Some v4 ->
  as_exclusion_pair v4 = VTuple a b ->
  ms_to_frames a rate = ok pre ->
  ms_to_frames b rate = ok post ->
  dict_get pars "temporal-prior-fwhm-ms" = Some v5 ->
  ms_to_frames v5 rate = ok n5 ->
  _convert_time_to_frames pars rate
  = ok (dict_set
          (dict_set
             (dict_set
                (dict_set
                   (dict_set
                      (dict_set pars "stimulus-frames" (VInt n1))
                      "stimulus-offset-frames" (VInt n2))
                   "classification-frames" (VInt n3))
                "excluded-time-around-onsets-ms" (as_exclusion_pair v4))
             "excluded-time-around-onsets-frames"
             (VTuple (VInt pre) (VInt post)))
          "temporal-prior-fwhm-frames" (VInt n5)).
Proof.
  intros H1 Hn1 H2 Hn2 H3 Hn3 H4 Ev Hpre Hpost H5 Hn5.
  unfold _convert_time_to_frames, dict_item.
  rewrite H1. cbn [bind ok]. rewrite Hn1. cbn [bind ok].
  rewrite dict_get_set_other by discriminate.
  rewrite H2. cbn [bind ok]. rewrite Hn2. cbn [bind ok].
  rewrite !dict_get_set_other by discriminate.
  rewrite H3. cbn [bind ok]. rewrite Hn3. cbn [bind ok].
  rewrite !dict_get_set_other by discriminate.
  rewrite H4. cbn [bind ok]. cbv zeta.
  match goal with
  | |- context [dict_get ?d "excluded-time-around-onsets-ms"] =>
      assert (Ed : d = dict_set
                         (dict_set
                            (dict_set
                               (dict_set pars "stimulus-frames" (VInt n1))
                               "stimulus-offset-frames" (VInt n2))
                            "classification-frames" (VInt n3))
                         "excluded-time-around-onsets-ms"
                         (as_exclusion_pair v4))
  end.
  { destruct v4; try reflexivity; symmetry; apply dict_set_noop;
      cbn [as_exclusion_pair]; rewrite !dict_get_set_other by discriminate;
      exact H4. }
  rewrite Ed. clear Ed.
  rewrite dict_get_set_same. cbn [bind ok]. rewrite Ev. cbn [item0 item1 bind ok].
  rewrite Hpre. cbn [bind ok]. rewrite Hpost. cbn [bind ok].
  rewrite !dict_get_set_other by discriminate.
  rewrite H5. cbn [bind ok]. rewrite Hn5. reflexivity.
Qed.

Lemma as_exclusion_pair_tuple (v a b : pyval) :
  as_exclusion_pair v = VTuple a b ->
  as_exclusion_pair (as_exclusion_pair v) = as_exclusion_pair v.
Proof. intros ->. reflexivity. Qed.

(** X12. Converting a converted parameter set once more, at the same
    frame rate, returns it unchanged. *)
Theorem conversion_is_idempotent (pars pars' : params) (rate : float) :
  _convert_time_to_frames pars rate = ok pars' ->
  _convert_time_to_frames pars' rate = ok pars'.
Proof.
  intros H. apply convert_inv in H.
  destruct H as (v1 & n1 & v2 & n2 & v3 & n3 & v4 & a & b & pre & post & v5
                 & n5 & H1 & Hn1 & H2 & Hn2 & H3 & Hn3 & H4 & Ev & Hpre
                 & Hpost & H5 & Hn5 & ->).
  rewrite Ev.
  erewrite (convert_intro _ rate v1 v2 v3 (VTuple a b) a b v5
              n1 n2 n3 pre post n5); try eassumption; try reflexivity.
  - f_equal. cbn [as_exclusion_pair].
    repeat (rewrite dict_set_noop;
            [| repeat (rewrite dict_get_set_other by discriminate);
               apply dict_get_set_same]).
    reflexivity.
  - repeat (rewrite dict_get_set_other by discriminate). exact H1.
  - repeat (rewrite dict_get_set_other by discriminate). exact H2.
  - repeat (rewrite dict_get_set_other by discriminate). exact H3.
  - repeat (rewrite dict_get_set_other by discriminate). apply dict_get_set_same.
  - repeat (rewrite dict_get_set_other by discriminate). exact H5.
Qed.

Lemma ms_to_frames_inv (v : pyval) (rate : Q) (n : Z) :
  ms_to_frames v (Fin rate) = ok n ->
  exists ms,
    as_float v = ok (Fin ms)
    /\ (inject_Z n - (1 # 2) <= ms / 1000 * rate <= inject_Z n + (1 # 2))%Q.
Proof.
  intros H. pose proof H as H'. unfold ms_to_frames in H'.
  split_bind H' as x Hx. destruct x as [| ms]; [discriminate H' |].
  exists ms. split; [exact Hx |].
  destruct (ms_to_frames_within_half_frame v ms rate Hx) as (n' & E & Hn).
  rewrite H in E. injection E as <-. exact Hn.
Qed.

(** X10. Each of the four scalar durations is converted to a number of
    frames nearest to [ms/1000*framerate]: the frame count that
    [_convert_time_to_frames] writes differs from that product by at most
    one half. *)
Theorem conversion_rounds_to_nearest_frame (pars pars' : params) (rate : Q)
    (ms_key frames_key : string) :
  _convert_time_to_frames pars (Fin rate) = ok pars' ->
  In (ms_key, frames_key) scalar_conversions ->
  exists v ms n,
    dict_get pars ms_key = Some v
    /\ as_float v = ok (Fin ms)
    /\ dict_get pars' frames_key = Some (VInt n)
    /\ (inject_Z n - (1 # 2) <= ms / 1000 * rate <= inject_Z n + (1 # 2))%Q.
Proof.
  intros H Hin. apply convert_inv in H.
  destruct H as (v1 & n1 & v2 & n2 & v3 & n3 & v4 & a & b & pre & post & v5
                 & n5 & H1 & Hn1 & H2 & Hn2 & H3 & Hn3 & H4 & Ev & Hpre
                 & Hpost & H5 & Hn5 & ->).
  destruct Hin as [E | [E | [E | [E | []]]]]; injection E as <- <-.
  - destruct (ms_to_frames_inv _ _ _ Hn1) as (ms & Hv & Hb).
    exists v1, ms, n1.
    split; [exact H1 | split; [exact Hv | split; [| exact Hb]]].
    repeat (rewrite dict_get_set_other by discriminate). apply dict_get_set_same.
  - destruct (ms_to_frames_inv _ _ _ Hn2) as (ms & Hv & Hb).
    exists v2, ms, n2.
    split; [exact H2 | split; [exact Hv | split; [| exact Hb]]].
    repeat (rewrite dict_get_set_other by discriminate). apply dict_get_set_same.
  - destruct (ms_to_frames_inv _ _ _ Hn3) as (ms & Hv & Hb).
    exists v3, ms, n3.
    split; [exact H3 | split; [exact Hv | split; [| exact Hb]]].
    repeat (rewrite dict_get_set_other by discriminate). apply dict_get_set_same.
  - destruct (ms_to_frames_inv _ _ _ Hn5) as (ms & Hv & Hb).
    exists v5, ms, n5.
    split; [exact H5 | split; [exact Hv | split; [| exact Hb]]].
    apply dict_get_set_same.
Qed.

Lemma convert_keeps_other_keys (pars pars' : params) (rate : float)
    (key : string) :
  _convert_time_to_frames pars rate = ok pars' ->
  ~ In key written_by_conversion ->
  dict_get pars' key = dict_get pars key.
Proof.
  intros H Hkey. apply convert_inv in H.
  destruct H as (v1 & n1 & v2 & n2 & v3 & n3 & v4 & a & b & pre & post & v5
                 & n5 & H1 & Hn1 & H2 & Hn2 & H3 & Hn3 & H4 & Ev & Hpre
                 & Hpost & H5 & Hn5 & ->).
  unfold written_by_conversion in Hkey.
  repeat (rewrite dict_get_set_other;
          [| intros ->; apply Hkey; simpl; tauto]).
  reflexivity.
Qed.

(** X11. [_convert_time_to_frames] changes no key other than the five
    frame keys and the exclusion time.  The exclusion time in
    milliseconds is stored as a pair, an integer standing for the pair of
    itself, and the exclusion frames are the pair of the frame counts of
    its two parts. *)
Theorem conversion_writes_frame_keys_only (pars pars' : params)
    (rate : float) :
  _convert_time_to_frames pars rate = ok pars' ->
  (forall key, ~ In key written_by_conversion ->
               dict_get pars' key = dict_get pars key)
  /\ (exists v a b pre post,
         dict_get pars "excluded-time-around-onsets-ms" = Some v
         /\ as_exclusion_pair v = VTuple a b
         /\ ms_to_frames a rate = ok pre
         /\ ms_to_frames b rate = ok post
         /\ dict_get pars' "excluded-time-around-onsets-ms"
            = Some (VTuple a b)
         /\ dict_get pars' "excluded-time-around-onsets-frames"
            = Some (VTuple (VInt pre) (VInt post))).
Proof.
  intros H. split.
  - intros key Hkey. apply (convert_keeps_other_keys _ _ _ _ H Hkey).
  - apply convert_inv in H.
    destruct H as (v1 & n1 & v2 & n2 & v3 & n3 & v4 & a & b & pre & post & v5
                   & n5 & H1 & Hn1 & H2 & Hn2 & H3 & Hn3 & H4 & Ev & Hpre
                   & Hpost & H5 & Hn5 & ->).
    exists v4, a, b, pre, post.
    split; [exact H4 |]. split; [exact Ev |]. split; [exact Hpre |].
    split; [exact Hpost |]. split.
    + repeat (rewrite dict_get_set_other by discriminate).
      rewrite dict_get_set_same. rewrite Ev. reflexivity.
    + rewrite dict_get_set_other by discriminate. apply dict_get_set_same.
Qed.

(** ** The pools of [_activity] *)

Lemma insert_sorted_length (x : float) (l : list float) :
  length (insert_sorted x l) = S (length l).
Proof.
  induction l as [| y l IH]; simpl; [reflexivity |].
  destruct (sort_le x y); simpl; [reflexivity | now rewrite IH].
Qed.

Lemma sort_length (l : list float) : length (sort l) = length l.
Proof.
  unfold sort. induction l as [| x l IH]; simpl; [reflexivity |].
  now rewrite insert_sorted_length, IH.
Qed.

Lemma Qfloor_unit_interval (q : Q) : (0 <= q < 1)%Q -> Qfloor q = 0.
Proof.
  intros [H0 H1].
  pose proof (Qfloor_le q) as Hf. pose proof (Qlt_floor q) as Hc.
  assert (A : (inject_Z (Qfloor q) < inject_Z 1)%Q).
  { change (inject_Z 1) with 1%Q. lra. }
  assert (B : (inject_Z (-1) < inject_Z (Qfloor q))%Q).
  { rewrite inject_Z_plus in Hc. change (inject_Z 1) with 1%Q in Hc.
    change (inject_Z (-1)) with (-1)%Q. lra. }
  rewrite <- Zlt_Qlt in A, B. lia.
Qed.

(** Two percent of fewer than 50 values is less than one value. *)
Lemma trim_of_short_pool (n : nat) :
  (n < 50)%nat ->
  py_int (fdiv (fmul (Fin 2) (of_nat n)) (Fin 100)) = ok 0.
Proof.
  intros Hn. unfold of_nat, of_Z. cbn [fmul]. unfold fdiv.
  change (Qeq_bool 100 0) with false. cbn [py_int].
  assert (Hq : (0 <= Qred (Qred (2 * inject_Z (Z.of_nat n)) / 100) < 1)%Q).
  { rewrite !Qred_correct.
    assert (H0 : (inject_Z 0 <= inject_Z (Z.of_nat n))%Q)
      by (rewrite <- Zle_Qle; lia).
    assert (H1 : (inject_Z (Z.of_nat n) < inject_Z 50)%Q)
      by (rewrite <- Zlt_Qlt; lia).
    change (inject_Z 0) with 0%Q in H0. change (inject_Z 50) with 50%Q in H1.
    split.
    - apply Qle_shift_div_l; lra.
    - apply Qlt_shift_div_r; lra. }
  destruct Hq as [H0 H1].
  assert (E : Qle_bool 0 (Qred (Qred (2 * inject_Z (Z.of_nat n)) / 100)) = true)
    by (apply Qle_bool_iff; exact H0).
  rewrite E. f_equal. apply Qfloor_unit_interval. split; assumption.
Qed.

Lemma training_pool_counts_cells (runs : list Run) :
  forall p0 c0 p c,
    for_each pool_training_run runs (p0, c0) = ok (p, c) ->
    (p = p0 /\ c = c0 /\ runs = []) \/ exists n, c = Some n.
Proof.
  induction runs as [| r runs IH]; intros p0 c0 p c H; cbn [for_each] in H.
  - injection H as <- <-. left. auto.
  - split_bind H as st Hst. destruct st as [p1 c1].
    unfold pool_training_run in Hst. cbv zeta in Hst.
    split_bind Hst as skip Hskip. injection Hst as <- <-.
    destruct (IH _ _ _ _ H) as [(_ & -> & _) | Hn]; right; eauto.
Qed.

(** X13. For a training run whose pool holds between 1 and 49 frame
    means, two percent of the pool is less than one value, [trim] is 0 and
    [popact[trim:-trim]] is empty: baseline and variance are NaN whatever
    the scale factors, and the outlier mask is all false. *)
Theorem short_training_pool_gives_nan (np_sqrt : Q -> Q)
    (date_runs : Date -> list string -> option (list string) -> list Run)
    (r : Run) (baseline_activity baseline_sigma : float) (runs : list Run)
    (popact : list float) (cells : option nat) :
  select_runs date_runs r = ok (runs, false) ->
  for_each pool_training_run runs ([], None) = ok (popact, cells) ->
  (0 < length popact < 50)%nat ->
  exists n,
    cells = Some n
    /\ _activity np_sqrt date_runs r baseline_activity baseline_sigma
         "deconvolved"
       = ok (NaN, NaN, Some (repeat false n)).
Proof.
  intros Hsel Hpool Hlen.
  destruct (training_pool_counts_cells _ _ _ _ _ Hpool) as [(-> & _) | (n & ->)].
  - simpl in Hlen. lia.
  - exists n. split; [reflexivity |].
    unfold _activity. simpl negb. cbv iota. rewrite Hsel. cbn [bind ok].
    rewrite Hpool. cbn [bind ok]. unfold training_stats.
    assert (E : (0 <? length popact)%nat = true) by (apply Nat.ltb_lt; lia).
    rewrite E. cbv zeta. rewrite sort_length.
    rewrite trim_of_short_pool by lia. cbn [bind ok read_local].
    change (- 0) with 0.
    assert (Es : py_slice (sort popact) (Some 0) (Some 0) = []).
    { unfold py_slice, slice_bound. cbn [Z.ltb Z.compare].
      replace (Z.min 0 (Z.of_nat (length (sort popact))) -
               Z.min 0 (Z.of_nat (length (sort popact)))) with 0 by lia.
      reflexivity. }
    rewrite Es. reflexivity.
Qed.

(** X14. The fallback of [_activity]: a spontaneous run whose pooled
    matrix has no cell (for one, when the date has no such run) and a
    training run without a pooled frame both give the baseline 0.01 and
    the variance [0.08*baseline_sigma]; the outlier mask is then the one
    collected so far in the spontaneous branch and [None] in the training
    branch. *)
Theorem activity_falls_back_on_empty_pool (np_sqrt : Q -> Q)
    (date_runs : Date -> list string -> option (list string) -> list Run)
    (r : Run) (baseline_activity baseline_sigma : float) (runs : list Run) :
  (forall popact outliers,
      select_runs date_runs r = ok (runs, true) ->
      pool_spontaneous np_sqrt runs = ok (popact, outliers) ->
      ncells popact = 0%nat ->
      _activity np_sqrt date_runs r baseline_activity baseline_sigma
        "deconvolved"
      = ok (Fin (1 # 100), fmul (Fin (8 # 100)) baseline_sigma, Some outliers))
  /\ (forall cells,
        select_runs date_runs r = ok (runs, false) ->
        for_each pool_training_run runs ([], None) = ok ([], cells) ->
        _activity np_sqrt date_runs r baseline_activity baseline_sigma
          "deconvolved"
        = ok (Fin (1 # 100), fmul (Fin (8 # 100)) baseline_sigma, None)).
Proof.
  split.
  - intros popact outliers Hsel Hpool Hc.
    unfold _activity. simpl negb. cbv iota. rewrite Hsel. cbn [bind ok].
    rewrite Hpool. cbn [bind ok]. unfold spontaneous_stats. rewrite Hc.
    reflexivity.
  - intros cells Hsel Hpool.
    unfold _activity. simpl negb. cbv iota. rewrite Hsel. cbn [bind ok].
    rewrite Hpool. reflexivity.
Qed.

Lemma select_false_prefix {A} (b : nat) (mask : list bool) (l : list A) :
  select (repeat false b ++ mask) l = select mask (skipn b l).
Proof.
  revert l. induction b as [| b IH]; intros l; simpl.
  - reflexivity.
  - destruct l as [| x l]; [destruct mask; reflexivity | apply IH].
Qed.

Lemma select_nil {A} (mask : list bool) : select mask (@nil A) = [].
Proof. destruct mask; reflexivity. Qed.

Lemma select_clear_prefix {A} (mask : list bool) (l : list A) (fmin : Z) :
  0 <= fmin ->
  select (clear_prefix mask fmin) l
  = select (skipn (Z.to_nat fmin) mask) (skipn (Z.to_nat fmin) l).
Proof.
  intros H. unfold clear_prefix, slice_bound.
  assert (E : (fmin <? 0) = false) by lia. rewrite E.
  rewrite select_false_prefix.
  destruct (Z_le_gt_dec fmin (Z.of_nat (length mask))) as [Hle | Hgt].
  - rewrite Z.min_l by lia. reflexivity.
  - rewrite Z.min_r by lia. rewrite Nat2Z.id.
    rewrite (skipn_all2 (n := Z.to_nat fmin) mask) by lia.
    rewrite (skipn_all2 (n := length mask) mask) by lia. reflexivity.
Qed.

(** X15. In the spontaneous branch a run with a non-negative last onset
    adds to the pool exactly its inactive frames from the last onset on;
    no frame before the last onset is pooled. *)
Theorem pool_skips_frames_before_last_onset (np_sqrt : Q -> Q)
    (popact popact' : matrix) (outliers outliers' : list bool) (r : Run) :
  0 <= lastonset (trace2p r) ->
  pool_spontaneous_run np_sqrt (popact, outliers) r = ok (popact', outliers') ->
  frames popact'
  = (if (0 <? ncells popact)%nat then frames popact else [])
    ++ select (skipn (Z.to_nat (lastonset (trace2p r)))
                     (inactivity (trace2p r)))
              (skipn (Z.to_nat (lastonset (trace2p r)))
                     (frames (trace (trace2p r) "deconvolved"))).
Proof.
  intros Hf H. unfold pool_spontaneous_run in H. cbv zeta in H.
  split_bind H as p Hp. split_bind H as o Ho. injection H as <- <-.
  rewrite <- select_clear_prefix by exact Hf.
  destruct (0 <? ncells popact)%nat.
  - split_bind Hp as sel Hsel. unfold mask_frames in Hsel.
    destruct (Nat.eqb _ _); [| discriminate]. injection Hsel as <-.
    unfold concatenate_frames in Hp. cbn [ncells frames] in Hp.
    destruct (Nat.eqb _ _); [| discriminate]. injection Hp as <-. reflexivity.
  - unfold mask_frames in Hp.
    destruct (Nat.eqb _ _); [| discriminate]. injection Hp as <-. reflexivity.
Qed.

Lemma blank_where_ext (p q : nat -> bool) (v : list float) :
  forall i,
    (forall j, (i <= j < i + length v)%nat -> p j = q j) ->
    blank_where p i v = blank_where q i v.
Proof.
  induction v as [| y v IH]; intros i H; cbn [blank_where]; [reflexivity |].
  rewrite (H i) by (simpl; lia). f_equal. apply IH.
  intros j Hj. apply H. simpl. lia.
Qed.

Lemma blank_where_length (p : nat -> bool) (v : list float) (i : nat) :
  length (blank_where p i v) = length v.
Proof.
  revert i. induction v as [| y v IH]; intros i; cbn [blank_where length];
    [reflexivity | now rewrite IH].
Qed.

Lemma blank_where_twice (p q : nat -> bool) (v : list float) (i : nat) :
  blank_where q i (blank_where p i v)
  = blank_where (fun j => p j || q j) i v.
Proof.
  revert i. induction v as [| y v IH]; intros i; cbn [blank_where];
    [reflexivity |].
  rewrite IH. f_equal. destruct (p i), (q i); reflexivity.
Qed.

Lemma blank_where_none (v : list float) (i : nat) :
  blank_where (fun _ => false) i v = v.
Proof.
  revert i. induction v as [| y v IH]; intros i; cbn [blank_where];
    [reflexivity | now rewrite IH].
Qed.

Lemma map_combine_seq (f : nat -> float -> float) (v : list float) (i : nat) :
  map (fun '(j, y) => f j y) (combine (seq i (length v)) v)
  = (fix go (i : nat) (v : list float) : list float :=
       match v with
       | [] => []
       | y :: v' => f i y :: go (S i) v'
       end) i v.
Proof.
  revert i. induction v as [| y v IH]; intros i; simpl; [reflexivity |].
  f_equal. apply IH.
Qed.

Lemma assign_slice_blank (v : list float) (ons skip : Z) :
  0 <= ons -> 0 <= skip ->
  assign_slice v ons (ons + skip) NaN
  = blank_where (fun i => (ons <=? Z.of_nat i) && (Z.of_nat i <? ons + skip))
                0 v.
Proof.
  intros Ho Hs. unfold assign_slice. cbv zeta.
  set (n := Z.of_nat (length v)).
  assert (E : forall (p q : nat -> bool) (w : list float) (i : nat),
             (forall j, (i <= j < i + length w)%nat -> p j = q j) ->
             map (fun '(j, y) => if p j then NaN else y)
                 (combine (seq i (length w)) w)
             = blank_where q i w).
  { intros p q w. induction w as [| y w IH]; intros i H; simpl; [reflexivity |].
    rewrite (H i) by (simpl; lia). f_equal. apply IH.
    intros j Hj. apply H. simpl. lia. }
  apply E. intros j Hj. unfold slice_bound.
  assert (E1 : (ons <? 0) = false) by lia.
  assert (E2 : (ons + skip <? 0) = false) by lia.
  rewrite E1, E2. subst n. cbn [Nat.add] in Hj.
  destruct (ons <=? Z.of_nat j) eqn:A1;
    destruct (Z.of_nat j <? ons + skip) eqn:A2;
    destruct (Z.min ons (Z.of_nat (length v)) <=? Z.of_nat j) eqn:A3;
    destruct (Z.of_nat j <? Z.min (ons + skip) (Z.of_nat (length v))) eqn:A4;
    try reflexivity; lia.
Qed.

Lemma fold_assign_blank (skip : Z) (onsets : list Z) :
  0 <= skip ->
  Forall (fun ons => 0 <= ons) onsets ->
  forall v,
    fold_left (fun pact ons => assign_slice pact ons (ons + skip) NaN) onsets v
    = blank_where
        (fun i => existsb (fun ons => (ons <=? Z.of_nat i)
                                      && (Z.of_nat i <? ons + skip)) onsets)
        0 v.
Proof.
  intros Hs Hon. induction Hon as [| ons onsets H0 _ IH]; intros v;
    cbn [fold_left].
  - cbn [existsb]. symmetry. apply blank_where_none.
  - rewrite IH, assign_slice_blank by assumption.
    rewrite blank_where_twice. reflexivity.
Qed.

Lemma fold_left_flat_map {A B C} (f : A -> C -> A) (h : B -> list C)
    (l : list B) (a : A) :
  fold_left (fun acc b => fold_left f (h b) acc) l a
  = fold_left f (flat_map h l) a.
Proof.
  revert a. induction l as [| b l IH]; intros a; cbn [fold_left flat_map].
  - reflexivity.
  - rewrite fold_left_app. apply IH.
Qed.

(** X16. In the training branch a run adds to the pool its finite frame
    means outside the [int(framerate*4)] frames that follow an onset of
    one of the four stimulus classes, and the cell count becomes that of
    the run. *)
Theorem training_pool_blanks_after_onsets (popact : list float)
    (cells : option nat) (r : Run) (skipframes : Z) :
  py_int (fmul (framerate (trace2p r)) (Fin 4)) = ok skipframes ->
  0 <= skipframes ->
  Forall (fun ons => 0 <= ons) (stimulus_onsets (trace2p r)) ->
  pool_training_run (popact, cells) r
  = ok (popact
        ++ filter isfinite
             (blank_where (after_onset (trace2p r) skipframes) 0
                (nanmean_axis0 (trace (trace2p r) "deconvolved"))),
        Some (t2p_ncells (trace2p r))).
Proof.
  intros Hskip Hs Hon. unfold pool_training_run. cbv zeta.
  rewrite Hskip. cbn [bind ok]. do 2 f_equal. f_equal. f_equal.
  rewrite (fold_left_flat_map
             (fun pact ons => assign_slice pact ons (ons + skipframes) NaN)
             (fun cs => csonsets (trace2p r) cs DefaultArgs)).
  apply (fold_assign_blank skipframes _ Hs Hon).
Qed.

(** ** Effects and results of [train_classifier] *)

Lemma tbind_returns {A B} (m : traced A) (k : A -> traced B) (b : B) :
  snd (tbind m k) = ok b ->
  exists a, snd m = ok a /\ snd (k a) = ok b
            /\ fst (tbind m k) = fst m ++ fst (k a).
Proof.
  destruct m as [log [e | a]]; cbn [tbind snd fst].
  - discriminate.
  - destruct (k a) as [log' res] eqn:E. cbn [snd fst]. intros H.
    exists a. rewrite E. auto.
Qed.

Lemma tbind_log {A B} (m : traced A) (k : A -> traced B) (ev : event) :
  In ev (fst (tbind m k)) ->
  In ev (fst m) \/ exists a, snd m = ok a /\ In ev (fst (k a)).
Proof.
  destruct m as [log [e | a]]; cbn [tbind snd fst].
  - auto.
  - destruct (k a) as [log' res] eqn:E. cbn [fst]. intros H.
    apply in_app_or in H as [H | H]; [now left |].
    right. exists a. rewrite E. auto.
Qed.

Lemma resolve_training_date_ok (r : Run) (training_date : option Date)
    (d : Date) :
  resolve_training_date r training_date = ok d ->
  d = chosen_date r training_date.
Proof.
  unfold resolve_training_date, chosen_date.
  destruct training_date as [d' |].
  - destruct (negb (date_eqb d' (parent r))); [discriminate |].
    intros H. injection H as <-. reflexivity.
  - intros H. injection H as <-. reflexivity.
Qed.

(** *** What a returning call has printed *)

Lemma dict_keys_set_present {V} (d : dict V) (k : string) (v w : V) :
  dict_get d k = Some w -> dict_keys (dict_set d k v) = dict_keys d.
Proof.
  induction d as [| [k0 v0] d IH]; simpl; [discriminate |].
  destruct (String.eqb k k0) eqn:E.
  - intros _. reflexivity.
  - intros H. simpl. f_equal. apply IH. exact H.
Qed.

Lemma cap_loop_prints {rng : Type}
    (np_random_choice : rng -> list matrix -> Z -> result (list matrix * rng))
    (k : kwargs) (ks : list string) :
  forall (d : buckets) (g : rng) d' g',
    for_each (limit_onsets rng np_random_choice k) ks (d, g) = ok (d', g') ->
    limit_prints rng np_random_choice k ks (d, g)
    = map (fun _ => msg_timing)
          (filter (fun cs => negb (contains "other" cs)) ks)
    /\ dict_keys d' = dict_keys d.
Proof.
  induction ks as [| cs ks IH]; intros d g d' g' H; cbn [for_each] in H.
  - injection H as <- <-. split; reflexivity.
  - split_bind H as q Hq. destruct q as [d1 g1].
    cbn [limit_prints filter]. rewrite Hq. unfold ok. cbv iota beta.
    destruct (IH _ _ _ _ H) as [-> Hk]. split.
    + destruct (negb (contains "other" cs)); reflexivity.
    + rewrite Hk. apply limit_onsets_cases in Hq.
      destruct Hq as [(-> & _) | (ws & chosen & _ & Hget & _ & _ & ->)];
        [reflexivity |].
      eapply dict_keys_set_present. exact Hget.
Qed.

Lemma get_traces_prints_returning {rng : Type}
    (np_random_choice : rng -> list matrix -> Z -> result (list matrix * rng))
    (target : Run) (runs running_runs : list Run) (all_cses : dict string)
    (k : kwargs) (g g' : rng) (out : buckets) :
  _get_traces rng np_random_choice target runs running_runs all_cses k g
  = ok (out, g') ->
  get_traces_prints rng np_random_choice target runs running_runs all_cses k g
  = cap_warnings k out.
Proof.
  intros H. unfold _get_traces in H.
  split_bind H as o Ho. split_bind H as p Hp. destruct p as [o1 g1].
  split_bind H as d Hd. split_bind H as stacked Hst.
  apply stack_buckets_ok in Hst. subst stacked. injection H as <- <-.
  destruct o1 as [d1 |]; [| discriminate]. injection Hd as <-.
  unfold get_traces_prints, cap_warnings. rewrite Ho.
  unfold cap_onsets in Hp. destruct (max_n_onsets k >? 0).
  - split_bind Hp as d0 Hd0. split_bind Hp as q Hq. destruct q as [d2 g2].
    injection Hp as <- <-.
    destruct o as [d' |]; [| discriminate]. injection Hd0 as <-.
    destruct (cap_loop_prints _ _ _ _ _ _ _ Hq) as [E ->].
    exact E.
  - injection Hp as -> _. reflexivity.
Qed.

Lemma filter_map_length {A} (p : A -> bool) (l : list A) :
  length (filter (fun b : bool => b) (map p l)) = length (filter p l).
Proof.
  induction l as [| x l IH]; simpl; [reflexivity |].
  destruct (p x); simpl; rewrite IH; reflexivity.
Qed.

Lemma nodup_count (l : list nat) (n : nat) :
  (forall i, In i l -> (i < n)%nat) ->
  length (nodup Nat.eq_dec l)
  = length (filter (fun i => existsb (Nat.eqb i) l) (seq 0 n)).
Proof.
  intros Hl. apply Permutation_length, NoDup_Permutation.
  - apply NoDup_nodup.
  - apply NoDup_filter, seq_NoDup.
  - intros i. rewrite nodup_In, filter_In, in_seq, existsb_exists. split.
    + intros Hi. split; [pose proof (Hl i Hi); lia |].
      exists i. split; [exact Hi | apply Nat.eqb_refl].
    + intros (_ & j & Hj & E). apply Nat.eqb_eq in E. subst j. exact Hj.
Qed.

Lemma nan_cells_prints_returning (traces : buckets) (mask : list bool) :
  _nan_cells traces = ok mask -> nan_cells_prints traces = nan_warning mask.
Proof.
  unfold _nan_cells, nan_cells_prints, nan_warning.
  destruct (find_nan_cells traces) as [nc n].
  destruct (n <? 0) eqn:En; [discriminate |].
  destruct (forallb (fun i => Z.of_nat i <? n) nc) eqn:Ef; [| discriminate].
  intros H. injection H as <-. cbv zeta.
  rewrite filter_map_length, <- nodup_count; [reflexivity |].
  intros i Hi. rewrite forallb_forall in Ef. specialize (Ef i Hi). lia.
Qed.

Section TrainingEffects.
Variable rng : Type.
Variable np_random_choice :
  rng -> list matrix -> Z -> result (list matrix * rng).
Variable date_runs : Date -> list string -> option (list string) -> list Run.
Variable config_default : params.
Variables P D L M : Type.
Variable aode_train : buckets -> pyval -> result (AODE P D L M).
Variable describe : AODE P D L M -> string.

Local Abbreviation train :=
  (train_classifier rng np_random_choice date_runs config_default P D L M
     aode_train describe).

Lemma resolve_runs_ok (d : Date) (supplied : option (list Run))
    (kind : string) (runs : list Run) :
  snd (resolve_runs date_runs d supplied [kind] ["hungry"]) = ok runs ->
  runs = resolved_runs date_runs d supplied kind
  /\ fst (resolve_runs date_runs d supplied [kind] ["hungry"])
     = queries d supplied kind.
Proof.
  unfold resolve_runs, resolved_runs, queries.
  destruct supplied as [l |]; cbn [tbind tell lift snd fst app].
  - destruct (assert _) as [e | []]; cbn [snd fst].
    + discriminate.
    + intros H. injection H as <-. auto.
  - intros H. injection H as <-. auto.
Qed.

Lemma resolve_runs_log (d : Date) (supplied : option (list Run))
    (kind : string) (ev : event) :
  In ev (fst (resolve_runs date_runs d supplied [kind] ["hungry"])) ->
  In ev (queries d supplied kind).
Proof.
  unfold resolve_runs, queries.
  destruct supplied as [l |]; cbn [tbind tell lift snd fst app].
  - destruct (assert _) as [e | []]; cbn [fst]; auto.
  - auto.
Qed.

(** What a returning call of [train_classifier] went through. *)
Lemma train_inv (r : Run) (training_runs running_runs : option (list Run))
    (training_date : option Date) (verbose : bool)
    (pars : list (string * pyval)) (g : rng)
    (model : AODE P D L M) (params' : params) (nan : list bool) :
  snd (train r training_runs running_runs training_date verbose pars g)
  = ok (model, params', nan) ->
  let d := chosen_date r training_date in
  let trs := resolved_runs date_runs d training_runs "training" in
  let rrs := resolved_runs date_runs d running_runs "running" in
  exists converted all_cses k raw g' traces classifier,
    resolve_training_date r training_date = ok d
    /\ _convert_time_to_frames
         (fold_left (fun acc '(key, val) =>
                       dict_set acc (replace_underscores key) val)
                    pars config_default)
         (date_framerate d) = ok converted
    /\ collect_cses converted = ok all_cses
    /\ extraction_kwargs converted = ok k
    /\ _get_traces rng np_random_choice r trs rrs all_cses k g = ok (raw, g')
    /\ rescale_traces converted raw = ok traces
    /\ dict_item converted "classifier" = ok classifier
    /\ aode_train traces classifier = ok model
    /\ params' = annotate converted r d trs rrs
    /\ _nan_cells traces = ok nan
    /\ fst (train r training_runs running_runs training_date verbose pars g)
       = queries d training_runs "training"
         ++ queries d running_runs "running"
         ++ [TracesExtracted r trs rrs]
         ++ map Printed (cap_warnings k raw)
         ++ [ModelTrained]
         ++ (if verbose then [Printed (describe model)] else [])
         ++ map Printed (nan_warning nan).
Proof.
  intros H d trs rrs. unfold train_classifier in *.
  apply tbind_returns in H as (d0 & Hd & H & ->).
  cbn [lift snd fst] in Hd. cbn [lift fst app].
  pose proof (resolve_training_date_ok _ _ _ Hd) as Ed. fold d in Ed.
  subst d0.
  apply tbind_returns in H as (trs0 & Htr & H & ->).
  apply resolve_runs_ok in Htr as [Etr ->]. fold trs in Etr. subst trs0.
  apply tbind_returns in H as (rrs0 & Hrr & H & ->).
  apply resolve_runs_ok in Hrr as [Err ->]. fold rrs in Err. subst rrs0.
  apply tbind_returns in H as (converted & Hc & H & ->). cbn [lift snd fst] in Hc.
  apply tbind_returns in H as (all_cses & Ha & H & ->). cbn [lift snd fst] in Ha.
  apply tbind_returns in H as (k & Hk & H & ->). cbn [lift snd fst] in Hk.
  apply tbind_returns in H as ([] & _ & H & ->).
  apply tbind_returns in H as ([raw g'] & Hg & H & ->).
  cbn [printing snd fst] in Hg.
  rewrite (get_traces_prints_returning _ _ _ _ _ _ _ _ _ Hg).
  apply tbind_returns in H as (traces & Hs & H & ->). cbn [lift snd fst] in Hs.
  apply tbind_returns in H as (classifier & Hcl & H & ->).
  cbn [lift snd fst] in Hcl.
  apply tbind_returns in H as ([] & _ & H & ->).
  apply tbind_returns in H as (model0 & Hm & H & ->). cbn [lift snd fst] in Hm.
  apply tbind_returns in H as ([] & Hv & H & ->).
  apply tbind_returns in H as (nan0 & Hn & H & ->).
  cbn [printing snd fst] in Hn.
  rewrite (nan_cells_prints_returning _ _ Hn).
  cbn [lift snd fst] in H. injection H as <- <- <-.
  exists converted, all_cses, k, raw, g', traces, classifier.
  repeat (split; [first [assumption | reflexivity] |]).
  cbn [lift tell printing fst app]. rewrite !app_nil_r.
  destruct verbose; cbn [tell lift fst app]; reflexivity.
Qed.

(** X17. When the target run is one of the running runs that are used,
    supplied or looked up, [train_classifier] returns nothing and trains
    no model. *)
Theorem no_model_when_target_is_a_running_run (r : Run)
    (training_runs running_runs : option (list Run))
    (training_date : option Date) (verbose : bool)
    (pars : list (string * pyval)) (g : rng) :
  run_in r (resolved_runs date_runs (chosen_date r training_date)
              running_runs "running") = true ->
  (forall out,
      snd (train r training_runs running_runs training_date verbose pars g)
      <> ok out)
  /\ ~ In ModelTrained
       (fst (train r training_runs running_runs training_date verbose pars g)).
Proof.
  intros Hin. split.
  - intros [[model params'] nan] H.
    destruct (train_inv _ _ _ _ _ _ _ _ _ _ H)
      as (c & a & k & raw & g' & _ & _ & _ & _ & _ & _ & Hg & _).
    rewrite (get_traces_unbound_out np_random_choice _ _ _ _ _ _ Hin) in Hg.
    discriminate.
  - intros H. unfold train_classifier in H.
    apply tbind_log in H as [[] | (d0 & Hd & H)]. cbn [lift snd] in Hd.
    apply resolve_training_date_ok in Hd. subst d0.
    apply tbind_log in H as [H | (trs & Htr & H)].
    { apply resolve_runs_log in H. destruct training_runs; simpl in H;
        [destruct H | destruct H as [H | []]; discriminate]. }
    apply tbind_log in H as [H | (rrs & Hrr & H)].
    { apply resolve_runs_log in H. destruct running_runs; simpl in H;
        [destruct H | destruct H as [H | []]; discriminate]. }
    apply resolve_runs_ok in Hrr as [-> _].
    apply tbind_log in H as [[] | (c & _ & H)].
    apply tbind_log in H as [[] | (a & _ & H)].
    apply tbind_log in H as [[] | (k & _ & H)].
    apply tbind_log in H as [[H | []] | ([] & _ & H)]; [discriminate |].
    apply tbind_log in H as [H | ([raw g'] & Hg & H)].
    + cbn [printing fst] in H. apply in_map_iff in H as (line & E & _).
      discriminate.
    + cbn [printing snd] in Hg.
      rewrite (get_traces_unbound_out np_random_choice _ _ _ _ _ _ Hin) in Hg.
      discriminate.
Qed.

(** X18. With both run sets supplied, [train_classifier] never asks a
    date for its runs, whether it returns or raises. *)
Theorem supplied_runs_are_not_looked_up (r : Run)
    (training_runs running_runs : list Run)
    (training_date : option Date) (verbose : bool)
    (pars : list (string * pyval)) (g : rng) :
  forallb (fun e => negb (is_query e))
    (fst (train r (Some training_runs) (Some running_runs) training_date
            verbose pars g)) = true.
Proof.
  apply forallb_forall. intros ev H.
  unfold train_classifier in H.
  apply tbind_log in H as [[] | (d0 & _ & H)].
  apply tbind_log in H as [H | (trs & _ & H)].
  { apply resolve_runs_log in H. destruct H. }
  apply tbind_log in H as [H | (rrs & _ & H)].
  { apply resolve_runs_log in H. destruct H. }
  apply tbind_log in H as [[] | (c & _ & H)].
  apply tbind_log in H as [[] | (a & _ & H)].
  apply tbind_log in H as [[] | (k & _ & H)].
  apply tbind_log in H as [[<- | []] | ([] & _ & H)]; [reflexivity |].
  apply tbind_log in H as [H | ([raw g'] & _ & H)].
  { cbn [printing fst] in H. apply in_map_iff in H as (line & <- & _).
    reflexivity. }
  apply tbind_log in H as [[] | (traces & _ & H)].
  apply tbind_log in H as [[] | (cl & _ & H)].
  apply tbind_log in H as [[<- | []] | ([] & _ & H)]; [reflexivity |].
  apply tbind_log in H as [[] | (model & _ & H)].
  apply tbind_log in H as [H | ([] & _ & H)].
  { destruct verbose; [destruct H as [<- | []]; reflexivity | destruct H]. }
  apply tbind_log in H as [H | (nan & _ & H)].
  { cbn [printing fst] in H. apply in_map_iff in H as (line & <- & _).
    reflexivity. }
  destruct H.
Qed.

Lemma extraction_kwargs_cap (pars : params) (k : kwargs) :
  extraction_kwargs pars = ok k ->
  exists cap,
    dict_get pars "maximum-cs-onsets" = Some cap
    /\ as_int cap = ok (max_n_onsets k).
Proof.
  unfold extraction_kwargs. intros H.
  split_bind H as tt0 Htt0. split_bind H as tt1 Htt1.
  split_bind H as len0 Hlen0. split_bind H as len1 Hlen1.
  split_bind H as padv Hpadv. split_bind H as pp Hpp. destruct pp as [pre post].
  split_bind H as off0 Hoff0. split_bind H as off1 Hoff1.
  split_bind H as thr0 Hthr0. split_bind H as thr1 Hthr1.
  split_bind H as lc0 Hlc0. split_bind H as lc1 Hlc1.
  split_bind H as lw0 Hlw0. split_bind H as lw1 Hlw1.
  split_bind H as ct Hct.
  split_bind H as rf0 Hrf0. split_bind H as rf1 Hrf1.
  split_bind H as mx0 Hmx0. split_bind H as mx1 Hmx1.
  split_bind H as rs Hrs. injection H as <-.
  exists mx0. split; [apply dict_item_ok; exact Hmx0 | exact Hmx1].
Qed.

(** X19. A returning call of [train_classifier] has these effects, in
    this order: the look-up of the run sets that were not supplied (the
    training runs first); one extraction over the target and the resolved
    run sets, which, when ['maximum-cs-onsets'] is positive, prints the
    timing warning of line 467 once for every class it returns without
    ['other'] in its name; one training; if [verbose], one print of the
    description of the model; and, when the returned mask marks a cell,
    the warning of line 575 with the number of cells marked. *)
Theorem training_effects_in_order (r : Run)
    (training_runs running_runs : option (list Run))
    (training_date : option Date) (verbose : bool)
    (pars : list (string * pyval)) (g : rng)
    (model : AODE P D L M) (params' : params) (nan : list bool) :
  snd (train r training_runs running_runs training_date verbose pars g)
  = ok (model, params', nan) ->
  let d := chosen_date r training_date in
  let trs := resolved_runs date_runs d training_runs "training" in
  let rrs := resolved_runs date_runs d running_runs "running" in
  exists all_cses k raw g' cap,
    _get_traces rng np_random_choice r trs rrs all_cses k g = ok (raw, g')
    /\ dict_get params' "maximum-cs-onsets" = Some cap
    /\ as_int cap = ok (max_n_onsets k)
    /\ fst (train r training_runs running_runs training_date verbose pars g)
       = queries d training_runs "training"
         ++ queries d running_runs "running"
         ++ [TracesExtracted r trs rrs]
         ++ map Printed (cap_warnings k raw)
         ++ [ModelTrained]
         ++ (if verbose then [Printed (describe model)] else [])
         ++ map Printed (nan_warning nan).
Proof.
  intros H d trs rrs.
  destruct (train_inv _ _ _ _ _ _ _ _ _ _ H)
    as (c & a & k & raw & g' & tr & cl & _ & _ & _ & Hk & Hg & _ & _ & _ & ->
        & _ & Hlog).
  destruct (extraction_kwargs_cap _ _ Hk) as (cap & Hcap & Hint).
  exists a, k, raw, g', cap.
  split; [exact Hg |]. split; [| split; [exact Hint | exact Hlog]].
  unfold annotate.
  repeat (rewrite dict_get_set_other by discriminate). exact Hcap.
Qed.
End TrainingEffects.

(** ** The parameters returned by [train_classifier] *)

Lemma insert_int_perm (x : Z) (l : list Z) :
  Permutation (insert_int x l) (x :: l).
Proof.
  induction l as [| y l IH]; cbn [insert_int]; [apply Permutation_refl |].
  destruct (x <=? y); [apply Permutation_refl |].
  eapply Permutation_trans; [apply perm_skip, IH | apply perm_swap].
Qed.

Lemma sorted_perm (l : list Z) : Permutation (sorted l) l.
Proof.
  unfold sorted. induction l as [| x l IH]; cbn [fold_right];
    [apply Permutation_refl |].
  eapply Permutation_trans; [apply insert_int_perm | apply perm_skip, IH].
Qed.

Lemma insert_int_sorted (x : Z) (l : list Z) :
  Sorted Z.le l -> Sorted Z.le (insert_int x l).
Proof.
  induction 1 as [| y l Hs IH Hd]; cbn [insert_int].
  - repeat constructor.
  - destruct (x <=? y) eqn:E.
    + constructor; [constructor; assumption | constructor; lia].
    + constructor; [exact IH |].
      destruct l as [| z l]; cbn [insert_int].
      * constructor. lia.
      * destruct (x <=? z); constructor; [lia |].
        inversion Hd; subst. assumption.
Qed.

Lemma sorted_ascending (l : list Z) : Sorted Z.le (sorted l).
Proof.
  unfold sorted. induction l as [| x l IH]; cbn [fold_right];
    [constructor | apply insert_int_sorted, IH].
Qed.

Lemma overrides_lookup (pars : list (string * pyval)) (key : string) :
  forall defaults : params,
    dict_get (fold_left (fun acc '(k, val) =>
                           dict_set acc (replace_underscores k) val)
                        pars defaults) key
    = match override pars key with
      | Some v => Some v
      | None => dict_get defaults key
      end.
Proof.
  induction pars as [| [k v] pars IH]; intros defaults;
    cbn [fold_left override]; [reflexivity |].
  rewrite IH. destruct (override pars key); [reflexivity |].
  rewrite dict_get_set.
  destruct (String.eqb key (replace_underscores k)); reflexivity.
Qed.

Lemma resolve_training_date_same_day (r : Run) (training_date : option Date)
    (d : Date) :
  resolve_training_date r training_date = ok d ->
  date_date d = date_date (parent r).
Proof.
  unfold resolve_training_date. destruct training_date as [d' |].
  - destruct (date_eqb d' (parent r)) eqn:E; cbn [negb]; [| discriminate].
    intros H. injection H as <-. unfold date_eqb in E.
    apply andb_prop in E as [_ E]. apply Z.eqb_eq in E. exact E.
  - intros H. injection H as <-. reflexivity.
Qed.

Section TrainingParameters.
Variable rng : Type.
Variable np_random_choice :
  rng -> list matrix -> Z -> result (list matrix * rng).
Variable date_runs : Date -> list string -> option (list string) -> list Run.
Variable config_default : params.
Variables P D L M : Type.
Variable aode_train : buckets -> pyval -> result (AODE P D L M).
Variable describe : AODE P D L M -> string.

Local Abbreviation train :=
  (train_classifier rng np_random_choice date_runs config_default P D L M
     aode_train describe).

(** X20. The parameters that [train_classifier] returns name the date,
    the run and the mouse of the target, the day trained on, which is the
    day of the target's date, and the run numbers of the training runs
    and of the running runs used, each in ascending order. *)
Theorem returned_parameters_name_the_runs (r : Run)
    (training_runs running_runs : option (list Run))
    (training_date : option Date) (verbose : bool)
    (pars : list (string * pyval)) (g : rng)
    (model : AODE P D L M) (params' : params) (nan : list bool) :
  snd (train r training_runs running_runs training_date verbose pars g)
  = ok (model, params', nan) ->
  let d := chosen_date r training_date in
  dict_get params' "comparison-date" = Some (VInt (date r))
  /\ dict_get params' "comparison-run" = Some (VInt (run r))
  /\ dict_get params' "mouse" = Some (VStr (mouse r))
  /\ dict_get params' "training-date" = Some (VInt (date_date (parent r)))
  /\ (exists numbers,
        dict_get params' "training-runs" = Some (VRuns numbers)
        /\ Sorted Z.le numbers
        /\ Permutation numbers
             (map run (resolved_runs date_runs d training_runs "training")))
  /\ (exists numbers,
        dict_get params' "training-other-running-runs" = Some (VRuns numbers)
        /\ Sorted Z.le numbers
        /\ Permutation numbers
             (map run (resolved_runs date_runs d running_runs "running"))).
Proof.
  intros H d.
  destruct (train_inv _ _ _ _ _ _ _ _ _ _ _ _ _ _ _ _ _ _ _ _ H)
    as (c & a & k & raw & g' & tr & cl & Hd & _ & _ & _ & _ & _ & _ & _ & ->
        & _).
  fold d in Hd. apply resolve_training_date_same_day in Hd.
  unfold annotate.
  repeat split.
  - repeat (rewrite dict_get_set_other by discriminate).
    apply dict_get_set_same.
  - repeat (rewrite dict_get_set_other by discriminate).
    apply dict_get_set_same.
  - repeat (rewrite dict_get_set_other by discriminate).
    apply dict_get_set_same.
  - repeat (rewrite dict_get_set_other by discriminate).
    rewrite dict_get_set_same. fold d. rewrite Hd. reflexivity.
  - eexists. split; [apply dict_get_set_same |].
    split; [apply sorted_ascending | apply sorted_perm].
  - eexists. split.
    + rewrite dict_get_set_other by discriminate. apply dict_get_set_same.
    + split; [apply sorted_ascending | apply sorted_perm].
Qed.

(** X21. Every returned parameter that neither the conversion to frames
    nor the final update writes holds the value of the last keyword
    argument whose name, with hyphens for underscores, is its key, and
    the default of [config.default()] when there is no such argument. *)
Theorem returned_parameters_are_overridden_defaults (r : Run)
    (training_runs running_runs : option (list Run))
    (training_date : option Date) (verbose : bool)
    (pars : list (string * pyval)) (g : rng)
    (model : AODE P D L M) (params' : params) (nan : list bool)
    (key : string) :
  snd (train r training_runs running_runs training_date verbose pars g)
  = ok (model, params', nan) ->
  ~ In key (written_by_conversion ++ written_after_training) ->
  dict_get params' key
  = match override pars key with
    | Some v => Some v
    | None => dict_get config_default key
    end.
Proof.
  intros H Hkey.
  destruct (train_inv _ _ _ _ _ _ _ _ _ _ _ _ _ _ _ _ _ _ _ _ H)
    as (c & a & k & raw & g' & tr & cl & _ & Hc & _ & _ & _ & _ & _ & _ & ->
        & _).
  unfold annotate.
  repeat (rewrite dict_get_set_other;
          [| intros ->; apply Hkey; apply in_or_app; right; simpl; tauto]).
  rewrite (convert_keeps_other_keys _ _ _ key Hc)
    by (intros Hin; apply Hkey; apply in_or_app; left; exact Hin).
  apply overrides_lookup.
Qed.
End TrainingParameters.

(** ** Rescaling, merging and masks *)

Lemma clip01_in_unit_interval (x : float) : in_unit_interval (clip01 x).
Proof.
  destruct x as [| q]; cbn [clip01 in_unit_interval]; [exact I |].
  destruct (Qle_bool q 0) eqn:E0; cbn [in_unit_interval].
  - split; [apply Qle_refl | discriminate].
  - destruct (Qle_bool 1 q) eqn:E1; cbn [in_unit_interval].
    + split; [discriminate | apply Qle_refl].
    + split.
      * apply Qlt_le_weak, Qnot_le_lt. intros H.
        apply Qle_bool_iff in H. congruence.
      * apply Qlt_le_weak, Qnot_le_lt. intros H.
        apply Qle_bool_iff in H. congruence.
Qed.

Lemma dict_get_app_notin {V} (d1 d2 : dict V) (k : string) :
  ~ In k (dict_keys d1) -> dict_get (d1 ++ d2) k = dict_get d2 k.
Proof.
  induction d1 as [| [k0 v0] d1 IH]; simpl; intros H; [reflexivity |].
  destruct (String.eqb k k0) eqn:E.
  - apply String.eqb_eq in E. exfalso. apply H. left. congruence.
  - apply IH. intros Hin. apply H. right. exact Hin.
Qed.

Lemma dict_set_app_notin {V} (d1 d2 : dict V) (k : string) (v : V) :
  ~ In k (dict_keys d1) -> dict_set (d1 ++ d2) k v = d1 ++ dict_set d2 k v.
Proof.
  induction d1 as [| [k0 v0] d1 IH]; simpl; intros H; [reflexivity |].
  destruct (String.eqb k k0) eqn:E.
  - apply String.eqb_eq in E. exfalso. apply H. left. congruence.
  - f_equal. apply IH. intros Hin. apply H. right. exact Hin.
Qed.

Lemma rescale_loop (pars : params) (v : pyval) (mult : float) :
  dict_get pars "analog-training-multiplier" = Some v ->
  as_float v = ok mult ->
  forall (todo done : buckets),
    NoDup (dict_keys todo) ->
    (forall k, In k (dict_keys todo) -> ~ In k (dict_keys done)) ->
    for_each
      (fun (traces : buckets) cs =>
         ws <- dict_item traces cs ;;
         mult <- dict_item pars "analog-training-multiplier" ;;
         mult <- as_float mult ;;
         ok (dict_set traces cs (map (scale_clip mult) ws)))
      (dict_keys todo) (done ++ todo)
    = ok (done ++ rescaled mult todo).
Proof.
  intros Hv Hm. induction todo as [| [k ws] todo IH]; intros done Hnd Hdis.
  - reflexivity.
  - cbn [dict_keys map fst for_each]. unfold dict_item at 1.
    rewrite dict_get_app_notin by (apply Hdis; left; reflexivity).
    cbn [dict_get]. rewrite String.eqb_refl. cbn [bind ok].
    unfold dict_item at 1. rewrite Hv. cbn [bind ok]. rewrite Hm.
    cbn [bind ok].
    rewrite dict_set_app_notin by (apply Hdis; left; reflexivity).
    cbn [dict_set]. rewrite String.eqb_refl.
    change (done ++ (k, map (scale_clip mult) ws) :: todo)
      with (done ++ [(k, map (scale_clip mult) ws)] ++ todo).
    rewrite app_assoc.
    cbn [dict_keys map fst] in Hnd. inversion Hnd as [| ? ? Hnot Hnd']; subst.
    fold (dict_keys todo) in *.
    rewrite IH.
    + rewrite <- app_assoc. reflexivity.
    + exact Hnd'.
    + intros k' Hk' Hin. unfold dict_keys in Hin. rewrite map_app in Hin.
      apply in_app_or in Hin as [Hin | [<- | []]].
      * apply (Hdis k'); [right; exact Hk' | exact Hin].
      * apply Hnot. exact Hk'.
Qed.

(** X22. Over buckets with distinct names, the rescaling of lines
    102-104 returns every window of every bucket multiplied by
    ['analog-training-multiplier'] and clipped, buckets and windows in
    their order; every value of the result is missing or lies between 0
    and 1. *)
Theorem rescaling_clips_every_window (pars : params) (traces : buckets)
    (v : pyval) (mult : float) :
  NoDup (dict_keys traces) ->
  dict_get pars "analog-training-multiplier" = Some v ->
  as_float v = ok mult ->
  rescale_traces pars traces = ok (rescaled mult traces)
  /\ forall cs ws w fr x,
       In (cs, ws) (rescaled mult traces) -> In w ws ->
       In fr (frames w) -> In x fr ->
       in_unit_interval x.
Proof.
  intros Hnd Hv Hm. split.
  - unfold rescale_traces.
    apply (rescale_loop pars v mult Hv Hm traces [] Hnd).
    intros k _ [].
  - intros cs ws w fr x Hin Hw Hfr Hx. unfold rescaled in Hin.
    apply in_map_iff in Hin as ([cs0 ws0] & E & _). cbn [fst snd] in E.
    injection E as <- <-.
    apply in_map_iff in Hw as (w0 & <- & _). cbn [scale_clip frames] in Hfr.
    apply in_map_iff in Hfr as (fr0 & <- & _).
    apply in_map_iff in Hx as (x0 & <- & _).
    apply clip01_in_unit_interval.
Qed.

(** *** Merging *)

Lemma merge_into_needs_first (first : string) (res res' : results)
    (k : string) :
  merge_into first res k = ok res' ->
  exists a b, dict_get res first = Some a /\ dict_get res k = Some b
    /\ exists sum, res' = dict_remove (dict_set res first sum) k.
Proof.
  unfold merge_into. intros H.
  split_bind H as a Ha. split_bind H as b Hb. split_bind H as sum Hs.
  split_bind H as c Hc. injection H as <-.
  apply dict_item_ok in Ha, Hb. eauto 8.
Qed.

Lemma merge_into_keeps_missing (first : string) (res res' : results)
    (k c : string) :
  merge_into first res k = ok res' ->
  dict_get res c = None -> dict_get res' c = None.
Proof.
  intros H Hc.
  apply merge_into_needs_first in H as (a & b & Ha & Hb & sum & ->).
  rewrite dict_get_remove. destruct (String.eqb c k); [reflexivity |].
  rewrite dict_get_set. destruct (String.eqb c first) eqn:E; [| exact Hc].
  apply String.eqb_eq in E. subst c. congruence.
Qed.

Lemma merge_loop_missing (first c : string) (rest : list string) :
  forall res : results,
    dict_get res c = None ->
    (c = first /\ rest <> []) \/ In c rest ->
    forall out, for_each (merge_into first) rest res <> ok out.
Proof.
  induction rest as [| k rest IH]; intros res Hc Hin out H.
  - destruct Hin as [[_ Hne] | []]. now apply Hne.
  - cbn [for_each] in H. split_bind H as res' Hstep.
    pose proof (merge_into_keeps_missing _ _ _ _ c Hstep Hc) as Hc'.
    apply merge_into_needs_first in Hstep as (a & b & Ha & Hb & _).
    destruct Hin as [[-> _] | [-> | Hin]]; try congruence.
    apply (IH res' Hc' (or_intror Hin) out H).
Qed.

Lemma merge_loop_repeated_first (first : string) (rest : list string) :
  forall (res out : results),
    for_each (merge_into first) rest res = ok out ->
    dict_get res first = None \/ In first rest ->
    dict_get out first = None.
Proof.
  induction rest as [| k rest IH]; intros res out H Hin.
  - cbn [for_each] in H. injection H as <-.
    destruct Hin as [Hn | []]. exact Hn.
  - cbn [for_each] in H. split_bind H as res' Hstep.
    pose proof Hstep as Hs.
    apply merge_into_needs_first in Hs as (a & b & Ha & Hb & sum & E).
    destruct Hin as [Hn | [-> | Hin]].
    + congruence.
    + apply (IH res' out H). left. rewrite E, dict_get_remove.
      rewrite String.eqb_refl. reflexivity.
    + apply (IH res' out H). right. exact Hin.
Qed.

Lemma for_each_ok_each {S X} (body : S -> X -> result S) (xs : list X) :
  forall s s', for_each body xs s = ok s' ->
    forall x, In x xs -> exists s1 s2, body s1 x = ok s2.
Proof.
  induction xs as [| x0 xs IH]; intros s s' H x Hin; [destruct Hin |].
  cbn [for_each] in H. split_bind H as s1 Hs1.
  destruct Hin as [<- | Hin]; [eauto | eapply IH; eauto].
Qed.

Section MoreInference.
Variable np_sqrt : Q -> Q.
Variable date_runs : Date -> list string -> option (list string) -> list Run.
Context {P D L M : Type}.
Variable temporal_prior :
  matrix -> float -> float -> pyval -> option (list bool) ->
  result (list float).
Variable assign_temporal_priors :
  dict float -> list float -> string -> result P.

Local Abbreviation classify :=
  (classify_reactivations np_sqrt date_runs P D L M temporal_prior
     assign_temporal_priors).

(** X23. A merge list of two or more classes that names a class without
    a series in the results makes [classify_reactivations] raise, also
    when the missing class is the first one. *)
Theorem merging_a_missing_class_fails (r : Run) (model : AODE P D L M)
    (pars : params) (nan_cells : option (list bool))
    (replace_data : option matrix) (replace_priors : option (dict float))
    (replace_temporal_prior : option (list float))
    (replace_integrate_frames : option Z) (out0 : output P L M)
    (first c : string) (rest : list string) :
  classify r model pars nan_cells None replace_data replace_priors
    replace_temporal_prior replace_integrate_frames = ok out0 ->
  rest <> [] ->
  In c (first :: rest) ->
  dict_get (out_results out0) c = None ->
  forall out,
    classify r model pars nan_cells (Some (first :: rest)) replace_data
      replace_priors replace_temporal_prior replace_integrate_frames
    <> ok out.
Proof.
  intros H0 Hne Hin Hc out H.
  rewrite (classify_then_merge _ _ _ _ _ _ _ _ (first :: rest) _ _ _ _ _ H0)
    in H.
  split_bind H as res Hres. cbn [merge_results] in Hres.
  apply (merge_loop_missing first c rest (out_results out0) Hc) in Hres;
    [exact Hres |].
  destruct Hin as [<- | Hin]; [left; auto | right; exact Hin].
Qed.

(** X24. A merge list in which the first class occurs again: when the
    call returns, the results have no series for that class any more. *)
Theorem repeating_the_first_class_deletes_it (r : Run)
    (model : AODE P D L M) (pars : params) (nan_cells : option (list bool))
    (replace_data : option matrix) (replace_priors : option (dict float))
    (replace_temporal_prior : option (list float))
    (replace_integrate_frames : option Z) (out : output P L M)
    (first : string) (rest : list string) :
  In first rest ->
  classify r model pars nan_cells (Some (first :: rest)) replace_data
    replace_priors replace_temporal_prior replace_integrate_frames = ok out ->
  dict_get (out_results out) first = None.
Proof.
  intros Hin H. unfold classify_reactivations in H.
  split_bind H as c Hc. destruct c as [[[res lik] pri] nan].
  split_bind H as merged Hm. injection H as <-. cbn [out_results].
  cbn [merge_results] in Hm.
  apply (merge_loop_repeated_first first rest res merged Hm). right. exact Hin.
Qed.

(** X25. Without a supplied [nan_cells], the cell mask returned by
    [classify_reactivations] has one entry per cell of the compared data
    (the replacement data when given) and is true exactly at the cells
    whose values are all finite. *)
Theorem cell_mask_marks_cells_without_missing_values (r : Run)
    (model : AODE P D L M) (pars : params)
    (merge_cses : option (list string))
    (replace_data : option matrix) (replace_priors : option (dict float))
    (replace_temporal_prior : option (list float))
    (replace_integrate_frames : option Z) (out : output P L M) :
  classify r model pars None merge_cses replace_data replace_priors
    replace_temporal_prior replace_integrate_frames = ok out ->
  exists data,
    compared_data r pars replace_data data
    /\ length (out_cell_mask out) = ncells data
    /\ forall i, (i < ncells data)%nat ->
         (nth i (out_cell_mask out) false = true
          <-> forall fr, In fr (frames data) ->
                         isfinite (nth i fr NaN) = true).
Proof.
  intros H. unfold classify_reactivations in H.
  split_bind H as c Hc. destruct c as [[[res lik] pri] nan].
  split_bind H as merged Hm. injection H as <-. cbn [out_cell_mask].
  unfold compare_traces in Hc.
  split_bind Hc as data Hdata. cbv zeta in Hc.
  split_bind Hc as priors Hp. split_bind Hc as stim Hstim.
  split_bind Hc as used Hu. split_bind Hc as mv Hmv.
  split_bind Hc as mult Hmult. split_bind Hc as n Hn.
  split_bind Hc as cmp Hcmp. destruct cmp as [[res0 d0] lik0].
  injection Hc as <- <- <- <-.
  exists data. split; [| split].
  - unfold compared_data. destruct replace_data as [d |].
    + injection Hdata as <-. reflexivity.
    + split_bind Hdata as tv Htv. split_bind Hdata as tt Htt.
      injection Hdata as <-. apply dict_item_ok in Htv.
      exists tt. split; [| reflexivity].
      destruct tv; try discriminate. injection Htt as <-. exact Htv.
  - unfold invert, any_not_finite. rewrite !length_map, length_seq.
    reflexivity.
  - intros i Hi. unfold invert, any_not_finite.
    rewrite (nth_indep _ false (negb true))
      by (rewrite !length_map, length_seq; exact Hi).
    rewrite map_nth.
    rewrite (nth_indep _ true
               (existsb (fun fr => isnan (nth (ncells data) fr NaN))
                        (frames data)))
      by (rewrite length_map, length_seq; exact Hi).
    rewrite (map_nth (fun i => existsb (fun fr => isnan (nth i fr NaN))
                                       (frames data))).
    rewrite seq_nth by exact Hi. cbn [Nat.add].
    rewrite negb_true_iff. split.
    + intros E fr Hfr.
      destruct (isfinite (nth i fr NaN)) eqn:F; [reflexivity |].
      assert (X : existsb (fun fr => isnan (nth i fr NaN)) (frames data)
                  = true).
      { apply existsb_exists. exists fr. split; [exact Hfr |].
        unfold isnan. rewrite F. reflexivity. }
      congruence.
    + intros Hall.
      destruct (existsb _ (frames data)) eqn:E; [| reflexivity].
      apply existsb_exists in E as (fr & Hfr & Hnan).
      unfold isnan in Hnan. rewrite (Hall fr Hfr) in Hnan. discriminate.
Qed.

(** X26. Without replacement priors, a class of the model that has no
    entry in ['probability'] makes [classify_reactivations] raise. *)
Theorem class_without_probability_fails (r : Run) (model : AODE P D L M)
    (pars : params) (nan_cells : option (list bool))
    (merge_cses : option (list string)) (replace_data : option matrix)
    (replace_temporal_prior : option (list float))
    (replace_integrate_frames : option Z) (prob : dict float) (cs : string) :
  dict_get pars "probability" = Some (VFloats prob) ->
  In cs (classnames model) ->
  dict_get prob cs = None ->
  forall out,
    classify r model pars nan_cells merge_cses replace_data None
      replace_temporal_prior replace_integrate_frames
    <> ok out.
Proof.
  intros Hprob Hin Hcs out H. unfold classify_reactivations in H.
  split_bind H as c Hc. unfold compare_traces in Hc.
  split_bind Hc as data Hdata. cbv zeta in Hc.
  split_bind Hc as priors Hp.
  destruct (for_each_ok_each _ _ _ _ Hp cs Hin) as (s1 & s2 & Hbody).
  unfold dict_item at 1 in Hbody. rewrite Hprob in Hbody.
  cbn [bind ok as_floats] in Hbody.
  unfold dict_item in Hbody. rewrite Hcs in Hbody. discriminate.
Qed.
End MoreInference.

Lemma frame_priors_flat {P : Type} (np_sqrt : Q -> Q)
    (date_runs : Date -> list string -> option (list string) -> list Run)
    (temporal_prior :
       matrix -> float -> float -> pyval -> option (list bool) ->
       result (list float))
    (assign_temporal_priors : dict float -> list float -> string -> result P)
    (r : Run) (pars : params) (full_traces : matrix) (nan_cells : list bool)
    (priors : dict float) (stim_mask : option (list bool))
    (replace_temporal_prior : option (list float)) (v : pyval) :
  dict_get pars "temporal-dependent-priors" = Some v ->
  truthy v = false ->
  frame_priors np_sqrt date_runs P temporal_prior assign_temporal_priors r
    pars full_traces nan_cells priors stim_mask replace_temporal_prior
  = (tpriorvec <- match stim_mask with
                  | Some m =>
                      zero_where (repeat (Fin 1) (nframes full_traces)) m
                  | None => ok (repeat (Fin 1) (nframes full_traces))
                  end ;;
     assign_temporal_priors priors tpriorvec "other").
Proof.
  intros Hv Ht. unfold frame_priors, dict_item. rewrite Hv. cbn [bind ok].
  rewrite Ht. reflexivity.
Qed.

(** X27. With ['temporal-dependent-priors'] off, the result of
    [classify_reactivations] depends neither on [replace_temporal_prior]
    nor on the activity estimate and the temporal prior of [aode]. *)
Theorem flat_prior_ignores_activity {P D L M : Type}
    (np_sqrt np_sqrt' : Q -> Q)
    (date_runs date_runs' :
       Date -> list string -> option (list string) -> list Run)
    (temporal_prior temporal_prior' :
       matrix -> float -> float -> pyval -> option (list bool) ->
       result (list float))
    (assign_temporal_priors : dict float -> list float -> string -> result P)
    (r : Run) (model : AODE P D L M) (pars : params)
    (nan_cells : option (list bool)) (merge_cses : option (list string))
    (replace_data : option matrix) (replace_priors : option (dict float))
    (replace_temporal_prior replace_temporal_prior' : option (list float))
    (replace_integrate_frames : option Z) (v : pyval) :
  dict_get pars "temporal-dependent-priors" = Some v ->
  truthy v = false ->
  classify_reactivations np_sqrt date_runs P D L M temporal_prior
    assign_temporal_priors r model pars nan_cells merge_cses replace_data
    replace_priors replace_temporal_prior replace_integrate_frames
  = classify_reactivations np_sqrt' date_runs' P D L M temporal_prior'
      assign_temporal_priors r model pars nan_cells merge_cses replace_data
      replace_priors replace_temporal_prior' replace_integrate_frames.
Proof.
  intros Hv Ht. unfold classify_reactivations, compare_traces.
  destruct (match replace_data with Some d => ok d | None => _ end)
    as [e | full]; [reflexivity |]. cbn [bind]. cbv zeta.
  destruct (match replace_priors with Some p => ok p | None => _ end)
    as [e | priors]; [reflexivity |]. cbn [bind].
  destruct (build_stim_mask pars replace_data r) as [e | stim];
    [reflexivity |]. cbn [bind].
  rewrite !(frame_priors_flat _ _ _ _ _ _ _ _ _ _ _ v Hv Ht).
  reflexivity.
Qed.

(** ** Runs of the properties of the other functions *)

Lemma nan_cells_without_windows_raises_witness :
  _nan_cells [("plus", []); ("other", [])]
  = raise (ValueError "negative dimensions are not allowed").
Proof.
  apply (nan_cells_without_windows_raises [("plus", []); ("other", [])]).
  repeat constructor.
Defined.

Lemma nan_cells_marks_cells_with_missing_values_witness :
  exists mask,
    _nan_cells [("plus", [ex_gappy]); ("other", [])] = ok mask
    /\ length mask = 2%nat
    /\ forall i, (i < 2)%nat ->
         (nth i mask false = true
          <-> exists cs ws,
                In (cs, ws) [("plus", [ex_gappy]); ("other", [])]
                /\ cell_has_nan ws i = true).
Proof.
  apply (nan_cells_marks_cells_with_missing_values 2
           [("plus", [ex_gappy]); ("other", [])]).
  - intros cs ws H. simpl in H.
    destruct H as [E | [E | []]]; injection E as <- <-.
    + exists 2%nat. intros w [<- | []]. split; reflexivity.
    + exists 0%nat. intros w [].
  - exists "plus", ex_gappy, []. left. reflexivity.
Defined.

Lemma conversion_rounds_to_nearest_frame_witness :
  exists pars',
    _convert_time_to_frames ex_config (Fin (31 # 2)) = ok pars'
    /\ dict_get pars' "temporal-prior-fwhm-frames" = Some (VInt 39)
    /\ exists v ms n,
         dict_get ex_config "temporal-prior-fwhm-ms" = Some v
         /\ as_float v = ok (Fin ms)
         /\ dict_get pars' "temporal-prior-fwhm-frames" = Some (VInt n)
         /\ (inject_Z n - (1 # 2) <= ms / 1000 * (31 # 2)
             <= inject_Z n + (1 # 2))%Q.
Proof.
  eexists. split; [vm_compute; reflexivity |]. split; [reflexivity |].
  apply (conversion_rounds_to_nearest_frame ex_config _ (31 # 2)
           "temporal-prior-fwhm-ms" "temporal-prior-fwhm-frames").
  - vm_compute. reflexivity.
  - simpl. tauto.
Defined.

Lemma conversion_writes_frame_keys_only_witness :
  exists pars',
    _convert_time_to_frames ex_config (Fin (31 # 2)) = ok pars'
    /\ dict_get pars' "remove-stim" = dict_get ex_config "remove-stim"
    /\ dict_get pars' "excluded-time-around-onsets-ms"
       = Some (VTuple (VInt 1000) (VInt 1000))
    /\ dict_get pars' "excluded-time-around-onsets-frames"
       = Some (VTuple (VInt 16) (VInt 16)).
Proof.
  eexists. split; [vm_compute; reflexivity |].
  destruct (conversion_writes_frame_keys_only ex_config _ (Fin (31 # 2))
              ltac:(vm_compute; reflexivity)) as [Hkeep _].
  split; [| split; reflexivity].
  apply Hkeep. simpl. intuition discriminate.
Defined.

Lemma conversion_is_idempotent_witness :
  exists pars',
    _convert_time_to_frames ex_config (Fin (31 # 2)) = ok pars'
    /\ _convert_time_to_frames pars' (Fin (31 # 2)) = ok pars'.
Proof.
  eexists. split; [vm_compute; reflexivity |].
  apply (conversion_is_idempotent ex_config _ (Fin (31 # 2))).
  vm_compute. reflexivity.
Defined.

Lemma short_training_pool_gives_nan_witness :
  exists n,
    Some 1%nat = Some n
    /\ _activity sqrt_of_squares (catalogue_runs [ex_training_silent])
         ex_training_silent (Fin 1) (Fin 3) "deconvolved"
       = ok (NaN, NaN, Some (repeat false n)).
Proof.
  apply (short_training_pool_gives_nan sqrt_of_squares
           (catalogue_runs [ex_training_silent]) ex_training_silent
           (Fin 1) (Fin 3) [ex_training_silent]
           [Fin 1; Fin 2; Fin 3; Fin 4] (Some 1%nat)).
  - reflexivity.
  - reflexivity.
  - simpl. lia.
Defined.

Lemma activity_falls_back_on_empty_pool_witness :
  _activity sqrt_of_squares (catalogue_runs []) ex_rest (Fin 1) (Fin 3)
    "deconvolved"
  = ok (Fin (1 # 100), fmul (Fin (8 # 100)) (Fin 3), Some [])
  /\ _activity sqrt_of_squares (catalogue_runs [ex_training_blanked])
       ex_training_blanked (Fin 1) (Fin 3) "deconvolved"
     = ok (Fin (1 # 100), fmul (Fin (8 # 100)) (Fin 3), None).
Proof.
  split.
  - apply (proj1 (activity_falls_back_on_empty_pool sqrt_of_squares
                    (catalogue_runs []) ex_rest (Fin 1) (Fin 3) [])
             (mkMatrix 0 []) []); reflexivity.
  - apply (proj2 (activity_falls_back_on_empty_pool sqrt_of_squares
                    (catalogue_runs [ex_training_blanked]) ex_training_blanked
                    (Fin 1) (Fin 3) [ex_training_blanked])
             (Some 1%nat)); reflexivity.
Defined.

Lemma pool_skips_frames_before_last_onset_witness :
  exists popact' outliers',
    pool_spontaneous_run sqrt_of_squares (mkMatrix 0 [], []) ex_trials
    = ok (popact', outliers')
    /\ frames popact' = [[Fin 1]; [Fin 0]; [Fin 0]; [Fin 0]].
Proof.
  eexists. eexists. split; [vm_compute; reflexivity |].
  eapply (pool_skips_frames_before_last_onset sqrt_of_squares
            (mkMatrix 0 []) _ [] _ ex_trials).
  - simpl. lia.
  - vm_compute. reflexivity.
Defined.

Lemma training_pool_blanks_after_onsets_witness :
  pool_training_run ([Fin 7], None) ex_trials
  = ok ([Fin 7; Fin 0; Fin 0], Some 1%nat).
Proof.
  apply (training_pool_blanks_after_onsets [Fin 7] None ex_trials 4).
  - reflexivity.
  - lia.
  - repeat constructor; discriminate.
Defined.

Lemma no_model_when_target_is_a_running_run_witness :
  snd (train_classifier unit numpy_choice
         (catalogue_runs [ex_training_moving; ex_running]) ex_config
         unit unit unit unit ex_trained (fun _ => "model")
         ex_running None None None true [] tt)
  = raise (UnboundLocalError "out")
  /\ ~ In ModelTrained
       (fst (train_classifier unit numpy_choice
               (catalogue_runs [ex_training_moving; ex_running]) ex_config
               unit unit unit unit ex_trained (fun _ => "model")
               ex_running None None None true [] tt)).
Proof.
  split; [reflexivity |].
  apply (no_model_when_target_is_a_running_run unit numpy_choice
           (catalogue_runs [ex_training_moving; ex_running]) ex_config
           unit unit unit unit ex_trained (fun _ => "model")
           ex_running None None None true [] tt).
  reflexivity.
Defined.

Lemma training_effects_in_order_witness :
  exists model params' nan,
    snd (train_classifier unit numpy_choice
           (catalogue_runs [ex_training_gappy]) ex_config
           unit unit unit unit ex_trained (fun _ => "model")
           ex_target None (Some []) None true
           [("maximum_cs_onsets", VInt 5)] tt)
    = ok (model, params', nan)
    /\ fst (train_classifier unit numpy_choice
              (catalogue_runs [ex_training_gappy]) ex_config
              unit unit unit unit ex_trained (fun _ => "model")
              ex_target None (Some []) None true
              [("maximum_cs_onsets", VInt 5)] tt)
       = [RunsQueried ex_date ["training"] (Some ["hungry"]);
          TracesExtracted ex_target [ex_training_gappy] [];
          Printed "WARNING: Have not yet checked new timing version";
          ModelTrained;
          Printed "model";
          Printed "Warning: 1 cells have NaNs"]
    /\ exists all_cses k raw g' cap,
         _get_traces unit numpy_choice ex_target [ex_training_gappy] []
           all_cses k tt = ok (raw, g')
         /\ dict_get params' "maximum-cs-onsets" = Some cap
         /\ as_int cap = ok (max_n_onsets k)
         /\ fst (train_classifier unit numpy_choice
                   (catalogue_runs [ex_training_gappy]) ex_config
                   unit unit unit unit ex_trained (fun _ => "model")
                   ex_target None (Some []) None true
                   [("maximum_cs_onsets", VInt 5)] tt)
            = [RunsQueried ex_date ["training"] (Some ["hungry"])]
              ++ []
              ++ [TracesExtracted ex_target [ex_training_gappy] []]
              ++ map Printed (cap_warnings k raw)
              ++ [ModelTrained]
              ++ [Printed "model"]
              ++ map Printed (nan_warning nan).
Proof.
  eexists. eexists. eexists.
  split; [vm_compute; reflexivity |]. split; [vm_compute; reflexivity |].
  apply (training_effects_in_order unit numpy_choice
           (catalogue_runs [ex_training_gappy]) ex_config
           unit unit unit unit ex_trained (fun _ => "model")
           ex_target None (Some []) None true
           [("maximum_cs_onsets", VInt 5)] tt ex_model).
  vm_compute. reflexivity.
Defined.

Lemma returned_parameters_name_the_runs_witness :
  exists model params' nan,
    snd (train_classifier unit numpy_choice
           (catalogue_runs [ex_training_moving; ex_running]) ex_config
           unit unit unit unit ex_trained (fun _ => "model")
           ex_target None None None false [] tt)
    = ok (model, params', nan)
    /\ dict_get params' "comparison-run" = Some (VInt 3)
    /\ dict_get params' "training-runs" = Some (VRuns [4])
    /\ dict_get params' "training-other-running-runs" = Some (VRuns [2])
    /\ dict_get params' "training-date" = Some (VInt 190101).
Proof.
  eexists. eexists. eexists. split; [vm_compute; reflexivity |].
  destruct (returned_parameters_name_the_runs unit numpy_choice
              (catalogue_runs [ex_training_moving; ex_running]) ex_config
              unit unit unit unit ex_trained (fun _ => "model")
              ex_target None None None false [] tt _ _ _
              ltac:(vm_compute; reflexivity))
    as (_ & Hrun & _ & Hdate & _).
  split; [exact Hrun |]. split; [reflexivity |]. split; [reflexivity |].
  exact Hdate.
Defined.

Lemma returned_parameters_are_overridden_defaults_witness :
  exists model params' nan,
    snd (train_classifier unit numpy_choice
           (catalogue_runs [ex_training_moving; ex_running]) ex_config
           unit unit unit unit ex_trained (fun _ => "model")
           ex_target None None None false
           [("lick_cutoff", VInt 5); ("remove_stim", VBool false);
            ("lick_cutoff", VInt 3)] tt)
    = ok (model, params', nan)
    /\ dict_get params' "lick-cutoff" = Some (VInt 3)
    /\ dict_get params' "trace-type" = Some (VStr "deconvolved").
Proof.
  eexists. eexists. eexists. split; [vm_compute; reflexivity |].
  split.
  - apply (returned_parameters_are_overridden_defaults unit numpy_choice
             (catalogue_runs [ex_training_moving; ex_running]) ex_config
             unit unit unit unit ex_trained (fun _ => "model")
             ex_target None None None false
             [("lick_cutoff", VInt 5); ("remove_stim", VBool false);
              ("lick_cutoff", VInt 3)] tt _ _ _ "lick-cutoff"
             ltac:(vm_compute; reflexivity)).
    simpl. intuition discriminate.
  - apply (returned_parameters_are_overridden_defaults unit numpy_choice
             (catalogue_runs [ex_training_moving; ex_running]) ex_config
             unit unit unit unit ex_trained (fun _ => "model")
             ex_target None None None false
             [("lick_cutoff", VInt 5); ("remove_stim", VBool false);
              ("lick_cutoff", VInt 3)] tt _ _ _ "trace-type"
             ltac:(vm_compute; reflexivity)).
    simpl. intuition discriminate.
Defined.

Lemma rescaling_clips_every_window_witness :
  rescale_traces ex_config
    [("plus", [one_cell [3; 1]%Q]); ("other", [one_cell [-1; 0]%Q])]
  = ok [("plus", [one_cell [1; 1 # 2]%Q]); ("other", [one_cell [0; 0]%Q])].
Proof.
  apply (rescaling_clips_every_window ex_config
           [("plus", [one_cell [3; 1]%Q]); ("other", [one_cell [-1; 0]%Q])]
           (VFloat (Fin (1 # 2))) (Fin (1 # 2))).
  - repeat constructor; simpl; intuition discriminate.
  - reflexivity.
  - reflexivity.
Defined.

Lemma merging_a_missing_class_fails_witness :
  classify_reactivations sqrt_of_squares (catalogue_runs [ex_trials])
    unit unit unit unit ex_temporal_prior ex_assign_priors ex_trials
    ex_model ex_pars None (Some ["A"; "C"]) None None None None
  = raise (KeyError "C")
  /\ forall out,
       classify_reactivations sqrt_of_squares (catalogue_runs [ex_trials])
         unit unit unit unit ex_temporal_prior ex_assign_priors ex_trials
         ex_model ex_pars None (Some ["A"; "C"]) None None None None
       <> ok out.
Proof.
  split; [reflexivity |].
  apply (merging_a_missing_class_fails sqrt_of_squares
           (catalogue_runs [ex_trials]) ex_temporal_prior ex_assign_priors
           ex_trials ex_model ex_pars None None None None None _ "A" "C" ["C"]
           eq_refl).
  - discriminate.
  - simpl. tauto.
  - reflexivity.
Defined.

Lemma repeating_the_first_class_deletes_it_witness :
  exists out,
    classify_reactivations sqrt_of_squares (catalogue_runs [ex_trials])
      unit unit unit unit ex_temporal_prior ex_assign_priors ex_trials
      ex_model ex_pars None (Some ["A"; "A"]) None None None None
    = ok out
    /\ dict_get (out_results out) "A" = None
    /\ dict_keys (out_results out) = ["B"; "other"].
Proof.
  eexists. split; [vm_compute; reflexivity |]. split; [| reflexivity].
  apply (repeating_the_first_class_deletes_it sqrt_of_squares
           (catalogue_runs [ex_trials]) ex_temporal_prior ex_assign_priors
           ex_trials ex_model ex_pars None None None None None _ "A" ["A"]).
  - simpl. tauto.
  - vm_compute. reflexivity.
Defined.

Lemma cell_mask_marks_cells_without_missing_values_witness :
  exists out,
    classify_reactivations sqrt_of_squares (catalogue_runs [ex_trials])
      unit unit unit unit ex_temporal_prior ex_assign_priors ex_trials
      ex_model ex_pars None None (Some ex_gappy) None None None
    = ok out
    /\ out_cell_mask out = [true; false]
    /\ exists data,
         compared_data ex_trials ex_pars (Some ex_gappy) data
         /\ length (out_cell_mask out) = ncells data
         /\ forall i, (i < ncells data)%nat ->
              (nth i (out_cell_mask out) false = true
               <-> forall fr, In fr (frames data) ->
                              isfinite (nth i fr NaN) = true).
Proof.
  eexists. split; [vm_compute; reflexivity |]. split; [reflexivity |].
  apply (cell_mask_marks_cells_without_missing_values sqrt_of_squares
           (catalogue_runs [ex_trials]) ex_temporal_prior ex_assign_priors
           ex_trials ex_model ex_pars None (Some ex_gappy) None None None).
  vm_compute. reflexivity.
Defined.

Lemma class_without_probability_fails_witness :
  classify_reactivations sqrt_of_squares (catalogue_runs [ex_trials])
    unit unit unit unit ex_temporal_prior ex_assign_priors ex_trials
    ex_model (dict_set ex_pars "probability" (VFloats [("A", Fin (1 # 2))]))
    None None None None None None
  = raise (KeyError "B")
  /\ forall out,
       classify_reactivations sqrt_of_squares (catalogue_runs [ex_trials])
         unit unit unit unit ex_temporal_prior ex_assign_priors ex_trials
         ex_model
         (dict_set ex_pars "probability" (VFloats [("A", Fin (1 # 2))]))
         None None None None None None
       <> ok out.
Proof.
  split; [reflexivity |].
  apply (class_without_probability_fails sqrt_of_squares
           (catalogue_runs [ex_trials]) ex_temporal_prior ex_assign_priors
           ex_trials ex_model
           (dict_set ex_pars "probability" (VFloats [("A", Fin (1 # 2))]))
           None None None None None [("A", Fin (1 # 2))] "B").
  - reflexivity.
  - simpl. tauto.
  - reflexivity.
Defined.

Lemma flat_prior_ignores_activity_witness :
  classify_reactivations sqrt_of_squares (catalogue_runs [ex_trials])
    unit unit unit unit ex_temporal_prior ex_assign_priors ex_trials
    ex_model ex_pars None None None None (Some [Fin 5]) None
  = classify_reactivations (fun q => q) (catalogue_runs [])
      unit unit unit unit (fun _ _ _ _ _ => raise AssertionError)
      ex_assign_priors ex_trials ex_model ex_pars None None None None None
      None.
Proof.
  apply (flat_prior_ignores_activity sqrt_of_squares (fun q => q)
           (catalogue_runs [ex_trials]) (catalogue_runs [])
           ex_temporal_prior (fun _ _ _ _ _ => raise AssertionError)
           ex_assign_priors ex_trials ex_model ex_pars None None None None
           (Some [Fin 5]) None None (VBool false)).
  - reflexivity.
  - reflexivity.
Defined.
